(** * PDF-Compare packaging scripts: a shallow embedding

    The repository's three scripts are glue around a file system:
    - [scripts/download_poppler.py]   (the Fetcher),
    - [scripts/build_macos.py]        (the Resolver and the Bundle Assembler),
    - [scripts/pyinstaller_hooks/rthook_tcltk_macos.py] (the Runtime Path Hook).

    The embedding has a small model of the file system the scripts act on
    (a tree of named entries), of the pathlib / shutil / zipfile calls they
    make, and then the scripts themselves, block by block. *)

From Stdlib Require Import ZArith Ascii.
From stdpp Require Import base option list strings gmap.

Set Warnings "-register-all".

Local Open Scope Z_scope.

(** ** Strings, as Python's [str] methods see them

    A string is the sequence of its code points; the embedding has the
    code points below 256, which covers every text the scripts hold. *)

Module Str.

Definition startswith (s pre : string) : bool := String.prefix pre s.

Definition rev (s : string) : string :=
    String.string_of_list_ascii (List.rev (String.list_ascii_of_string s)).

Definition endswith (s suf : string) : bool := String.prefix (rev suf) (rev s).

(** [str.isspace] on the code points below 256: the ASCII white space and
    separators, NEXT LINE (133) and NO-BREAK SPACE (160).  [str.strip]
    removes exactly these. *)
Definition isspace (c : ascii) : bool :=
    let n := nat_of_ascii c in
    ((9 <=? n)%nat && (n <=? 13)%nat) || ((28 <=? n)%nat && (n <=? 32)%nat)
    || (n =? 133)%nat || (n =? 160)%nat.

Fixpoint lstrip (s : string) : string :=
    match s with
    | String c s' => if isspace c then lstrip s' else s
    | EmptyString => EmptyString
    end.

Definition rstrip (s : string) : string := rev (lstrip (rev s)).

Definition strip (s : string) : string := rstrip (lstrip s).

(** [str.lower] on one code point below 256: the letters A-Z, and the
    accented capitals 192-222 but for the multiplication sign (215). *)
Definition lower_char (c : ascii) : ascii :=
    let n := nat_of_ascii c in
    if ((65 <=? n)%nat && (n <=? 90)%nat)
       || ((192 <=? n)%nat && (n <=? 222)%nat && negb (n =? 215)%nat)
    then ascii_of_nat (n + 32) else c.

Fixpoint lower (s : string) : string :=
    match s with
    | String c s' => String (lower_char c) (lower s')
    | EmptyString => EmptyString
    end.

(** ["=" * 60] *)
Fixpoint times (s : string) (n : nat) : string :=
    match n with
    | O => EmptyString
    | S n' => s +:+ times s n'
    end.

Definition isdigit (c : ascii) : bool :=
    let n := nat_of_ascii c in ((48 <=? n)%nat && (n <=? 57)%nat).

(** Decimal rendering of an integer, as [f"{percent}"] prints it. *)
Fixpoint digits (fuel : nat) (n : N) (acc : string) : string :=
    match fuel with
    | O => acc
    | S fuel' =>
        let acc' := String (ascii_of_N (48 + N.modulo n 10)) acc in
        if (n <? 10)%N then acc' else digits fuel' (N.div n 10) acc'
    end.

Definition of_Z (z : Z) : string :=
    let n := Z.to_N (Z.abs z) in
    let body := digits (S (N.to_nat (N.log2 n))) n EmptyString in
    if (z <? 0) then "-" +:+ body else body.

End Str.

(** ** Paths: [pathlib.Path] as the list of its components *)

Definition path := list string.

Module Path.

(** [p.parent]; the parent of the root is the root. *)
Definition parent (p : path) : path := removelast p.

(** [p.name] *)
Definition name (p : path) : string := List.last p EmptyString.

(** [p / c] *)
Definition div (p : path) (c : string) : path := p ++ [c].

(** [str(p)] *)
Definition str (p : path) : string :=
    match p with
    | [] => "/"
    | _ => List.fold_right (fun c acc => "/" +:+ c +:+ acc) EmptyString p
    end.

(** [q.is_relative_to(p)]: [p] is [q] or one of its ancestors. *)
Fixpoint is_under (p q : path) : bool :=
    match p, q with
    | [], _ => true
    | c :: p', d :: q' => bool_decide (c = d) && is_under p' q'
    | _ :: _, [] => false
    end.

End Path.

Notation "p // c" := (Path.div p c) (at level 40, left associativity).

(** ** The file system *)

(** What a file holds: bytes that are not a zip archive, or a zip archive
    with its members in archive order (a member is a file with its content,
    or a directory entry). *)
Inductive content :=
| Raw (bytes : string)
| Zip (members : list (path * option content)).

(** A directory lists its entries in the order they are enumerated in.
    That order is the operating system's business; the embedding fixes
    one, and where a script takes the first entry that passes a test, the
    properties are stated for layouts with one such entry, or in a form
    that does not depend on which one is taken. *)
Inductive node :=
| File (data : content)
| Dir (entries : list (string * node)).

Module FS.

Abbreviation entries_t := (list (string * node)).

Fixpoint child (c : string) (es : entries_t) : option node :=
    match es with
    | [] => None
    | (k, v) :: es' => if decide (k = c) then Some v else child c es'
    end.

Definition remove_child (c : string) (es : entries_t) : entries_t :=
    List.filter (fun kv => negb (bool_decide (kv.1 = c))) es.

(** Replace the entry named [c] where it stands, or add it (at the end of
    the list; where a new entry shows up in an enumeration is not
    specified by the operating system). *)
Fixpoint set_child (c : string) (n : node) (es : entries_t) : entries_t :=
    match es with
    | [] => [(c, n)]
    | (k, v) :: es' =>
        if decide (k = c) then (k, n) :: es' else (k, v) :: set_child c n es'
    end.

Fixpoint lookup (p : path) (n : node) : option node :=
    match p with
    | [] => Some n
    | c :: p' =>
        match n with
        | Dir es =>
            match child c es with
            | Some n' => lookup p' n'
            | None => None
            end
        | File _ => None
        end
    end.

(** [Path.exists], [Path.is_dir], [Path.is_file] *)
Definition exists_ (fs : node) (p : path) : bool :=
    match lookup p fs with Some _ => true | None => false end.

Definition is_dir (fs : node) (p : path) : bool :=
    match lookup p fs with Some (Dir _) => true | _ => false end.

Definition is_file (fs : node) (p : path) : bool :=
    match lookup p fs with Some (File _) => true | _ => false end.

(** [Path.iterdir]: the children of a directory, in enumeration order. *)
Definition iterdir (fs : node) (p : path) : list path :=
    match lookup p fs with
    | Some (Dir es) => List.map (fun kv => p // kv.1) es
    | _ => []
    end.

(** Rewrite the entry list of the directory at [p]; [None] when [p] is
    not a directory or [f] refuses (the call raises [OSError]). *)
Fixpoint with_dir (p : path) (f : entries_t -> option entries_t)
      (n : node) : option node :=
    match n with
    | File _ => None
    | Dir es =>
        match p with
        | [] => Dir <$> f es
        | c :: p' =>
            match child c es with
            | Some n' =>
                match with_dir p' f n' with
                | Some n'' => Some (Dir (set_child c n'' es))
                | None => None
                end
            | None => None
            end
        end
    end.

(** [Path.unlink]: the entry must be a file. *)
Definition unlink (p : path) (fs : node) : option node :=
    match p with
    | [] => None
    | _ =>
        with_dir (Path.parent p) (fun es =>
          match child (Path.name p) es with
          | Some (File _) => Some (remove_child (Path.name p) es)
          | _ => None
          end) fs
    end.

(** [shutil.rmtree]: the entry must be a directory; it goes with all it
    contains. *)
Definition rmtree (p : path) (fs : node) : option node :=
    match p with
    | [] => None
    | _ =>
        with_dir (Path.parent p) (fun es =>
          match child (Path.name p) es with
          | Some (Dir _) => Some (remove_child (Path.name p) es)
          | _ => None
          end) fs
    end.

(** [open(p, "wb")] followed by writing [data]: creates or truncates a
    file; refuses a directory. *)
Definition write_file (p : path) (data : content) (fs : node) : option node :=
    match p with
    | [] => None
    | _ =>
        with_dir (Path.parent p) (fun es =>
          match child (Path.name p) es with
          | Some (Dir _) => None
          | _ => Some (set_child (Path.name p) (File data) es)
          end) fs
    end.

(** [os.mkdir]: the entry must not exist. *)
Definition mkdir (p : path) (fs : node) : option node :=
    match p with
    | [] => None
    | _ =>
        with_dir (Path.parent p) (fun es =>
          match child (Path.name p) es with
          | Some _ => None
          | None => Some (set_child (Path.name p) (Dir []) es)
          end) fs
    end.

(** [Path.mkdir(parents=True, exist_ok=True)] and [os.makedirs] on a path
    that does not exist: every missing directory on the way is created; a
    file on the way makes the call raise. *)
Fixpoint makedirs (p : path) (n : node) : option node :=
    match n with
    | File _ => None
    | Dir es =>
        match p with
        | [] => Some n
        | c :: p' =>
            match makedirs p' (default (Dir []) (child c es)) with
            | Some n'' => Some (Dir (set_child c n'' es))
            | None => None
            end
        end
    end.

(** [Path.rename] onto a target that does not exist (the only use the
    scripts make of it): the source entry moves, with all it contains. *)
Definition rename (src dst : path) (fs : node) : option node :=
    match src, dst, lookup src fs with
    | _ :: _, _ :: _, Some n =>
        if exists_ fs dst || Path.is_under src dst then None
        else
          match with_dir (Path.parent src)
                  (fun es => Some (remove_child (Path.name src) es)) fs with
          | Some fs1 =>
              with_dir (Path.parent dst)
                (fun es => Some (set_child (Path.name dst) n es)) fs1
          | None => None
          end
    | _, _, _ => None
    end.

(** A rewriting of entry lists that keeps directories as they are and
    files as files. *)
Definition gentle (f : entries_t -> option entries_t) : Prop :=
  forall es es', f es = Some es' ->
  forall c, match child c es with
            | Some (File _) => exists d, child c es' = Some (File d)
            | Some (Dir x) => child c es' = Some (Dir x)
            | None => True
            end.

End FS.

(** ** [zipfile.ZipFile.extractall] *)

Module Zipfile.

Definition member := (path * option content)%type.

(** Extraction drops the empty, [.] and [..] components of a member name. *)
Definition sanitize (arcname : path) : path :=
    List.filter (fun c => negb (bool_decide (c = "" \/ c = "." \/ c = ".."))) arcname.

(** One member: missing upper directories are created, a directory member
    is created unless it is there, a file member is written.  The flag is
    [false] when the call raises; what was created before stays. *)
Definition extract_member (target : path) (m : member) (fs : node) : node * bool :=
    let targetpath := target ++ sanitize m.1 in
    let upperdirs := Path.parent targetpath in
    let made :=
      if FS.exists_ fs upperdirs then Some fs else FS.makedirs upperdirs fs in
    match made with
    | None => (fs, false)
    | Some fs1 =>
        let done_ :=
          match m.2 with
          | None =>
              if FS.is_dir fs1 targetpath then Some fs1 else FS.mkdir targetpath fs1
          | Some data => FS.write_file targetpath data fs1
          end in
        match done_ with
        | Some fs2 => (fs2, true)
        | None => (fs1, false)
        end
    end.

(** [extractall]: the members in archive order, until one raises.  The
    members are those the archive held when it was opened; this is what
    the call unpacks as long as it does not write onto the archive it reads
    from (see [lands_on]): after such a write, what the later reads find
    depends on how much of the archive was in memory already. *)
Fixpoint extractall (target : path) (ms : list member) (fs : node) : node * bool :=
    match ms with
    | [] => (fs, true)
    | m :: ms' =>
        let '(fs1, ok) := extract_member target m fs in
        if ok then extractall target ms' fs1 else (fs1, false)
    end.

(** A file member that extraction into [target] writes at [p]. *)
Definition lands_on (target p : path) (m : member) : bool :=
    match m.2 with
    | Some _ => bool_decide (target ++ sanitize m.1 = p)
    | None => false
    end.

End Zipfile.

(** ** Script runs: the process state, and how a run ends *)

Inductive dlmode := RTLD_LOCAL | RTLD_GLOBAL.

Inductive event :=
| Print (line : string)          (* [print(line)] *)
| Write (text : string)          (* [sys.stdout.write(text)] *)
| Input (prompt : string)        (* [input(prompt)] *)
| Stat (p : path)                (* a file-system probe the hook makes *)
| Spawn (argv : list string).    (* [subprocess.run(argv, ...)] *)

Inductive outcome :=
| Returned                       (* the script ran to its end, exit status 0 *)
| Exited (code : Z)              (* [sys.exit(code)] *)
| Raised (exn : string).         (* an exception nobody catches *)

(** What a script can touch: the file system, [os.environ], the shared
    libraries loaded into the process, and what it has said and asked. *)
Record world := World {
  w_fs : node;
  w_env : gmap string string;
  w_libs : list (path * dlmode);
  w_out : list event
}.

Definition boot (fs : node) : world := World fs ∅ [] [].

Inductive step (A : Type) :=
| Next (a : A)
| Stop (o : outcome).
Arguments Next {A} a.
Arguments Stop {A} o.

Definition run_m (A : Type) := world -> step A * world.

Definition ret {A} (a : A) : run_m A := fun w => (Next a, w).

Definition bind {A B} (m : run_m A) (k : A -> run_m B) : run_m B :=
  fun w => match m w with
           | (Next a, w') => k a w'
           | (Stop o, w') => (Stop o, w')
           end.

Declare Scope run_scope.
Delimit Scope run_scope with run.
Notation "x <- m ;; k" := (bind m (fun x => k))
  (at level 100, m at next level, right associativity) : run_scope.
Notation "m ;; k" := (bind m (fun _ => k))
  (at level 100, right associativity) : run_scope.

Definition emit (e : event) : run_m unit :=
  fun w => (Next tt, World (w_fs w) (w_env w) (w_libs w) (w_out w ++ [e])).
Definition print (line : string) : run_m unit := emit (Print line).
Definition stop {A} (o : outcome) : run_m A := fun w => (Stop o, w).
Definition get_fs : run_m node := fun w => (Next (w_fs w), w).
Definition put_fs (fs : node) : run_m unit :=
  fun w => (Next tt, World fs (w_env w) (w_libs w) (w_out w)).

(** A file-system call that raises [exn] when the model refuses it. *)
Definition fs_call (exn : string) (op : node -> option node) : run_m unit :=
  fun w => match op (w_fs w) with
           | Some fs' => (Next tt, World fs' (w_env w) (w_libs w) (w_out w))
           | None => (Stop (Raised exn), w)
           end.

(** [when c m]: an [if] without [else]. *)
Definition when (c : bool) (m : run_m unit) : run_m unit :=
  if c then m else ret tt.

(** How a whole script ends: falling off the end is a normal return. *)
Definition finish (r : step unit * world) : outcome * world :=
  match r with
  | (Next _, w) => (Returned, w)
  | (Stop o, w) => (o, w)
  end.

(** A run only ever adds to the console. *)
Definition grows {A} (m : run_m A) : Prop :=
  forall w, exists l, w_out (m w).2 = w_out w ++ l.

(** The commands a run has run, in order. *)
Definition commands (out : list event) : list (list string) :=
  List.flat_map (fun e => match e with Spawn argv => [argv] | _ => [] end) out.

Definition nl : string := String (ascii_of_nat 10) EmptyString.
Definition cr : string := String (ascii_of_nat 13) EmptyString.

(** ** [urllib.request.urlretrieve] *)

(** What the network does with the one request a run makes. *)
Inductive network :=
| Unreachable (reason : string)
    (* opening the URL raises; nothing is written *)
| Reply (size : Z) (received : Z) (body : content).
    (* the server answers: [size] is the Content-Length header, or -1
       without one; [received] bytes arrive, and they hold [body] *)

Module Urllib.

(** The block size [urlretrieve] reads with. *)
Definition bs : Z := 1024 * 8.

(** The number of blocks read for [received] bytes: the last one may be
    short. *)
Definition blocks (received : Z) : nat := Z.to_nat ((received + bs - 1) / bs).

(** The block counts the report hook is called with: 0 before the first
    read, then once after every block. *)
Definition hook_counts (received : Z) : list Z :=
    List.map Z.of_nat (seq 0 (S (blocks received))).

End Urllib.

(** ** The Fetcher: [scripts/download_poppler.py] *)

Module Fetcher.

Definition POPPLER_VERSION : string := "24.08.0-0".
Definition POPPLER_RELEASE : string := "poppler-" +:+ POPPLER_VERSION.
Definition POPPLER_URL : string :=
    "https://github.com/oschwartz10612/poppler-windows/releases/download/v"
    +:+ POPPLER_VERSION +:+ "/Release-" +:+ POPPLER_VERSION +:+ ".zip".

(** [percent = int(count * block_size * 100 / total_size)]: [None] is the
    [ZeroDivisionError] of a zero [total_size].  Python rounds the quotient
    of the two integers to the nearest double and [int] truncates that
    toward zero; the embedding takes the quotient exactly.  The two agree
    as long as [count * block_size * 100] is below [2^53] in absolute
    value (every integer up to there is a double, and the quotient is then
    too far from the next integer to be rounded onto it); beyond that
    Python may give one more, and beyond the range of doubles it raises
    [OverflowError]. *)
Definition percent (count block_size total_size : Z) : option Z :=
    if total_size =? 0 then None
    else Some (Z.quot (count * block_size * 100) total_size).

(** [progress_hook]: lines 26-29. *)
Definition progress_hook (count block_size total_size : Z) : run_m (option string) :=
    match percent count block_size total_size with
    | None => ret (Some "division by zero")
    | Some pc =>
        (emit (Write (cr +:+ "  Progress: " +:+ Str.of_Z pc +:+ "%")) ;;
         ret None)%run
    end.

(** The hook over the calls [urlretrieve] makes, until one raises. *)
Fixpoint report (counts : list Z) (size : Z) : run_m (option string) :=
    match counts with
    | [] => ret None
    | c :: counts' =>
        (r <- progress_hook c Urllib.bs size ;;
         match r with
         | Some e => ret (Some e)
         | None => report counts' size
         end)%run
    end.

(** [urlretrieve(url, dest_path, progress_hook)]: the result is the
    exception the call raises, if any. *)
Definition urlretrieve (net : network) (dest_path : path) : run_m (option string) :=
    match net with
    | Unreachable reason => ret (Some reason)
    | Reply size received body =>
        (fs <- get_fs ;;
         match FS.write_file dest_path (Raw "") fs with
         | None => ret (Some "cannot open the destination file")
         | Some fs0 =>
             put_fs fs0 ;;
             r0 <- progress_hook 0 Urllib.bs size ;;
             match r0 with
             | Some e => ret (Some e)
             | None =>
                 match FS.write_file dest_path body fs0 with
                 | None => ret (Some "cannot write the destination file")
                 | Some fs1 =>
                     put_fs fs1 ;;
                     r <- report (List.tl (Urllib.hook_counts received)) size ;;
                     match r with
                     | Some e => ret (Some e)
                     | None =>
                         if (0 <=? size) && (received <? size)
                         then ret (Some "retrieval incomplete")
                         else ret None
                     end
                 end
             end
         end)%run
    end.

(** [download_file]: lines 22-32. *)
Definition download_file (net : network) (url : string) (dest_path : path)
      : run_m (option string) :=
    (print ("Downloading: " +:+ url) ;;
     r <- urlretrieve net dest_path ;;
     match r with
     | Some e => ret (Some e)
     | None => print "" ;; ret None
     end)%run.

(** The network behaviours that make [urlretrieve] raise: no answer, an
    announced length of zero (the hook divides by it), or fewer bytes than
    announced. *)
Definition net_fails (net : network) : bool :=
    match net with
    | Unreachable _ => true
    | Reply size received _ => (size =? 0) || ((0 <=? size) && (received <? size))
    end.

Section Main.

(** [__file__] *)
Variable script_file : path.

Definition script_dir : path := Path.parent script_file.
Definition project_root : path := Path.parent script_dir.
Definition vendor_dir : path := project_root // "vendor".
Definition poppler_dir : path := vendor_dir // "poppler".
Definition zip_path : path := vendor_dir // "poppler.zip".
Definition pdftoppm : path := poppler_dir // "Library" // "bin" // "pdftoppm.exe".

(** Line 46: is the toolkit already installed? *)
Definition already_installed (fs : node) : bool :=
      FS.exists_ fs poppler_dir && FS.exists_ fs pdftoppm.

(** Line 48: [input(...).strip().lower()] *)
Definition normalise (answer : string) : string := Str.lower (Str.strip answer).

(** Line 47. *)
Definition notice : event :=
      Print (nl +:+ "Poppler already exists at: " +:+ Path.str poppler_dir).

(** Lines 45-52. *)
Definition confirm_overwrite (answer : string) : run_m unit :=
      (fs <- get_fs ;;
       when (already_installed fs)
         (print (nl +:+ "Poppler already exists at: " +:+ Path.str poppler_dir) ;;
          emit (Input "Re-download? (y/N): ") ;;
          let response := normalise answer in
          if bool_decide (response <> "y")
          then print "Skipping download." ;; stop Returned
          else fs_call "rmtree" (FS.rmtree poppler_dir)))%run.

(** Lines 64-67: what a failed download prints before the run exits. *)
Definition download_error_report (e : string) : list event :=
      [Print (nl +:+ "Error downloading: " +:+ e);
       Print (nl +:+ "Manual download instructions:");
       Print ("1. Download from: " +:+ POPPLER_URL);
       Print ("2. Extract to: " +:+ Path.str poppler_dir)].

(** Lines 57-68. *)
Definition download (net : network) : run_m unit :=
      (print (nl +:+ "[1/3] Downloading Poppler " +:+ POPPLER_VERSION +:+ "...") ;;
       r <- download_file net POPPLER_URL zip_path ;;
       match r with
       | None => ret tt
       | Some e =>
           print (nl +:+ "Error downloading: " +:+ e) ;;
           print (nl +:+ "Manual download instructions:") ;;
           print ("1. Download from: " +:+ POPPLER_URL) ;;
           print ("2. Extract to: " +:+ Path.str poppler_dir) ;;
           stop (Exited 1)
       end)%run.

(** Lines 70-73. *)
Definition extract : run_m unit :=
      (print (nl +:+ "[2/3] Extracting...") ;;
       fs <- get_fs ;;
       match FS.lookup zip_path fs with
       | Some (File (Zip members)) =>
           let '(fs', ok) := Zipfile.extractall vendor_dir members fs in
           put_fs fs' ;;
           if ok then ret tt else stop (Raised "OSError")
       | _ => stop (Raised "BadZipFile")
       end)%run.

(** The archive is not unpacked onto itself: none of its file members is
    written where the archive is. *)
Definition unpacks_beside (members : list Zipfile.member) : bool :=
      List.forallb (fun m => negb (Zipfile.lands_on vendor_dir zip_path m)) members.

(** The test of lines 79-80 on one child of the vendor directory. *)
Definition is_extraction_root (fs : node) (item : path) : bool :=
      FS.is_dir fs item
      && (Str.startswith (Path.name item) "poppler"
          || Str.startswith (Path.name item) "Release")
      && FS.exists_ fs (item // "Library" // "bin").

(** Lines 77-82: the first child that passes, [None] without one.  With
    more than one child that passes, which one comes first is up to the
    enumeration order. *)
Definition find_extracted_dir (fs : node) : option path :=
      List.find (is_extraction_root fs) (FS.iterdir fs vendor_dir).

(** [d] is the one child of the vendor directory that passes the test. *)
Definition sole_root (fs : node) (d : path) : Prop :=
      In d (FS.iterdir fs vendor_dir)
      /\ is_extraction_root fs d = true
      /\ forall item, In item (FS.iterdir fs vendor_dir) ->
                      is_extraction_root fs item = true -> item = d.

(** Lines 84-87. *)
Definition normalize (extracted_dir : option path) : run_m unit :=
      match extracted_dir with
      | Some d =>
          when (bool_decide (d <> poppler_dir))
            (fs <- get_fs ;;
             when (FS.exists_ fs poppler_dir)
               (fs_call "rmtree" (FS.rmtree poppler_dir)) ;;
             fs_call "rename" (FS.rename d poppler_dir))%run
      | None => ret tt
      end.

(** Lines 89-91. *)
Definition cleanup : run_m unit :=
      (print (nl +:+ "[3/3] Cleaning up...") ;;
       fs_call "unlink" (FS.unlink zip_path))%run.

Definition verification_error : string :=
      nl +:+ "Error: Poppler binaries not found after extraction".

(** Lines 93-105. *)
Definition verify : run_m unit :=
      (fs <- get_fs ;;
       if FS.exists_ fs pdftoppm then
         print (nl +:+ Str.times "=" 60) ;;
         print "SUCCESS!" ;;
         print (Str.times "=" 60) ;;
         print (nl +:+ "Poppler installed at: " +:+ Path.str poppler_dir) ;;
         print ("Binary location: " +:+ Path.str (poppler_dir // "Library" // "bin")) ;;
         print (nl +:+ "You can now build the standalone executable:") ;;
         print "  uv run python build_exe.py"
       else
         print verification_error ;;
         stop (Exited 1))%run.

(** Lines 75-105: what follows the extraction. *)
Definition settle : run_m unit :=
      (fs <- get_fs ;;
       normalize (find_extracted_dir fs) ;;
       cleanup ;;
       verify)%run.

(** Lines 70-105: what follows the download. *)
Definition install : run_m unit := (extract ;; settle)%run.

(** Lines 41-43. *)
Definition banner : list event :=
      [Print (Str.times "=" 60);
       Print "Poppler Downloader for Windows";
       Print (Str.times "=" 60)].

(** [main]: lines 35-105. *)
Definition main_body (answer : string) (net : network) : run_m unit :=
      (print (Str.times "=" 60) ;;
       print "Poppler Downloader for Windows" ;;
       print (Str.times "=" 60) ;;
       confirm_overwrite answer ;;
       fs_call "mkdir" (FS.makedirs vendor_dir) ;;
       download net ;;
       install)%run.

Definition main (answer : string) (net : network) (fs : node) : outcome * world :=
      finish (main_body answer net (boot fs)).

End Main.

End Fetcher.

(** ** The Runtime Path Hook: [scripts/pyinstaller_hooks/rthook_tcltk_macos.py] *)

Module Hook.

(** The two attributes of [sys] the hook reads: the truth value of
    [getattr(sys, 'frozen', False)], and [sys._MEIPASS] when it is set. *)
Record sys_t := Sys { frozen : bool; _MEIPASS : option path }.

(** [os.path.isdir] and [os.path.exists]; the hook's probes are logged. *)
Definition isdir (p : path) : run_m bool :=
    (emit (Stat p) ;; fs <- get_fs ;; ret (FS.is_dir fs p))%run.

Definition path_exists (p : path) : run_m bool :=
    (emit (Stat p) ;; fs <- get_fs ;; ret (FS.exists_ fs p))%run.

(** [os.environ[k] = v] *)
Definition setenv (k v : string) : run_m unit :=
    fun w => (Next tt, World (w_fs w) (<[k := v]> (w_env w)) (w_libs w) (w_out w)).

Section Body.

(** Whether the dynamic loader accepts the file at a path. *)
Variable dlopen : path -> bool.

(** [ctypes.CDLL(p, mode=mode)]: raises [OSError] when the loader
    refuses the file. *)
Definition CDLL (p : path) (mode : dlmode) : run_m unit :=
      fun w =>
        if dlopen p
        then (Next tt, World (w_fs w) (w_env w) (w_libs w ++ [(p, mode)]) (w_out w))
        else (Stop (Raised "OSError"), w).

(** The module body, lines 10-37. *)
Definition body (sys : sys_t) : run_m unit :=
      if frozen sys then
        match _MEIPASS sys with
        | None => stop (Raised "AttributeError")
        | Some bundle_dir =>
            (let tcl_dir := bundle_dir // "tcl9.0" in
             let tk_dir := bundle_dir // "tk9.0" in
             d1 <- isdir tcl_dir ;;
             when d1 (setenv "TCL_LIBRARY" (Path.str tcl_dir)) ;;
             d2 <- isdir tk_dir ;;
             when d2 (setenv "TK_LIBRARY" (Path.str tk_dir)) ;;
             let tcl_lib := bundle_dir // "libtcl9.0.dylib" in
             let tk_lib := bundle_dir // "libtcl9tk9.0.dylib" in
             e1 <- path_exists tcl_lib ;;
             let tcl_lib := if e1 then tcl_lib else bundle_dir // "libtcl8.6.dylib" in
             e2 <- path_exists tk_lib ;;
             let tk_lib := if e2 then tk_lib else bundle_dir // "libtk8.6.dylib" in
             l1 <- path_exists tcl_lib ;;
             when l1 (CDLL tcl_lib RTLD_GLOBAL) ;;
             l2 <- path_exists tk_lib ;;
             when l2 (CDLL tk_lib RTLD_GLOBAL))%run
        end
      else ret tt.

Definition run (sys : sys_t) (w : world) : outcome * world :=
      finish (body sys w).

(** The library file lines 25-32 settle on for one library: the primary
    name if it exists, the older name otherwise. *)
Definition resolved (fs : node) (bundle_dir : path) (primary older : string) : path :=
      if FS.exists_ fs (bundle_dir // primary)
      then bundle_dir // primary else bundle_dir // older.

End Body.

(** What the hook is expected to leave in [os.environ]: each variable is
    set when the data directory of the primary version is there. *)
Definition env_after (fs : node) (bundle_dir : path) (env : gmap string string)
    : gmap string string :=
    let env1 :=
      if FS.is_dir fs (bundle_dir // "tcl9.0")
      then <["TCL_LIBRARY" := Path.str (bundle_dir // "tcl9.0")]> env else env in
    if FS.is_dir fs (bundle_dir // "tk9.0")
    then <["TK_LIBRARY" := Path.str (bundle_dir // "tk9.0")]> env1 else env1.

(** What the hook is expected to load: each resolved library that exists,
    into the global namespace, Tcl first. *)
Definition loads (fs : node) (bundle_dir : path) : list (path * dlmode) :=
    let tcl_lib := resolved fs bundle_dir "libtcl9.0.dylib" "libtcl8.6.dylib" in
    let tk_lib := resolved fs bundle_dir "libtcl9tk9.0.dylib" "libtk8.6.dylib" in
    (if FS.exists_ fs tcl_lib then [(tcl_lib, RTLD_GLOBAL)] else [])
    ++ (if FS.exists_ fs tk_lib then [(tk_lib, RTLD_GLOBAL)] else []).

(** The probes of a frozen run that goes through. *)
Definition probes (fs : node) (bundle_dir : path) : list event :=
    [Stat (bundle_dir // "tcl9.0"); Stat (bundle_dir // "tk9.0");
     Stat (bundle_dir // "libtcl9.0.dylib");
     Stat (bundle_dir // "libtcl9tk9.0.dylib");
     Stat (resolved fs bundle_dir "libtcl9.0.dylib" "libtcl8.6.dylib");
     Stat (resolved fs bundle_dir "libtcl9tk9.0.dylib" "libtk8.6.dylib")].

End Hook.

(** ** The Resolver and the Bundle Assembler: [scripts/build_macos.py]

    The run of this script is its file-system effects, the commands it
    runs, the command line it hands to the freezing tool, and the way it
    ends.  Its console output is left out. *)

(** What [subprocess.run(pyinstaller_args, check=True)] does. *)
Inductive tool_result :=
| NotInstalled                              (* [FileNotFoundError] *)
| Unrunnable (exn : string)
    (* any other exception of the call itself, [PermissionError] for one *)
| Finished (returncode : Z) (fs' : node).   (* it ran and left [fs'] *)

(** What [subprocess.run(argv, capture_output=True, text=True)] does with
    one of the two probe commands. *)
Inductive completed :=
| CommandMissing                            (* [FileNotFoundError] *)
| Failed (exn : string)
    (* any other exception: [PermissionError] for a command that may not
       be executed, [UnicodeDecodeError] for output that is not text *)
| Completed (returncode : Z) (stdout : string).

Module Builder.

(** One entry of [pyinstaller_args]: a literal of the source, or one of
    its f-strings with what it interpolates. *)
Inductive arg :=
  | Lit (s : string)
  | RuntimeHook (p : path)                 (* f"--runtime-hook={p}" *)
  | AddBinary (src : path) (dest : string) (* f"--add-binary={src}:{dest}" *)
  | AddData (src : path) (dest : string)   (* f"--add-data={src}:{dest}" *)
  | HiddenImport (imp : string)            (* f"--hidden-import={imp}" *)
  | Icon (p : path)                        (* f"--icon={p}" *)
  | Script (p : path).                     (* str(entry_point) *)

Global Instance arg_eq_dec : EqDecision arg.
Proof. solve_decision. Defined.

(** The string the entry is. *)
Definition render (a : arg) : string :=
    match a with
    | Lit s => s
    | RuntimeHook p => "--runtime-hook=" +:+ Path.str p
    | AddBinary src dest => "--add-binary=" +:+ Path.str src +:+ ":" +:+ dest
    | AddData src dest => "--add-data=" +:+ Path.str src +:+ ":" +:+ dest
    | HiddenImport imp => "--hidden-import=" +:+ imp
    | Icon p => "--icon=" +:+ Path.str p
    | Script p => Path.str p
    end.

(** The file-system location an entry names, if it names one. *)
Definition arg_path (a : arg) : option path :=
    match a with
    | Lit _ | HiddenImport _ => None
    | RuntimeHook p | Icon p | Script p => Some p
    | AddBinary src _ | AddData src _ => Some src
    end.

  (** *** The glob patterns the script uses *)

(** [pre*suf] *)
Definition affix_match (pre suf : string) (name : string) : bool :=
    Str.startswith name pre && Str.endswith name suf
    && bool_decide (String.length pre + String.length suf <= String.length name)%nat.

(** [pre[0-9]*] *)
Definition versioned_match (pre : string) (name : string) : bool :=
    Str.startswith name pre
    && match String.get (String.length pre) name with
       | Some c => Str.isdigit c
       | None => false
       end.

(** [dir.glob(pattern)]: the children of [dir] whose name matches. *)
Definition glob (fs : node) (dir : path) (pattern : string -> bool) : list path :=
    List.filter (fun p => pattern (Path.name p)) (FS.iterdir fs dir).

(** Everything below a node, at any depth, as [rglob] comes by it: the
    entries of a directory first, then what is below each of them in
    turn. *)
Fixpoint walk (n : node) (p : path) : list path :=
    match n with
    | File _ => []
    | Dir es =>
        List.map (fun kv => p // kv.1) es
        ++ (fix go (es : list (string * node)) : list path :=
              match es with
              | [] => []
              | (k, v) :: es' => walk v (p // k) ++ go es'
              end) es
    end.

(** [dir.rglob(pattern)] *)
Definition rglob (fs : node) (dir : path) (pattern : string -> bool) : list path :=
    match FS.lookup dir fs with
    | Some n => List.filter (fun p => pattern (Path.name p)) (walk n dir)
    | None => []
    end.

(** The entry names the directory [v] itself. *)
Definition embeds (v : path) (a : arg) : bool :=
    match arg_path a with
    | Some p => bool_decide (p = v)
    | None => false
    end.

(** The entry names [v] or something below it. *)
Definition reaches_into (v : path) (a : arg) : bool :=
    match arg_path a with
    | Some p => Path.is_under v p
    | None => false
    end.

(** Neither of two locations is inside the other. *)
Definition apart (p q : path) : Prop :=
    Path.is_under p q = false /\ Path.is_under q p = false.

Definition hidden_imports : list string :=
    ["PIL"; "PIL.Image"; "customtkinter"; "cv2"; "numpy"; "pdf2image"; "pdfplumber"].

(** [check_system_poppler]: lines 22-34, on what running [which pdftoppm]
    does.  Only [FileNotFoundError] is caught. *)
Definition check_system_poppler (which : completed) : run_m (option string) :=
    (emit (Spawn ["which"; "pdftoppm"]) ;;
     match which with
     | Completed returncode stdout =>
         if returncode =? 0 then ret (Some (Str.strip stdout)) else ret None
     | CommandMissing => ret None
     | Failed exn => stop (Raised exn)
     end)%run.

(** [get_homebrew_poppler_path]: lines 37-49, on what running
    [brew --prefix poppler] does.  The result is the text the returned
    [Path] is made of; the script does nothing with it but print it. *)
Definition get_homebrew_poppler_path (brew : completed) : run_m (option string) :=
    (emit (Spawn ["brew"; "--prefix"; "poppler"]) ;;
     match brew with
     | Completed returncode stdout =>
         if returncode =? 0 then ret (Some (Str.strip stdout)) else ret None
     | CommandMissing => ret None
     | Failed exn => stop (Raised exn)
     end)%run.

(** The probe command ran to its end, or was not there: the call returns
    or raises the one exception that is caught. *)
Definition answers (c : completed) : bool :=
    match c with
    | Failed _ => false
    | _ => true
    end.

Section Main.

(** [Path(__file__)], absolute, and [sys.base_prefix]. *)
Variable script_file : path.
Variable base_prefix : path.

Definition script_dir : path := Path.parent script_file.
Definition project_root : path := Path.parent script_dir.
Definition poppler_dir : path := project_root // "vendor" // "poppler".
Definition poppler_bin : path := poppler_dir // "bin".

(** Line 102: the bundled-toolkit check. *)
Definition has_bundled_poppler (fs : node) : bool :=
      FS.exists_ fs poppler_bin && FS.exists_ fs (poppler_bin // "pdftoppm").

(** [find_tcl_tk_libs]: lines 52-86. *)
Definition find_tcl_tk_libs (fs : node) : list path * list path :=
      let python_prefix := base_prefix in
      let lib_dir := python_prefix // "lib" in
      let in_lib := FS.exists_ fs lib_dir in
      let binaries :=
        if in_lib then
          List.flat_map
            (fun pattern => List.filter (FS.is_file fs) (glob fs lib_dir pattern))
            [affix_match "libtcl" ".dylib"; affix_match "libtk" ".dylib"]
        else [] in
      let data :=
        if in_lib then
          List.flat_map
            (fun pattern => List.filter (FS.is_dir fs) (glob fs lib_dir pattern))
            [versioned_match "tcl"; versioned_match "tk"]
        else [] in
      let frameworks_dir := python_prefix // "Library" // "Frameworks" in
      let framework_binaries :=
        if FS.exists_ fs frameworks_dir then
          List.flat_map
            (fun framework =>
               let framework_path := frameworks_dir // framework in
               if FS.exists_ fs framework_path
               then List.filter (FS.is_file fs)
                      (rglob fs framework_path (affix_match "" ".dylib"))
               else [])
            ["Tcl.framework"; "Tk.framework"]
        else [] in
      (binaries ++ framework_binaries, data).

(** Lines 191-198: the icon, native format first. *)
Definition icon_args (fs : node) : list arg :=
      let icns := project_root // "assets" // "icon.icns" in
      let icon_path :=
        if FS.exists_ fs icns then icns else project_root // "assets" // "icon.ico" in
      if FS.exists_ fs icon_path then [Icon icon_path] else [].

(** Lines 136-208: the argument list, for the outcome of the bundled
    check and the file system the list is built on. *)
Definition pyinstaller_args (has_bundled : bool) (fs : node) : list arg :=
      let rthook_path := script_dir // "pyinstaller_hooks" // "rthook_tcltk_macos.py" in
      let '(tcl_tk_binaries, tcl_tk_data) := find_tcl_tk_libs fs in
      [ Lit "pyinstaller";
        Lit "--onefile";
        Lit "--windowed";
        Lit "--name=PDF Compare";
        Lit "--clean";
        Lit "--add-data=python/comparator.py:python";
        Lit "--add-data=python/compare_pdf.py:python";
        Lit "--collect-all=customtkinter";
        Lit "--collect-all=tkinter";
        RuntimeHook rthook_path;
        Lit "--codesign-identity=-" ]
      ++ List.map (fun lib => AddBinary lib ".") tcl_tk_binaries
      ++ List.map (fun data_dir => AddData data_dir (Path.name data_dir)) tcl_tk_data
      ++ (if has_bundled then [AddData poppler_dir "poppler"] else [])
      ++ List.map HiddenImport hidden_imports
      ++ icon_args fs
      ++ [ Lit "--osx-bundle-identifier=com.pdfcompare.app";
           Script (project_root // "python" // "main.py") ].

(** Lines 120-130: the previous build goes. *)
Fixpoint unlink_all (ps : list path) : run_m unit :=
      match ps with
      | [] => ret tt
      | p :: ps' => (fs_call "unlink" (FS.unlink p) ;; unlink_all ps')%run
      end.

Definition remove_folder (folder : string) : run_m unit :=
      (fs <- get_fs ;;
       when (FS.exists_ fs (project_root // folder))
         (fs_call "rmtree" (FS.rmtree (project_root // folder))))%run.

Definition clean : run_m unit :=
      (remove_folder "build" ;;
       remove_folder "dist" ;;
       fs <- get_fs ;;
       unlink_all (glob fs project_root (affix_match "" ".spec")))%run.

(** Lines 228-272, without the report. *)
Definition verify : run_m unit :=
      (fs <- get_fs ;;
       if FS.exists_ fs (project_root // "dist" // "PDF Compare.app")
       then ret tt else stop (Exited 1))%run.

(** The freezing tool: what it does with a command line on a file
    system. *)
Variable pyinstaller : list string -> node -> tool_result.

(** What running the two probe commands does on this machine. *)
Variable which_pdftoppm : completed.
Variable brew_prefix : completed.

(** Lines 89-130: all that comes before the argument list is built.  The
    result is what the bundled-toolkit check of line 102 said. *)
Definition prepare : run_m bool :=
      (fs <- get_fs ;;
       (if FS.is_dir fs project_root then ret tt
        else stop (Raised "FileNotFoundError")) ;;
       let has_bundled_poppler := has_bundled_poppler fs in
       system_poppler <- check_system_poppler which_pdftoppm ;;
       homebrew_poppler <- get_homebrew_poppler_path brew_prefix ;;
       clean ;;
       ret has_bundled_poppler)%run.

(** Lines 132-272: the argument list, the freezing tool, the check of
    what it left. *)
Definition build (has_bundled_poppler : bool) : run_m unit :=
      (fs1 <- get_fs ;;
       let argv := List.map render (pyinstaller_args has_bundled_poppler fs1) in
       emit (Spawn argv) ;;
       match pyinstaller argv fs1 with
       | NotInstalled => stop (Exited 1)
       | Unrunnable exn => stop (Raised exn)
       | Finished returncode fs2 =>
           put_fs fs2 ;;
           if returncode =? 0 then verify else stop (Exited 1)
       end)%run.

(** [main]: lines 89-272. *)
Definition main_body : run_m unit :=
      (has_bundled_poppler <- prepare ;;
       build has_bundled_poppler)%run.

Definition main (fs : node) : outcome * world := finish (main_body (boot fs)).

End Main.

End Builder.


(** * Notions the properties are stated with *)

Module Sample.

(** Where the scripts live in the examples. *)
Definition fetch_script : path := ["proj"; "scripts"; "download_poppler.py"].
Definition build_script : path := ["proj"; "scripts"; "build_macos.py"].

Definition exe : node := File (Raw "MZ").

(** A checkout with nothing fetched yet. *)
Definition fresh : node := Dir [("proj", Dir [("scripts", Dir [])])].

(** A checkout with the Windows toolkit installed at the canonical path. *)
Definition installed : node :=
  Dir [("proj", Dir [("scripts", Dir []);
                     ("vendor", Dir [("poppler", Dir [("Library", Dir [("bin",
                         Dir [("pdftoppm.exe", exe)])])])])])].

(** An archive with no toolkit layout in it. *)
Definition stray_archive : content :=
  Zip [(["docs"; "README.txt"], Some (Raw "hello"))].

(** An archive with the layout but without the binary. *)
Definition hollow_archive : content :=
  Zip [(["Release-24.08.0-0"; "Library"; "bin"; "README.txt"], Some (Raw "hello"))].

(** The release archive as it should be. *)
Definition release_archive : content :=
  Zip [(["Release-24.08.0-0"; "Library"; "bin"; "pdftoppm.exe"], Some (Raw "MZ"))].

(** The vendor directory after the hollow archive was unpacked. *)
Definition hollow_unpacked : node :=
  Dir [("proj", Dir [("scripts", Dir []);
                     ("vendor", Dir [("poppler.zip", File hollow_archive);
                                     ("Release-24.08.0-0",
                                      Dir [("Library", Dir [("bin",
                                        Dir [("README.txt", File (Raw "hello"))])])])])])].

(** The vendor directory after the stray archive was unpacked. *)
Definition stray_unpacked : node :=
  Dir [("proj", Dir [("scripts", Dir []);
                     ("vendor", Dir [("poppler.zip", File stray_archive);
                                     ("docs", Dir [("README.txt", File (Raw "hello"))])])])].

(** The vendor directory after the release archive was unpacked. *)
Definition release_unpacked : node :=
  Dir [("proj", Dir [("scripts", Dir []);
                     ("vendor", Dir [("poppler.zip", File release_archive);
                                     ("Release-24.08.0-0",
                                      Dir [("Library", Dir [("bin",
                                        Dir [("pdftoppm.exe", exe)])])])])])].

Definition release_root : path := ["proj"; "vendor"; "Release-24.08.0-0"].

(** A frozen bundle that carries the older Tcl/Tk only. *)
Definition bundle_dir : path := ["tmp"; "_MEI4711"].

Definition older_bundle : node :=
  Dir [("tmp", Dir [("_MEI4711",
         Dir [("libtcl8.6.dylib", File (Raw "dylib"));
              ("libtk8.6.dylib", File (Raw "dylib"));
              ("tcl8.6", Dir []); ("tk8.6", Dir [])])])].

(** A checkout on a Mac with the toolkit under [vendor/poppler], and a
    Python installation that brings Tcl/Tk along. *)
Definition python_prefix : path := ["opt"; "python"].

Definition mac_checkout : node :=
  Dir [("proj", Dir [("scripts", Dir []);
                     ("build", Dir [("stale", File (Raw ""))]);
                     ("PDF Compare.spec", File (Raw ""));
                     ("vendor", Dir [("poppler", Dir [("bin",
                         Dir [("pdftoppm", File (Raw "macho"))])])])]);
       ("opt", Dir [("python", Dir [("lib",
           Dir [("libtcl9.0.dylib", File (Raw "dylib"));
                ("libtcl9tk9.0.dylib", File (Raw "dylib"));
                ("tcl9.0", Dir []); ("tk9.0", Dir [])])])])].

(** The same checkout without the toolkit. *)
Definition mac_bare : node :=
  Dir [("proj", Dir [("scripts", Dir [])]);
       ("opt", Dir [("python", Dir [("lib", Dir [])])])].

(** A freezing tool that is not installed. *)
Definition no_tool (argv : list string) (fs : node) : tool_result := NotInstalled.

(** A freezing tool that builds the application. *)
Definition freezer (argv : list string) (fs : node) : tool_result :=
  match FS.makedirs ["proj"; "dist"; "PDF Compare.app"] fs with
  | Some fs' => Finished 0 fs'
  | None => Finished 1 fs
  end.

(** A checkout without the toolkit, and with a regular file where the
    build directory would be. *)
Definition mac_blocked : node :=
  Dir [("proj", Dir [("scripts", Dir []); ("build", File (Raw ""))]);
       ("opt", Dir [("python", Dir [("lib", Dir [])])])].

End Sample.


(** * Notions for frames and endings *)

Module Frame.

(** A rewriting of entry lists that leaves every entry but [c] alone. *)
Definition touches_only (c : string)
    (f : list (string * node) -> option (list (string * node))) : Prop :=
  forall es es', f es = Some es' ->
  forall c', c' <> c -> FS.child c' es' = FS.child c' es.

(** A step of a run that leaves what is at [q] as it is. *)
Definition keeps (q : path) {A} (m : run_m A) : Prop :=
  forall w, FS.lookup q (w_fs (m w).2) = FS.lookup q (w_fs w).

(** A step of a run that, when it stops the run, stops it in a way [P]
    allows. *)
Definition ends_in (P : outcome -> Prop) {A} (m : run_m A) : Prop :=
  forall w o w', m w = (Stop o, w') -> P o.

Definition raises (o : outcome) : Prop := exists e, o = Raised e.

End Frame.

Module Reports.

(** Lines 96-102 of [download_poppler.py]: what a successful run prints
    last. *)
Definition success_report (sf : path) : list event :=
  [Print (nl +:+ Str.times "=" 60);
   Print "SUCCESS!";
   Print (Str.times "=" 60);
   Print (nl +:+ "Poppler installed at: " +:+ Path.str (Fetcher.poppler_dir sf));
   Print ("Binary location: "
          +:+ Path.str (Fetcher.poppler_dir sf // "Library" // "bin"));
   Print (nl +:+ "You can now build the standalone executable:");
   Print "  uv run python build_exe.py"].

(** Line 28: one progress line. *)
Definition progress_line (pc : Z) : event :=
  Write (cr +:+ "  Progress: " +:+ Str.of_Z pc +:+ "%").

(** A string of white space only. *)
Fixpoint blank (s : string) : bool :=
  match s with
  | EmptyString => true
  | String c s' => Str.isspace c && blank s'
  end.

End Reports.

Module Loader.

(** The libraries of a list that get loaded when they are tried in order
    and the first refusal ends it. *)
Fixpoint accepted (dlopen : path -> bool) (ls : list (path * dlmode))
    : list (path * dlmode) :=
  match ls with
  | [] => []
  | (p, mode) :: ls' => if dlopen p then (p, mode) :: accepted dlopen ls' else []
  end.

Definition all_accepted (dlopen : path -> bool) (ls : list (path * dlmode)) : bool :=
  List.forallb (fun l => dlopen l.1) ls.

End Loader.


(** * Properties *)

(** ** The file-system model *)

Module FSFacts.
Import FS.

Lemma parent_div (p : path) (c : string) : Path.parent (p // c) = p.
Proof. unfold Path.parent, Path.div. apply removelast_last. Qed.

Lemma name_div (p : path) (c : string) : Path.name (p // c) = c.
Proof. unfold Path.name, Path.div. apply last_last. Qed.

Lemma div_nonempty (p : path) (c : string) : p // c <> [].
Proof. unfold Path.div. destruct p; discriminate. Qed.

Lemma div_inj (p : path) (c d : string) : p // c = p // d -> c = d.
Proof.
  unfold Path.div. intros H. apply app_inv_head in H. congruence.
Qed.

Lemma div2 (q : path) a b : q // a // b = q ++ [a; b].
Proof. unfold Path.div. by rewrite <- app_assoc. Qed.

Lemma div3 (q : path) a b c : q // a // b // c = q ++ [a; b; c].
Proof. unfold Path.div. by rewrite <- !app_assoc. Qed.

Lemma child_set_eq c n es : child c (set_child c n es) = Some n.
Proof.
  induction es as [|[k v] es IH]; simpl.
  - destruct (decide (c = c)); congruence.
  - destruct (decide (k = c)) as [->|Hk]; simpl.
    + destruct (decide (c = c)); congruence.
    + destruct (decide (k = c)); congruence.
Qed.

Lemma child_set_ne c c' n es : c <> c' -> child c' (set_child c n es) = child c' es.
Proof.
  intros Hne. induction es as [|[k v] es IH]; simpl.
  - destruct (decide (c = c')); congruence.
  - destruct (decide (k = c)) as [->|Hk]; simpl.
    + destruct (decide (c = c')); congruence.
    + destruct (decide (k = c')); congruence.
Qed.

Lemma child_remove_eq c es : child c (remove_child c es) = None.
Proof.
  induction es as [|[k v] es IH]; simpl; [done|].
  case_bool_decide as Hk; simpl; [done|].
  destruct (decide (k = c)); congruence.
Qed.

Lemma child_remove_ne c c' es : c <> c' -> child c' (remove_child c es) = child c' es.
Proof.
  intros Hne. induction es as [|[k v] es IH]; simpl; [done|].
  case_bool_decide as Hk; simpl.
  - subst k. destruct (decide (c = c')); congruence.
  - destruct (decide (k = c')); congruence.
Qed.

Lemma set_child_same c n es : child c es = Some n -> set_child c n es = es.
Proof.
  induction es as [|[k v] es IH]; simpl; [discriminate|].
  destruct (decide (k = c)) as [->|Hk]; intros H.
  - congruence.
  - f_equal. auto.
Qed.

Lemma child_In c es n : child c es = Some n -> In (c, n) es.
Proof.
  induction es as [|[k v] es IH]; simpl; [discriminate|].
  destruct (decide (k = c)) as [->|Hk]; intros H.
  - left. congruence.
  - right. auto.
Qed.

Lemma In_child c n es : In (c, n) es -> exists n', child c es = Some n'.
Proof.
  induction es as [|[k v] es IH]; simpl; [tauto|].
  intros [H|H]; destruct (decide (k = c)); eauto; congruence.
Qed.

Lemma In_set_child k v c n es :
  In (k, v) (set_child c n es) -> k = c \/ In (k, v) es.
Proof.
  induction es as [|[k0 v0] es IH]; simpl.
  - intros [H|[]]. left. congruence.
  - destruct (decide (k0 = c)) as [->|Hk]; simpl; intros [H|H].
    + left. congruence.
    + right. right. exact H.
    + right. left. exact H.
    + destruct (IH H); auto.
Qed.

Lemma In_remove_child k v c es :
  In (k, v) (remove_child c es) -> k <> c /\ In (k, v) es.
Proof.
  unfold remove_child. rewrite List.filter_In. simpl.
  intros [H Hb]. split; [|exact H].
  intros ->. rewrite bool_decide_true in Hb by done. discriminate.
Qed.

Lemma lookup_app p q n :
  lookup (p ++ q) n = match lookup p n with Some n' => lookup q n' | None => None end.
Proof.
  revert n. induction p as [|c p IH]; intros n; simpl; [done|].
  destruct n as [d|es]; [done|].
  destruct (child c es); [apply IH|done].
Qed.

Lemma lookup_div p c n :
  lookup (p // c) n =
  match lookup p n with Some (Dir es) => child c es | _ => None end.
Proof.
  unfold Path.div. rewrite lookup_app.
  destruct (lookup p n) as [[d|es]|]; simpl; try done.
  destruct (child c es); done.
Qed.

Lemma lookup_div_inv p c n x :
  lookup (p // c) n = Some x ->
  exists es, lookup p n = Some (Dir es) /\ child c es = Some x.
Proof.
  rewrite lookup_div. destruct (lookup p n) as [[d|es]|]; try done. eauto.
Qed.

Lemma exists_div_dir fs p c :
  exists_ fs (p // c) = true -> exists es, lookup p fs = Some (Dir es).
Proof.
  unfold exists_. destruct (lookup (p // c) fs) as [x|] eqn:H; [|done].
  intros _. destruct (lookup_div_inv _ _ _ _ H) as (es & H1 & _). eauto.
Qed.

(** A lookup below an entry of a known directory. *)
Lemma lookup_below p c r n es :
  lookup p n = Some (Dir es) ->
  lookup (p // c ++ r) n =
  match child c es with Some n' => lookup r n' | None => None end.
Proof.
  intros H. rewrite lookup_app, lookup_div, H. done.
Qed.

(** [with_dir] on a directory that is there: it succeeds exactly when the
    rewriting does, and the directory then holds the new entries. *)
Lemma with_dir_ok p f n es es' :
  lookup p n = Some (Dir es) -> f es = Some es' ->
  exists n', with_dir p f n = Some n' /\ lookup p n' = Some (Dir es').
Proof.
  revert n. induction p as [|c p IH]; intros n Hl Hf; simpl in *.
  - injection Hl as ->. rewrite Hf. simpl. eauto.
  - destruct n as [d|es0]; [done|].
    destruct (child c es0) as [n0|] eqn:Hc; [|done].
    destruct (IH n0 Hl Hf) as (n0' & Hw & Hl').
    rewrite Hw. eexists. split; [done|].
    simpl. rewrite child_set_eq. exact Hl'.
Qed.

Lemma with_dir_refused p f n es :
  lookup p n = Some (Dir es) -> f es = None -> with_dir p f n = None.
Proof.
  revert n. induction p as [|c p IH]; intros n Hl Hf; simpl in *.
  - injection Hl as ->. rewrite Hf. done.
  - destruct n as [d|es0]; [done|].
    destruct (child c es0) as [n0|] eqn:Hc; [|done].
    rewrite (IH n0 Hl Hf). done.
Qed.

Lemma with_dir_inv p f n n' :
  with_dir p f n = Some n' ->
  exists es es', lookup p n = Some (Dir es) /\ f es = Some es'
                 /\ lookup p n' = Some (Dir es').
Proof.
  revert n n'. induction p as [|c p IH]; intros n n' H; simpl in *.
  - destruct n as [d|es]; [done|].
    destruct (f es) as [es'|] eqn:Hf; simpl in H; [|done].
    injection H as <-. eauto.
  - destruct n as [d|es0]; [done|].
    destruct (child c es0) as [n0|] eqn:Hc; [|done].
    destruct (with_dir p f n0) as [n0'|] eqn:Hw; [|done].
    injection H as <-.
    destruct (IH _ _ Hw) as (es & es' & H1 & H2 & H3).
    exists es, es'. simpl. rewrite child_set_eq. auto.
Qed.

Lemma is_under_div p c c' : Path.is_under (p // c) (p // c') = bool_decide (c = c').
Proof.
  unfold Path.div. induction p as [|k p IH]; simpl.
  - by rewrite andb_true_r.
  - rewrite bool_decide_true by done. exact IH.
Qed.

Ltac at_div p c :=
  let E := fresh "E" in
  destruct (p // c) eqn:E; [by destruct (div_nonempty p c)|];
  rewrite <- E; rewrite parent_div, name_div; clear E.

Lemma rmtree_div p c fs es x :
  lookup p fs = Some (Dir es) -> child c es = Some (Dir x) ->
  exists fs', rmtree (p // c) fs = Some fs'
              /\ lookup p fs' = Some (Dir (remove_child c es)).
Proof.
  intros Hp Hc. unfold rmtree. at_div p c.
  eapply with_dir_ok; [exact Hp|]. simpl. by rewrite Hc.
Qed.

Lemma unlink_div p c fs es d :
  lookup p fs = Some (Dir es) -> child c es = Some (File d) ->
  exists fs', unlink (p // c) fs = Some fs'
              /\ lookup p fs' = Some (Dir (remove_child c es)).
Proof.
  intros Hp Hc. unfold unlink. at_div p c.
  eapply with_dir_ok; [exact Hp|]. simpl. by rewrite Hc.
Qed.

Lemma write_file_inv p c data fs fs' :
  write_file (p // c) data fs = Some fs' ->
  exists es, lookup p fs = Some (Dir es)
             /\ lookup p fs' = Some (Dir (set_child c (File data) es)).
Proof.
  unfold write_file. at_div p c. intros H.
  destruct (with_dir_inv _ _ _ _ H) as (es & es' & H1 & H2 & H3).
  exists es. split; [done|].
  destruct (child c es) as [[d|x]|]; simplify_eq; done.
Qed.

Lemma rename_div p c c' fs es n :
  lookup p fs = Some (Dir es) -> child c es = Some n -> child c' es = None ->
  exists fs', rename (p // c) (p // c') fs = Some fs'
              /\ lookup p fs' = Some (Dir (set_child c' n (remove_child c es))).
Proof.
  intros Hp Hc Hc'. unfold rename.
  assert (c <> c') as Hne by congruence.
  assert (exists_ fs (p // c') = false) as ->.
  { unfold exists_. by rewrite lookup_div, Hp, Hc'. }
  assert (lookup (p // c) fs = Some n) as Hs by (by rewrite lookup_div, Hp).
  destruct (p // c) eqn:E; [by destruct (div_nonempty p c)|]. rewrite <- E in *.
  destruct (p // c') eqn:E'; [by destruct (div_nonempty p c')|]. rewrite <- E'.
  rewrite Hs, is_under_div, bool_decide_false by done.
  rewrite !parent_div, !name_div. simpl.
  destruct (with_dir_ok p (fun es => Some (remove_child c es)) fs es _ Hp eq_refl)
    as (fs1 & -> & H1).
  eapply with_dir_ok; [exact H1|done].
Qed.

Lemma makedirs_existing p n es : lookup p n = Some (Dir es) -> makedirs p n = Some n.
Proof.
  revert n. induction p as [|c p IH]; intros n H; simpl in *.
  - by injection H as ->.
  - destruct n as [d|es0]; [done|].
    destruct (child c es0) as [n0|] eqn:Hc; [|done]. simpl.
    rewrite (IH _ H). by rewrite set_child_same.
Qed.

Lemma remove_child_absent c es : child c es = None -> remove_child c es = es.
Proof.
  induction es as [|[k v] es IH]; simpl; [done|].
  destruct (decide (k = c)) as [->|Hk]; [done|]. intros H.
  rewrite bool_decide_false by done. simpl. f_equal. auto.
Qed.

(** Two states of a directory that agree on one entry agree on all that
    is below it. *)
Lemma same_child_lookup p c fs fs' es es' r :
  lookup p fs = Some (Dir es) -> lookup p fs' = Some (Dir es') ->
  child c es' = child c es ->
  lookup (p // c ++ r) fs' = lookup (p // c ++ r) fs.
Proof.
  intros H H' Hc. by rewrite (lookup_below _ _ _ _ _ H), (lookup_below _ _ _ _ _ H'), Hc.
Qed.

(** *** Files stay files

    A gentle rewriting of entry lists keeps files as files at any depth. *)

Lemma with_dir_keeps_file p f n n' q :
  gentle f -> with_dir p f n = Some n' ->
  is_file n q = true -> is_file n' q = true.
Proof.
  intros Hf. unfold is_file. revert n n' q.
  induction p as [|c0 p IH]; intros n n' q Hw Hq; simpl in Hw.
  - destruct n as [d|es]; [done|].
    destruct (f es) as [es'|] eqn:Hfe; simpl in Hw; [|done]. injection Hw as <-.
    destruct q as [|c r]; simpl in *; [done|].
    specialize (Hf _ _ Hfe c).
    destruct (child c es) as [[d|x]|]; [| |done].
    + destruct Hf as [d' ->]. destruct r; simpl in *; done.
    + by rewrite Hf.
  - destruct n as [d|es0]; [done|].
    destruct (child c0 es0) as [n0|] eqn:Hc0; [|done].
    destruct (with_dir p f n0) as [n0'|] eqn:Hw0; [|done]. injection Hw as <-.
    destruct q as [|c r]; simpl in *; [done|].
    destruct (decide (c0 = c)) as [->|Hne].
    + rewrite child_set_eq. rewrite Hc0 in Hq. eapply IH; eauto.
    + by rewrite child_set_ne.
Qed.

Lemma gentle_write c data :
  gentle (fun es => match child c es with
                    | Some (Dir _) => None
                    | _ => Some (set_child c (File data) es)
                    end).
Proof.
  intros es es' H c'.
  assert (es' = set_child c (File data) es /\ forall x, child c es <> Some (Dir x))
    as [-> Hnd].
  { destruct (child c es) as [[d|x]|]; simplify_eq; split; congruence. }
  destruct (decide (c = c')) as [<-|Hne].
  - rewrite child_set_eq. destruct (child c es) as [[d|x]|]; eauto.
    by destruct (Hnd x).
  - rewrite child_set_ne by done. destruct (child c' es) as [[d|x]|]; eauto.
Qed.

Lemma gentle_mkdir c :
  gentle (fun es => match child c es with
                    | Some _ => None
                    | None => Some (set_child c (Dir []) es)
                    end).
Proof.
  intros es es' H c'.
  destruct (child c es) as [n|] eqn:Hc; [done|]. injection H as <-.
  destruct (decide (c = c')) as [<-|Hne].
  - by rewrite Hc.
  - rewrite child_set_ne by done. destruct (child c' es) as [[d|x]|]; eauto.
Qed.

Lemma write_file_keeps_file t data fs fs' q :
  write_file t data fs = Some fs' -> is_file fs q = true -> is_file fs' q = true.
Proof.
  unfold write_file. destruct t; [done|].
  apply with_dir_keeps_file, gentle_write.
Qed.

Lemma mkdir_keeps_file t fs fs' q :
  mkdir t fs = Some fs' -> is_file fs q = true -> is_file fs' q = true.
Proof.
  unfold mkdir. destruct t; [done|].
  apply with_dir_keeps_file, gentle_mkdir.
Qed.

Lemma makedirs_keeps_file p n n' q :
  makedirs p n = Some n' -> is_file n q = true -> is_file n' q = true.
Proof.
  unfold is_file. revert n n' q.
  induction p as [|c0 p IH]; intros n n' q Hm Hq; simpl in Hm.
  - destruct n; [done|]. by injection Hm as <-.
  - destruct n as [d|es0]; [done|].
    destruct (makedirs p (default (Dir []) (child c0 es0))) as [n0'|] eqn:Hm0;
      [|done].
    injection Hm as <-.
    destruct q as [|c r]; simpl in *; [done|].
    destruct (decide (c0 = c)) as [->|Hne].
    + rewrite child_set_eq.
      destruct (child c es0) as [n0|] eqn:Hc; [|done]. simpl in Hm0.
      eapply IH; eauto.
    + by rewrite child_set_ne.
Qed.

End FSFacts.

(** ** Extraction *)

Module ZipFacts.
Import FS FSFacts Zipfile.

Lemma extract_member_keeps_file target m fs q :
  is_file fs q = true -> is_file (extract_member target m fs).1 q = true.
Proof.
  intros Hq. unfold extract_member.
  set (targetpath := target ++ sanitize m.1).
  assert (forall fs1,
    (if exists_ fs (Path.parent targetpath) then Some fs
     else makedirs (Path.parent targetpath) fs) = Some fs1 ->
    is_file fs1 q = true) as Hmade.
  { intros fs1. destruct (exists_ fs (Path.parent targetpath)).
    - by intros [= <-].
    - intros H. eapply makedirs_keeps_file; eauto. }
  destruct (if exists_ fs (Path.parent targetpath) then Some fs
            else makedirs (Path.parent targetpath) fs) as [fs1|]; [|done].
  specialize (Hmade _ eq_refl).
  destruct m.2 as [data|].
  - destruct (write_file targetpath data fs1) as [fs2|] eqn:Hw; simpl; [|done].
    eapply write_file_keeps_file; eauto.
  - destruct (is_dir fs1 targetpath); simpl; [done|].
    destruct (mkdir targetpath fs1) as [fs2|] eqn:Hk; simpl; [|done].
    eapply mkdir_keeps_file; eauto.
Qed.

(** Extraction never removes a file or turns it into a directory: it can
    only overwrite it. *)
Lemma extractall_keeps_file target ms fs q :
  is_file fs q = true -> is_file (extractall target ms fs).1 q = true.
Proof.
  revert fs. induction ms as [|m ms IH]; intros fs Hq; simpl; [done|].
  pose proof (extract_member_keeps_file target m fs q Hq) as H1.
  destruct (extract_member target m fs) as [fs1 [|]]; simpl in *; auto.
Qed.

End ZipFacts.

(** ** Runs only add to the console *)

Module RunFacts.

Lemma grows_ret {A} (a : A) : grows (ret a).
Proof. intros w. exists []. simpl. by rewrite app_nil_r. Qed.

Lemma grows_stop {A} (o : outcome) : grows (@stop A o).
Proof. intros w. exists []. simpl. by rewrite app_nil_r. Qed.

Lemma grows_emit e : grows (emit e).
Proof. intros w. by exists [e]. Qed.

Lemma grows_print s : grows (print s).
Proof. apply grows_emit. Qed.

Lemma grows_get_fs : grows get_fs.
Proof. intros w. exists []. simpl. by rewrite app_nil_r. Qed.

Lemma grows_put_fs fs : grows (put_fs fs).
Proof. intros w. exists []. simpl. by rewrite app_nil_r. Qed.

Lemma grows_fs_call exn op : grows (fs_call exn op).
Proof.
  intros w. exists []. unfold fs_call.
  destruct (op (w_fs w)); simpl; by rewrite app_nil_r.
Qed.

Lemma grows_bind {A B} (m : run_m A) (k : A -> run_m B) :
  grows m -> (forall a, grows (k a)) -> grows (bind m k).
Proof.
  intros Hm Hk w. unfold bind.
  destruct (Hm w) as [l Hl]. destruct (m w) as [[a|o] w1]; simpl in *.
  - destruct (Hk a w1) as [l' Hl']. exists (l ++ l').
    rewrite Hl', Hl. by rewrite app_assoc.
  - by exists l.
Qed.

Lemma grows_when c m : grows m -> grows (when c m).
Proof. intros H. destruct c; simpl; [done|apply grows_ret]. Qed.

Create HintDb grows.
#[export] Hint Resolve grows_ret grows_stop grows_emit grows_print grows_get_fs
  grows_put_fs grows_fs_call grows_when : grows.

Ltac grow :=
  repeat first
    [ apply grows_bind; [|intros ?]
    | solve [auto with grows]
    | match goal with
      | |- grows (match ?x with _ => _ end) => destruct x
      | |- grows (if ?x then _ else _) => destruct x
      | |- grows (let '(_, _) := ?x in _) => destruct x
      end ].

End RunFacts.

(** ** The Fetcher *)

Module FetcherFacts.
Import FS FSFacts RunFacts Fetcher.

Lemma grows_progress_hook c b t : grows (progress_hook c b t).
Proof. unfold progress_hook. grow. Qed.

Lemma grows_report cs size : grows (report cs size).
Proof.
  induction cs as [|c cs IH]; simpl; [grow|].
  apply grows_bind; [apply grows_progress_hook|]. intros [e|]; [grow|exact IH].
Qed.

Lemma grows_urlretrieve net dest : grows (urlretrieve net dest).
Proof.
  destruct net as [reason|size received body]; simpl; [grow|].
  apply grows_bind; [grow|]. intros fs.
  destruct (write_file dest (Raw "") fs) as [fs0|]; [|grow].
  apply grows_bind; [grow|]. intros _.
  apply grows_bind; [apply grows_progress_hook|]. intros [e|]; [grow|].
  destruct (write_file dest body fs0) as [fs1|]; [|grow].
  apply grows_bind; [grow|]. intros _.
  apply grows_bind; [apply grows_report|]. intros [e|]; grow.
Qed.

Lemma grows_download sf net : grows (download sf net).
Proof.
  unfold download, download_file.
  apply grows_bind; [grow|]. intros _.
  apply grows_bind.
  - apply grows_bind; [grow|]. intros _.
    apply grows_bind; [apply grows_urlretrieve|]. intros [e|]; grow.
  - intros [e|]; grow.
Qed.

Lemma grows_normalize sf d : grows (normalize sf d).
Proof. unfold normalize. destruct d; [|grow]. apply grows_when. grow. Qed.

Lemma grows_install sf : grows (install sf).
Proof.
  unfold install, settle, extract, cleanup, verify.
  apply grows_bind.
  - grow.
  - intros _. apply grows_bind; [grow|]. intros fs.
    apply grows_bind; [apply grows_normalize|]. intros _. grow.
Qed.

Ltac run_step :=
  cbv beta iota delta
    [bind ret print emit stop get_fs put_fs fs_call when finish boot
     w_fs w_env w_libs w_out fst snd].

(** What follows the confirmation: lines 54-105. *)
Lemma main_body_eq sf answer net fs :
  main_body sf answer net (boot fs) =
  (confirm_overwrite sf answer ;;
   fs_call "mkdir" (makedirs (vendor_dir sf)) ;;
   download sf net ;;
   install sf)%run (World fs ∅ [] (banner)).
Proof. reflexivity. Qed.

Lemma grows_after_confirm sf net :
  grows (fs_call "mkdir" (makedirs (vendor_dir sf)) ;; download sf net ;; install sf)%run.
Proof.
  apply grows_bind; [grow|]. intros _.
  apply grows_bind; [apply grows_download|]. intros _. apply grows_install.
Qed.

Lemma confirm_yes sf answer w :
  already_installed sf (w_fs w) = true ->
  normalise answer = "y" ->
  confirm_overwrite sf answer w =
  match rmtree (poppler_dir sf) (w_fs w) with
  | Some fs' =>
      (Next tt, World fs' (w_env w) (w_libs w)
                  ((w_out w ++ [notice sf]) ++ [Input "Re-download? (y/N): "]))
  | None =>
      (Stop (Raised "rmtree"),
       World (w_fs w) (w_env w) (w_libs w)
         ((w_out w ++ [notice sf]) ++ [Input "Re-download? (y/N): "]))
  end.
Proof.
  destruct w as [fs env libs out]. simpl.
  intros Hinst Hy. unfold confirm_overwrite. run_step.
  rewrite Hinst. run_step. rewrite Hy. simpl.
  destruct (rmtree (poppler_dir sf) fs); reflexivity.
Qed.

Lemma confirm_no sf answer w :
  already_installed sf (w_fs w) = true ->
  normalise answer <> "y" ->
  confirm_overwrite sf answer w =
  (Stop Returned,
   World (w_fs w) (w_env w) (w_libs w)
     (((w_out w ++ [notice sf]) ++ [Input "Re-download? (y/N): "])
      ++ [Print "Skipping download."])).
Proof.
  destruct w as [fs env libs out]. simpl.
  intros Hinst Hn. unfold confirm_overwrite. run_step.
  rewrite Hinst. run_step. rewrite bool_decide_true by exact Hn. reflexivity.
Qed.

Lemma installed_inv sf fs :
  already_installed sf fs = true ->
  exists es x, lookup (vendor_dir sf) fs = Some (Dir es)
               /\ child "poppler" es = Some (Dir x).
Proof.
  unfold already_installed. intros H. apply andb_prop in H as [_ H].
  unfold pdftoppm in H.
  apply exists_div_dir in H as [e1 H]. apply lookup_div_inv in H as (e2 & H & _).
  apply lookup_div_inv in H as (x & H & _).
  unfold poppler_dir in H. apply lookup_div_inv in H as (es & H & Hc). eauto.
Qed.

Lemma report_total size cs fs env libs out :
  size <> 0 ->
  exists l, report cs size (World fs env libs out) =
            (Next None, World fs env libs (out ++ l)).
Proof.
  intros Hs. revert out. induction cs as [|c cs IH]; intros out; simpl.
  - exists []. by rewrite app_nil_r.
  - unfold progress_hook, percent. rewrite (proj2 (Z.eqb_neq _ _) Hs).
    run_step. destruct (IH (out ++ [Write (cr +:+ "  Progress: " +:+
        Str.of_Z (Z.quot (c * Urllib.bs * 100) size) +:+ "%")])) as [l Hl].
    rewrite Hl. eexists. by rewrite <- app_assoc.
Qed.

(** A download that fails ends the run with status 1 after the error
    report, and leaves every entry of the vendor directory but the archive
    as it was. *)
Lemma download_fails sf net fs env libs out :
  net_fails net = true ->
  exists fs' e pre,
    download sf net (World fs env libs out) =
      (Stop (Exited 1),
       World fs' env libs (out ++ pre ++ download_error_report sf e))
    /\ forall es, lookup (vendor_dir sf) fs = Some (Dir es) ->
         exists es', lookup (vendor_dir sf) fs' = Some (Dir es')
                     /\ forall c, c <> "poppler.zip" -> child c es' = child c es.
Proof.
  intros Hnet. unfold download, download_file, download_error_report.
  destruct net as [reason|size received body]; simpl in Hnet.
  - unfold urlretrieve. run_step. exists fs, reason. eexists [_; _]. split.
    + rewrite <- !app_assoc. reflexivity.
    + eauto.
  - unfold urlretrieve. run_step.
    destruct (write_file (zip_path sf) (Raw "") fs) as [fs0|] eqn:Hw0.
    2:{ run_step. exists fs. eexists. eexists [_; _]. split.
        - rewrite <- !app_assoc. reflexivity.
        - eauto. }
    apply write_file_inv in Hw0 as (es0 & H0 & H0').
    unfold progress_hook at 1, percent.
    destruct (size =? 0) eqn:Hz.
    { run_step. exists fs0. eexists. eexists [_; _]. split.
      - rewrite <- !app_assoc. reflexivity.
      - intros es Hv. rewrite Hv in H0. injection H0 as <-.
        eexists. split; [exact H0'|]. intros c Hc. by rewrite child_set_ne. }
    simpl in Hnet. run_step.
    destruct (write_file (zip_path sf) body fs0) as [fs1|] eqn:Hw1.
    2:{ run_step. exists fs0. eexists. eexists [_; _; _]. split.
        - rewrite <- !app_assoc. reflexivity.
        - intros es Hv. rewrite Hv in H0. injection H0 as <-.
          eexists. split; [exact H0'|]. intros c Hc. by rewrite child_set_ne. }
    apply write_file_inv in Hw1 as (es1 & H1 & H1').
    rewrite H0' in H1. injection H1 as <-.
    run_step.
    match goal with
    | |- context [ report ?cs size (World fs1 env libs ?o) ] =>
        destruct (report_total size cs fs1 env libs o) as [l ->];
          [by apply Z.eqb_neq|]
    end.
    rewrite Hnet. run_step.
    exists fs1. eexists. eexists ([_; _; _] ++ l). split.
    + rewrite <- !app_assoc. reflexivity.
    + intros es Hv. rewrite Hv in H0. injection H0 as <-.
      eexists. split; [exact H1'|]. intros c Hc. by rewrite !child_set_ne.
Qed.




(** C9: a confirmed re-download is not atomic.  When the toolkit is
    installed and the operator answers yes, the canonical directory is
    deleted before the download starts; if the download then fails, the run
    exits with status 1 and nothing is left at the canonical path. *)
Theorem C9_confirmed_refetch_loses_installation (sf : path) (fs : node)
    (answer : string) (net : network) :
  already_installed sf fs = true ->
  normalise answer = "y" ->
  net_fails net = true ->
  (main sf answer net fs).1 = Exited 1
  /\ exists_ (w_fs (main sf answer net fs).2) (poppler_dir sf) = false
  /\ exists_ (w_fs (main sf answer net fs).2) (pdftoppm sf) = false.
Proof.
  intros Hinst Hy Hnet.
  assert (exists fs' env libs out,
             main sf answer net fs = (Exited 1, World fs' env libs out)
             /\ lookup (poppler_dir sf) fs' = None)
    as (fs' & env & libs & out & -> & Hgone).
  { destruct (installed_inv _ _ Hinst) as (es & x & Hv & Hc).
    destruct (rmtree_div _ "poppler" _ _ _ Hv Hc) as (fs1 & Hrm & Hv1).
    unfold main. rewrite main_body_eq. unfold bind at 1.
    rewrite confirm_yes by done. simpl w_fs.
    fold (poppler_dir sf) in Hrm. rewrite Hrm.
    unfold bind at 1. unfold fs_call at 1. simpl w_fs.
    rewrite (makedirs_existing _ _ _ Hv1). simpl w_env. simpl w_libs. simpl w_out.
    unfold bind at 1.
    match goal with
    | |- context [ download sf net (World fs1 ?env ?libs ?out) ] =>
        destruct (download_fails sf net fs1 env libs out Hnet)
          as (fs' & e & pre & -> & Hfs')
    end.
    destruct (Hfs' _ Hv1) as (es' & Hv' & Hes').
    simpl. do 4 eexists. split; [reflexivity|].
    unfold poppler_dir. rewrite lookup_div, Hv', Hes' by done.
    apply child_remove_eq. }
  simpl. split; [done|].
  unfold exists_, pdftoppm.
  rewrite (lookup_div (poppler_dir sf // "Library" // "bin")),
    (lookup_div (poppler_dir sf // "Library")),
    (lookup_div (poppler_dir sf) "Library"), Hgone. done.
Qed.

(** The theorem at an installed checkout, the answer [y] and a network
    that is down. *)
Lemma C9_refetch_witness :
  already_installed Sample.fetch_script Sample.installed = true
  /\ normalise "y" = "y"
  /\ net_fails (Unreachable "offline") = true
  /\ (main Sample.fetch_script "y" (Unreachable "offline") Sample.installed).1
     = Exited 1
  /\ exists_ (w_fs (main Sample.fetch_script "y" (Unreachable "offline")
                     Sample.installed).2)
       (poppler_dir Sample.fetch_script) = false.
Proof.
  assert (already_installed Sample.fetch_script Sample.installed = true) as H1
    by reflexivity.
  assert (normalise "y" = "y") as H2 by reflexivity.
  assert (net_fails (Unreachable "offline") = true) as H3 by reflexivity.
  destruct (C9_confirmed_refetch_loses_installation
              Sample.fetch_script Sample.installed "y" (Unreachable "offline")
              H1 H2 H3) as (Ha & Hb & _).
  auto.
Defined.

(** *** After the extraction *)

Lemma iterdir_In fs p es item :
  lookup p fs = Some (Dir es) ->
  In item (iterdir fs p) <-> exists k v, In (k, v) es /\ item = p // k.
Proof.
  intros H. unfold iterdir. rewrite H, List.in_map_iff. split.
  - intros ([k v] & <- & Hin). eauto.
  - intros (k & v & Hin & ->). by exists (k, v).
Qed.

Lemma find_unique {A} (P : A -> bool) (l : list A) (x : A) :
  In x l -> P x = true -> (forall y, In y l -> P y = true -> y = x) ->
  List.find P l = Some x.
Proof.
  induction l as [|a l IH]; simpl; [done|]. intros Hin Hx Hu.
  destruct (P a) eqn:Ha.
  - f_equal. apply Hu; auto.
  - destruct Hin as [->|Hin]; [congruence|]. apply IH; auto.
Qed.

(** The root test looks at one entry of the vendor directory only. *)
Lemma root_test_same sf fs fs' es es' k :
  lookup (vendor_dir sf) fs = Some (Dir es) ->
  lookup (vendor_dir sf) fs' = Some (Dir es') ->
  child k es' = child k es ->
  is_extraction_root fs' (vendor_dir sf // k)
  = is_extraction_root fs (vendor_dir sf // k).
Proof.
  intros H H' Hc. unfold is_extraction_root, is_dir, exists_.
  rewrite div2.
  rewrite (same_child_lookup _ _ _ _ _ _ ["Library"; "bin"] H H' Hc).
  pose proof (same_child_lookup _ _ _ _ _ _ [] H H' Hc) as H0.
  rewrite !app_nil_r in H0. by rewrite H0.
Qed.

Lemma root_test_entry sf fs es k :
  lookup (vendor_dir sf) fs = Some (Dir es) ->
  is_extraction_root fs (vendor_dir sf // k) = true ->
  exists x, child k es = Some (Dir x).
Proof.
  intros H. unfold is_extraction_root, is_dir.
  rewrite lookup_div, H. destruct (child k es) as [[d|x]|]; simpl; eauto; done.
Qed.

(** Without an extraction root there is no binary directory at the
    canonical path. *)
Lemma no_root_no_bin sf fs :
  find_extracted_dir sf fs = None ->
  lookup (poppler_dir sf // "Library" // "bin") fs = None.
Proof.
  intros Hnone.
  destruct (lookup (poppler_dir sf // "Library" // "bin") fs) as [b|] eqn:Hb;
    [|done]. exfalso.
  pose proof Hb as Hb'.
  apply lookup_div_inv in Hb as (e1 & Hb & _).
  apply lookup_div_inv in Hb as (x & Hp & _).
  pose proof Hp as Hp'. unfold poppler_dir in Hp.
  apply lookup_div_inv in Hp as (es & Hv & Hc).
  apply child_In in Hc.
  assert (In (poppler_dir sf) (iterdir fs (vendor_dir sf))) as Hin.
  { apply (iterdir_In _ _ _ _ Hv). eauto. }
  eapply List.find_none in Hin; [|exact Hnone].
  unfold is_extraction_root, is_dir, exists_ in Hin.
  rewrite Hp', Hb' in Hin. unfold poppler_dir in Hin. rewrite name_div in Hin.
  done.
Qed.

(** Lines 89-105 with the archive in place: it goes, and the run ends on
    what the verification finds. *)
Lemma cleanup_verify sf fs env libs out es d :
  lookup (vendor_dir sf) fs = Some (Dir es) ->
  child "poppler.zip" es = Some (File d) ->
  exists fs',
    unlink (zip_path sf) fs = Some fs'
    /\ lookup (vendor_dir sf) fs' = Some (Dir (remove_child "poppler.zip" es))
    /\ ((exists_ fs' (pdftoppm sf) = true
         /\ exists l, (cleanup sf ;; verify sf)%run (World fs env libs out)
                      = (Next tt, World fs' env libs (out ++ l)))
        \/ (exists_ fs' (pdftoppm sf) = false
            /\ (cleanup sf ;; verify sf)%run (World fs env libs out)
               = (Stop (Exited 1),
                  World fs' env libs
                    (out ++ [Print (nl +:+ "[3/3] Cleaning up...");
                             Print verification_error])))).
Proof.
  intros Hv Hc.
  destruct (unlink_div _ _ _ _ _ Hv Hc) as (fs' & Hu & Hv').
  fold (zip_path sf) in Hu.
  exists fs'. split; [done|]. split; [done|].
  unfold cleanup, verify. run_step. rewrite Hu. run_step.
  destruct (exists_ fs' (pdftoppm sf)) eqn:He; [left|right]; (split; [done|]).
  - run_step. eexists. rewrite <- !app_assoc. reflexivity.
  - run_step. rewrite <- !app_assoc. reflexivity.
Qed.

(** Lines 84-87 on a root that is not at the canonical path: the stale
    canonical directory goes, and the root takes its place. *)
Lemma normalize_moves sf fs env libs out es k n :
  lookup (vendor_dir sf) fs = Some (Dir es) ->
  child k es = Some n ->
  k <> "poppler" ->
  (forall d, child "poppler" es <> Some (File d)) ->
  exists fs',
    normalize sf (Some (vendor_dir sf // k)) (World fs env libs out)
    = (Next tt, World fs' env libs out)
    /\ lookup (vendor_dir sf) fs'
       = Some (Dir (set_child "poppler" n
                      (remove_child k (remove_child "poppler" es)))).
Proof.
  intros Hv Hk Hne Hnf. unfold normalize.
  rewrite bool_decide_true.
  2:{ unfold poppler_dir. intros E. by apply div_inj in E. }
  unfold when at 1. cbv beta iota delta [bind get_fs w_fs].
  assert (exists fs1,
    (when (exists_ fs (poppler_dir sf)) (fs_call "rmtree" (rmtree (poppler_dir sf))))
      (World fs env libs out) = (Next tt, World fs1 env libs out)
    /\ lookup (vendor_dir sf) fs1 = Some (Dir (remove_child "poppler" es)))
    as (fs1 & Hstep & Hv1).
  { unfold exists_, poppler_dir. rewrite lookup_div, Hv.
    destruct (child "poppler" es) as [[d|x]|] eqn:Hp.
    - by destruct (Hnf d).
    - destruct (rmtree_div _ _ _ _ _ Hv Hp) as (fs1 & Hr & Hv1).
      exists fs1. split; [|done]. simpl. unfold fs_call. simpl. by rewrite Hr.
    - exists fs. split; [done|]. by rewrite remove_child_absent. }
  rewrite Hstep. clear Hstep.
  assert (child k (remove_child "poppler" es) = Some n) as Hk1
    by (by rewrite child_remove_ne).
  destruct (rename_div _ k "poppler" _ _ _ Hv1 Hk1 (child_remove_eq _ _))
    as (fs2 & Hr & Hv2).
  fold (poppler_dir sf) in Hr. unfold fs_call. simpl. rewrite Hr. eauto.
Qed.

Lemma zip_gone sf fs es :
  lookup (vendor_dir sf) fs = Some (Dir (remove_child "poppler.zip" es)) ->
  exists_ fs (zip_path sf) = false.
Proof.
  intros H. unfold exists_, zip_path. by rewrite lookup_div, H, child_remove_eq.
Qed.

Lemma finish_cleanup_verify sf fs env libs out es d :
  lookup (vendor_dir sf) fs = Some (Dir es) ->
  child "poppler.zip" es = Some (File d) ->
  exists o w',
    finish ((cleanup sf ;; verify sf)%run (World fs env libs out)) = (o, w')
    /\ (o = Returned \/ o = Exited 1)
    /\ exists_ (w_fs w') (zip_path sf) = false.
Proof.
  intros Hv Hc.
  destruct (cleanup_verify sf fs env libs out es d Hv Hc)
    as (fs' & _ & Hv' & [[_ [l ->]]|[_ ->]]);
    eexists _, _; (split; [reflexivity|]); (split; [auto|]);
    simpl; eapply zip_gone; eauto.
Qed.

(** Lines 75-105 with the archive in place and no regular file in the way
    at the canonical path: nothing raises, and the archive goes. *)
Lemma settle_removes_archive sf fs env libs out :
  is_file fs (zip_path sf) = true ->
  is_file fs (poppler_dir sf) = false ->
  exists o w',
    finish (settle sf (World fs env libs out)) = (o, w')
    /\ (o = Returned \/ o = Exited 1)
    /\ exists_ (w_fs w') (zip_path sf) = false.
Proof.
  intros Hz Hp.
  unfold is_file in Hz. destruct (lookup (zip_path sf) fs) as [[d|]|] eqn:Hzl; try done.
  unfold zip_path in Hzl. apply lookup_div_inv in Hzl as (es & Hv & Hc).
  unfold is_file, poppler_dir in Hp. rewrite lookup_div, Hv in Hp.
  unfold settle. unfold bind at 1, get_fs at 1. simpl w_fs.
  destruct (find_extracted_dir sf fs) as [item|] eqn:Hfind.
  - apply List.find_some in Hfind as [Hin Hroot].
    apply (iterdir_In _ _ _ _ Hv) in Hin as (k & v & Hin & ->).
    destruct (root_test_entry sf _ _ _ Hv Hroot) as [x Hk].
    destruct (decide (k = "poppler")) as [->|Hne].
    + unfold bind at 1. unfold normalize. fold (poppler_dir sf).
      rewrite bool_decide_false by (intros H; by apply H).
      simpl when. unfold ret at 1.
      eapply finish_cleanup_verify; eauto.
    + destruct (normalize_moves sf fs env libs out es k (Dir x) Hv Hk Hne)
        as (fs' & Hn & Hv').
      { intros d' Hd'. by rewrite Hd' in Hp. }
      unfold bind at 1. rewrite Hn.
      eapply finish_cleanup_verify; [exact Hv'|].
      rewrite child_set_ne by done.
      rewrite child_remove_ne by congruence.
      rewrite child_remove_ne by done. exact Hc.
  - unfold bind at 1. simpl normalize. unfold ret at 1.
    eapply finish_cleanup_verify; eauto.
Qed.

(** C2, as the code has it: there are two fatal reports, not three.  A
    failed download ends the run with status 1 after the download error
    report; an archive that unpacked without error but left no extraction
    root ends it with status 1 on the report of the final verification,
    which is what a missing binary gets, too; and the two reports
    differ. *)
Theorem C2_two_failure_reports (sf : path) (fs : node)
    (env : gmap string string) (libs : list (path * dlmode)) (out : list event) :
  (forall net, net_fails net = true ->
     exists fs' e pre,
       download sf net (World fs env libs out) =
       (Stop (Exited 1),
        World fs' env libs (out ++ pre ++ download_error_report sf e)))
  /\ (find_extracted_dir sf fs = None ->
      is_file fs (zip_path sf) = true ->
      exists fs',
        settle sf (World fs env libs out) =
        (Stop (Exited 1),
         World fs' env libs
           (out ++ [Print (nl +:+ "[3/3] Cleaning up...");
                    Print verification_error])))
  /\ (forall e, ~ In (Print verification_error) (download_error_report sf e)).
Proof.
  split; [|split].
  - intros net Hnet.
    destruct (download_fails sf net fs env libs out Hnet) as (fs' & e & pre & H & _).
    eauto.
  - intros Hnone Hz.
    unfold is_file in Hz.
    destruct (lookup (zip_path sf) fs) as [[d|]|] eqn:Hzl; try done.
    unfold zip_path in Hzl. apply lookup_div_inv in Hzl as (es & Hv & Hc).
    unfold settle. unfold bind at 1, get_fs at 1. simpl w_fs.
    rewrite Hnone. unfold bind at 1. simpl normalize. unfold ret at 1.
    destruct (cleanup_verify sf fs env libs out es d Hv Hc)
      as (fs' & _ & Hv' & [[He _]|[_ ->]]); [|eauto].
    exfalso.
    unfold exists_ in He.
    destruct (lookup (pdftoppm sf) fs') as [b|] eqn:Hb; [|done].
    unfold pdftoppm in Hb. apply lookup_div_inv in Hb as (eb & Hb & _).
    pose proof (no_root_no_bin sf fs Hnone) as Hnb.
    unfold poppler_dir in Hb, Hnb. rewrite div2 in Hb, Hnb.
    rewrite (same_child_lookup _ "poppler" fs fs' _ _ _ Hv Hv') in Hb.
    + congruence.
    + by rewrite child_remove_ne.
  - intros e. unfold download_error_report, verification_error. simpl.
    intros [H|[H|[H|[H|[]]]]]; discriminate.
Qed.

(** C2 as stated fails: an archive without the layout and an archive
    with the layout but without the binary end the run in the same way,
    with the same console, to the last line. *)
Lemma C2_structure_failure_has_no_report_of_its_own :
  let stray := main Sample.fetch_script "" (Reply 100 100 Sample.stray_archive)
                 Sample.fresh in
  let hollow := main Sample.fetch_script "" (Reply 100 100 Sample.hollow_archive)
                  Sample.fresh in
  find_extracted_dir Sample.fetch_script (w_fs stray.2) = None
  /\ find_extracted_dir Sample.fetch_script (w_fs hollow.2)
     = Some (poppler_dir Sample.fetch_script)
  /\ stray.1 = Exited 1 /\ hollow.1 = Exited 1
  /\ w_out stray.2 = w_out hollow.2
  /\ List.last (w_out stray.2) (Print "") = Print verification_error.
Proof. vm_compute. intuition. Qed.

(** The theorem at a network that is down and at the stray archive
    unpacked. *)
Lemma C2_two_failure_reports_witness :
  net_fails (Unreachable "offline") = true
  /\ find_extracted_dir Sample.fetch_script Sample.stray_unpacked = None
  /\ is_file Sample.stray_unpacked (zip_path Sample.fetch_script) = true
  /\ (exists fs' e pre,
        download Sample.fetch_script (Unreachable "offline")
          (boot Sample.stray_unpacked) =
        (Stop (Exited 1),
         World fs' ∅ [] ([] ++ pre ++ download_error_report Sample.fetch_script e)))
  /\ (exists fs',
        settle Sample.fetch_script (boot Sample.stray_unpacked) =
        (Stop (Exited 1),
         World fs' ∅ []
           ([] ++ [Print (nl +:+ "[3/3] Cleaning up..."); Print verification_error]))).
Proof.
  assert (net_fails (Unreachable "offline") = true) as H1 by reflexivity.
  assert (find_extracted_dir Sample.fetch_script Sample.stray_unpacked = None)
    as H2 by reflexivity.
  assert (is_file Sample.stray_unpacked (zip_path Sample.fetch_script) = true)
    as H3 by reflexivity.
  destruct (C2_two_failure_reports Sample.fetch_script Sample.stray_unpacked ∅ [] [])
    as (Ha & Hb & _).
  repeat split; auto.
Defined.

(** C3, as the code has it.  When exactly one child of the vendor
    directory passes the root test, detection selects it.  Normalization
    then does not raise as long as no regular file sits at the canonical
    path: a root already at the canonical path is left alone; any other
    root is renamed to it after the stale canonical directory is deleted,
    so that the canonical path holds what the root held and the root's old
    name is gone.  Afterwards the binary directory exists under the
    canonical path, the canonical binary is resolvable exactly when the
    root contained it, and detection finds the canonical path. *)
Theorem C3_sole_root_is_normalized (sf : path) (fs : node)
    (env : gmap string string) (libs : list (path * dlmode)) (out : list event)
    (d : path) :
  sole_root sf fs d ->
  is_file fs (poppler_dir sf) = false ->
  find_extracted_dir sf fs = Some d
  /\ exists fs',
      normalize sf (Some d) (World fs env libs out) = (Next tt, World fs' env libs out)
      /\ (d = poppler_dir sf -> fs' = fs)
      /\ lookup (poppler_dir sf) fs' = lookup d fs
      /\ (d <> poppler_dir sf -> exists_ fs' d = false)
      /\ exists_ fs' (poppler_dir sf // "Library" // "bin") = true
      /\ exists_ fs' (pdftoppm sf)
         = exists_ fs (d // "Library" // "bin" // "pdftoppm.exe")
      /\ find_extracted_dir sf fs' = Some (poppler_dir sf).
Proof.
  intros (Hin & Hroot & Huniq) Hpf.
  assert (find_extracted_dir sf fs = Some d) as Hfind
    by (by apply find_unique).
  split; [exact Hfind|].
  assert (exists es, lookup (vendor_dir sf) fs = Some (Dir es)) as [es Hv].
  { unfold iterdir in Hin.
    destruct (lookup (vendor_dir sf) fs) as [[c|es]|]; try done. eauto. }
  pose proof Hin as Hin0.
  apply (iterdir_In _ _ _ _ Hv) in Hin as (k & v & Hkv & ->).
  destruct (root_test_entry sf _ _ _ Hv Hroot) as [x Hk].
  assert (exists_ fs (vendor_dir sf // k // "Library" // "bin") = true) as Hbin.
  { unfold is_extraction_root in Hroot. by apply andb_prop in Hroot as [_ ?]. }
  destruct (decide (k = "poppler")) as [->|Hne].
  - exists fs. fold (poppler_dir sf) in *.
    split.
    { unfold normalize. rewrite bool_decide_false by (intros H; by apply H). done. }
    repeat split; auto. intros H. by destruct H.
  - destruct (normalize_moves sf fs env libs out es k (Dir x) Hv Hk Hne)
      as (fs' & Hn & Hv').
    { unfold is_file, poppler_dir in Hpf. rewrite lookup_div, Hv in Hpf.
      intros c Hc. by rewrite Hc in Hpf. }
    assert (child "poppler"
              (set_child "poppler" (Dir x)
                 (remove_child k (remove_child "poppler" es))) = Some (Dir x))
      as Hnew by apply child_set_eq.
    assert (forall r, lookup (poppler_dir sf ++ r) fs'
                      = lookup (vendor_dir sf // k ++ r) fs) as Hmoved.
    { intros r. unfold poppler_dir.
      by rewrite (lookup_below _ _ _ _ _ Hv'), (lookup_below _ _ _ _ _ Hv), Hnew, Hk. }
    assert (is_extraction_root fs' (poppler_dir sf) = true) as Hroot'.
    { unfold is_extraction_root, is_dir, exists_.
      rewrite div2, Hmoved.
      pose proof (Hmoved []) as H0. rewrite !app_nil_r in H0. rewrite H0.
      rewrite lookup_div, Hv, Hk.
      unfold poppler_dir at 1. rewrite name_div.
      unfold exists_ in Hbin. rewrite div2 in Hbin.
      destruct (lookup (vendor_dir sf // k ++ ["Library"; "bin"]) fs); done. }
    exists fs'. split; [exact Hn|].
    split; [intros E; unfold poppler_dir in E; by apply div_inj in E|].
    split.
    { pose proof (Hmoved []) as H0. by rewrite !app_nil_r in H0. }
    split.
    { intros _. unfold exists_. rewrite lookup_div, Hv'.
      rewrite child_set_ne by done. by rewrite child_remove_eq. }
    split.
    { unfold exists_. rewrite div2, Hmoved. unfold exists_ in Hbin.
      by rewrite div2 in Hbin. }
    split.
    { unfold exists_, pdftoppm. by rewrite !div3, Hmoved. }
    apply find_unique.
    + apply (iterdir_In _ _ _ _ Hv'). exists "poppler", (Dir x).
      split; [by apply child_In|done].
    + exact Hroot'.
    + intros item Hitem Hit.
      apply (iterdir_In _ _ _ _ Hv') in Hitem as (k' & v' & Hkv' & ->).
      destruct (decide (k' = "poppler")) as [->|Hk']; [done|]. exfalso.
      apply In_set_child in Hkv' as [?|Hkv']; [done|].
      apply In_remove_child in Hkv' as [Hkk Hkv'].
      apply In_remove_child in Hkv' as [_ Hkv'].
      assert (is_extraction_root fs (vendor_dir sf // k') = true) as Hold.
      { rewrite <- Hit. symmetry. eapply root_test_same; eauto.
        rewrite child_set_ne by done.
        rewrite child_remove_ne by done. by rewrite child_remove_ne. }
      apply Hkk. eapply div_inj, Huniq; [|exact Hold].
      apply (iterdir_In _ _ _ _ Hv). eauto.
Qed.

(** The theorem at the release archive unpacked. *)
Lemma C3_sole_root_witness :
  sole_root Sample.fetch_script Sample.release_unpacked Sample.release_root
  /\ is_file Sample.release_unpacked (poppler_dir Sample.fetch_script) = false
  /\ find_extracted_dir Sample.fetch_script Sample.release_unpacked
     = Some Sample.release_root.
Proof.
  assert (sole_root Sample.fetch_script Sample.release_unpacked Sample.release_root)
    as H1.
  { split; [vm_compute; tauto|]. split; [reflexivity|].
    intros item [<-|[<-|[]]]; [discriminate|reflexivity]. }
  assert (is_file Sample.release_unpacked (poppler_dir Sample.fetch_script) = false)
    as H2 by reflexivity.
  split; [exact H1|]. split; [exact H2|].
  exact (proj1 (C3_sole_root_is_normalized Sample.fetch_script
                  Sample.release_unpacked ∅ [] [] Sample.release_root H1 H2)).
Defined.

(** C3 as stated fails: the root test asks for the binary directory, not
    for the binary.  The hollow archive has exactly one root; it is
    renamed to the canonical path, and the canonical binary is not
    there. *)
Lemma C3_root_without_binary :
  sole_root Sample.fetch_script Sample.hollow_unpacked Sample.release_root
  /\ exists w',
       normalize Sample.fetch_script (Some Sample.release_root)
         (boot Sample.hollow_unpacked) = (Next tt, w')
       /\ exists_ (w_fs w') (poppler_dir Sample.fetch_script) = true
       /\ exists_ (w_fs w') (pdftoppm Sample.fetch_script) = false.
Proof.
  split.
  - split; [vm_compute; tauto|]. split; [reflexivity|].
    intros item [<-|[<-|[]]]; [discriminate|reflexivity].
  - eexists. split; [vm_compute; reflexivity|]. split; reflexivity.
Qed.

(** C6, as the code has it: for a non-negative number of bytes so far
    whose hundredfold is below [2^53] (where the float quotient of line 27,
    truncated, is the exact truncated quotient) and a positive total, the
    hook writes the percentage that is bytes-so-far times 100 over the
    total, truncated to an integer; it is never negative, and it is at most
    100 as long as the bytes so far do not exceed the total. *)
Theorem C6_percent_truncated (count block_size total_size : Z) (w : world) :
  0 <= count * block_size ->
  count * block_size * 100 < 2 ^ 53 ->
  0 < total_size ->
  exists pc,
    percent count block_size total_size = Some pc
    /\ pc * total_size <= count * block_size * 100 < (pc + 1) * total_size
    /\ 0 <= pc
    /\ (count * block_size <= total_size -> pc <= 100)
    /\ progress_hook count block_size total_size w =
       (Next None,
        World (w_fs w) (w_env w) (w_libs w)
          (w_out w ++ [Write (cr +:+ "  Progress: " +:+ Str.of_Z pc +:+ "%")])).
Proof.
  intros Hb _ Ht. exists (Z.quot (count * block_size * 100) total_size).
  assert (percent count block_size total_size =
          Some (Z.quot (count * block_size * 100) total_size)) as Hp.
  { unfold percent. destruct (Z.eqb_spec total_size 0); [lia|done]. }
  rewrite Z.quot_div_nonneg by lia.
  rewrite Z.quot_div_nonneg in Hp by lia.
  pose proof (Z.mul_div_le (count * block_size * 100) total_size Ht) as Hlo.
  pose proof (Z.mul_succ_div_gt (count * block_size * 100) total_size Ht) as Hhi.
  assert (0 <= count * block_size * 100 / total_size) as Hnn
    by (apply Z.div_pos; lia).
  repeat split; try lia.
  - exact Hp.
  - intros Hle. apply Z.div_le_upper_bound; lia.
  - unfold progress_hook. rewrite Hp. reflexivity.
Qed.

(** The theorem at the first block of a 10000-byte download. *)
Lemma C6_percent_witness :
  0 <= 1 * Urllib.bs /\ 1 * Urllib.bs * 100 < 2 ^ 53 /\ 0 < 10000
  /\ exists pc, percent 1 Urllib.bs 10000 = Some pc /\ 0 <= pc
                /\ (1 * Urllib.bs <= 10000 -> pc <= 100).
Proof.
  assert (0 <= 1 * Urllib.bs) as H1 by (unfold Urllib.bs; lia).
  assert (1 * Urllib.bs * 100 < 2 ^ 53) as Hb by (unfold Urllib.bs; lia).
  assert (0 < 10000) as H2 by lia.
  split; [exact H1|]. split; [exact Hb|]. split; [exact H2|].
  destruct (C6_percent_truncated 1 Urllib.bs 10000 (boot Sample.fresh) H1 Hb H2)
    as (pc & Hp & _ & Hnn & Hle & _).
  exists pc. auto.
Defined.

(** C6 as stated fails: [urlretrieve] counts whole blocks, so the call
    after the last, short block of a 10000-byte download reports 163. *)
Lemma C6_last_block_exceeds_100 :
  In 2 (Urllib.hook_counts 10000)
  /\ 0 <= 2 * Urllib.bs /\ 2 * Urllib.bs * 100 < 2 ^ 53 /\ 0 <= 10000
  /\ percent 2 Urllib.bs 10000 = Some 163
  /\ ~ (0 <= 163 <= 100).
Proof.
  split; [vm_compute; tauto|]. split; [unfold Urllib.bs; lia|].
  split; [unfold Urllib.bs; lia|].
  split; [lia|]. split; [reflexivity|lia].
Qed.

End FetcherFacts.

(** ** The Runtime Path Hook *)

Module HookFacts.
Import FS Hook Loader.

Ltac hook_step :=
  cbv beta iota zeta delta
    [run body isdir path_exists setenv CDLL resolved
     bind ret print emit stop get_fs put_fs fs_call when finish
     w_fs w_env w_libs w_out frozen _MEIPASS fst snd].

(** Case analysis on what the hook finds, probe by probe. *)
Ltac hook_cases loader :=
  repeat first
    [ progress hook_step
    | loader
    | match goal with
      | H : exists_ ?fs ?p = _ |- context [ exists_ ?fs ?p ] => rewrite H
      | |- context [ is_dir ?fs ?p ] => destruct (is_dir fs p) eqn:?
      | |- context [ exists_ ?fs ?p ] => destruct (exists_ fs p) eqn:?
      end ].

(** C7: outside a frozen artifact the hook does nothing at all: the run
    returns with the process as it was, with no environment variable set,
    no library loaded and no file-system probe made. *)
Theorem C7_not_frozen_is_noop (dlopen : path -> bool) (meipass : option path)
    (w : world) :
  run dlopen (Sys false meipass) w = (Returned, w).
Proof. reflexivity. Qed.

(** A frozen run with a loader that accepts what is there. *)
Lemma run_frozen (dlopen : path -> bool) (b : path) (fs : node)
    (env : gmap string string) (libs : list (path * dlmode)) (out : list event) :
  (forall p, exists_ fs p = true -> dlopen p = true) ->
  run dlopen (Sys true (Some b)) (World fs env libs out) =
  (Returned, World fs (env_after fs b env) (libs ++ loads fs b) (out ++ probes fs b)).
Proof.
  intros Hload. unfold env_after, loads, probes.
  hook_cases
    ltac:(idtac; match goal with
          | H : exists_ fs ?p = true |- context [ dlopen ?p ] => rewrite (Hload p H)
          end);
    rewrite ?app_nil_r, <- ?app_assoc; reflexivity.
Qed.

(** The environment step does not depend on the loader. *)
Lemma env_frozen (dlopen : path -> bool) (b : path) (w : world) :
  w_env (run dlopen (Sys true (Some b)) w).2 = env_after (w_fs w) b (w_env w).
Proof.
  destruct w as [fs env libs out]. unfold env_after.
  hook_cases
    ltac:(idtac; match goal with
          | |- context [ dlopen ?p ] => destruct (dlopen p)
          end);
    reflexivity.
Qed.

(** What a frozen run loads and how it ends, whatever the loader does. *)
Lemma libs_frozen (dlopen : path -> bool) (b : path) (w : world) :
  (run dlopen (Sys true (Some b)) w).1
  = (if all_accepted dlopen (loads (w_fs w) b) then Returned else Raised "OSError")
  /\ w_libs (run dlopen (Sys true (Some b)) w).2
     = w_libs w ++ accepted dlopen (loads (w_fs w) b)
  /\ w_fs (run dlopen (Sys true (Some b)) w).2 = w_fs w.
Proof.
  destruct w as [fs env libs out]. unfold all_accepted, loads. cbn [w_fs w_libs].
  hook_cases
    ltac:(idtac; match goal with
          | |- context [ dlopen ?p ] => destruct (dlopen p) eqn:?
          end);
    cbn [accepted all_accepted List.forallb app fst snd andb];
    repeat match goal with
           | H : dlopen ?p = _ |- context [ dlopen ?p ] => rewrite H
           end;
    cbn [accepted List.forallb app fst snd andb];
    rewrite ?app_nil_r, <- ?app_assoc; done.
Qed.

(** C8, as the code has it.  In a frozen run each of the two libraries is
    resolved on its own: the primary name if that file exists, the older
    name otherwise.  The resolved Tcl file, if it exists, is handed to the
    loader with [RTLD_GLOBAL], and after it the resolved Tk file.  With a
    loader that accepts the files it is given, every resolved file that
    exists is loaded and the hook returns; in a bundle with the older names
    only, both older libraries are loaded.  A file the loader refuses
    makes [ctypes.CDLL] raise [OSError], and that ends the hook: when the
    Tcl file is refused nothing is loaded, the Tk file is never tried;
    when the Tk file is refused the Tcl file stays loaded. *)
Theorem C8_libraries_resolved_and_loaded (dlopen : path -> bool) (b : path)
    (fs : node) (env : gmap string string) (libs : list (path * dlmode))
    (out : list event) :
  let tcl_lib := resolved fs b "libtcl9.0.dylib" "libtcl8.6.dylib" in
  let tk_lib := resolved fs b "libtcl9tk9.0.dylib" "libtk8.6.dylib" in
  let r := run dlopen (Sys true (Some b)) (World fs env libs out) in
  r.1 = (if all_accepted dlopen (loads fs b) then Returned else Raised "OSError")
  /\ w_libs r.2 = libs ++ accepted dlopen (loads fs b)
  /\ ((forall p, exists_ fs p = true -> dlopen p = true) ->
   r.1 = Returned
   /\ w_libs r.2 = libs ++ loads fs b
   /\ (exists_ fs (b // "libtcl9.0.dylib") = false ->
       exists_ fs (b // "libtcl9tk9.0.dylib") = false ->
       exists_ fs (b // "libtcl8.6.dylib") = true ->
       exists_ fs (b // "libtk8.6.dylib") = true ->
       w_libs r.2 = libs ++ [(b // "libtcl8.6.dylib", RTLD_GLOBAL);
                             (b // "libtk8.6.dylib", RTLD_GLOBAL)]))
  /\ (exists_ fs tcl_lib = true -> dlopen tcl_lib = false ->
      r.1 = Raised "OSError" /\ w_libs r.2 = libs)
  /\ ((exists_ fs tcl_lib = true -> dlopen tcl_lib = true) ->
      exists_ fs tk_lib = true -> dlopen tk_lib = false ->
      r.1 = Raised "OSError"
      /\ w_libs r.2
         = libs ++ (if exists_ fs tcl_lib then [(tcl_lib, RTLD_GLOBAL)] else [])).
Proof.
  intros tcl_lib tk_lib r.
  split; [|split; [|split; [|split]]].
  - by destruct (libs_frozen dlopen b (World fs env libs out)) as (H1 & _ & _).
  - by destruct (libs_frozen dlopen b (World fs env libs out)) as (_ & H2 & _).
  - intros Hload. subst r. rewrite (run_frozen _ _ _ _ _ _ Hload). simpl.
    split; [done|]. split; [done|].
    intros E1 E2 E3 E4. unfold loads, resolved. by rewrite E1, E2, E3, E4.
  - intros He Hd.
    destruct (libs_frozen dlopen b (World fs env libs out)) as (H1 & H2 & _).
    subst r. rewrite H1, H2. cbn [w_fs w_libs]. unfold loads.
    fold tcl_lib tk_lib. rewrite He. cbn [app all_accepted accepted List.forallb fst].
    rewrite Hd. cbn [andb]. by rewrite app_nil_r.
  - intros Ht He Hd.
    destruct (libs_frozen dlopen b (World fs env libs out)) as (H1 & H2 & _).
    subst r. rewrite H1, H2. cbn [w_fs w_libs]. unfold loads.
    fold tcl_lib tk_lib. rewrite He.
    destruct (exists_ fs tcl_lib) eqn:Et;
      cbn [app all_accepted accepted List.forallb fst];
      rewrite ?(Ht eq_refl), Hd; cbn [andb]; done.
Qed.

(** The theorem at a bundle with the older libraries only and a loader
    that accepts them. *)
Lemma C8_libraries_witness :
  (forall p, exists_ Sample.older_bundle p = true -> (fun _ => true) p = true)
  /\ w_libs (run (fun _ => true) (Sys true (Some Sample.bundle_dir))
               (boot Sample.older_bundle)).2
     = [] ++ [(Sample.bundle_dir // "libtcl8.6.dylib", RTLD_GLOBAL);
              (Sample.bundle_dir // "libtk8.6.dylib", RTLD_GLOBAL)].
Proof.
  assert (forall p, exists_ Sample.older_bundle p = true -> (fun _ : path => true) p = true)
    as H by reflexivity.
  split; [exact H|].
  destruct (C8_libraries_resolved_and_loaded (fun _ => true) Sample.bundle_dir
              Sample.older_bundle ∅ [] []) as (_ & _ & Hacc & _ & _).
  destruct (Hacc H) as (_ & _ & Hold).
  apply Hold; reflexivity.
Defined.

(** C8 as stated fails: a resolved library file that exists is not always
    loaded.  With a loader that refuses the Tcl library of the sample
    bundle and would accept its Tk library, the hook ends on [OSError]
    with nothing loaded. *)
Lemma C8_refused_tcl_leaves_tk_unloaded :
  let dlopen := fun p => negb (bool_decide (p = Sample.bundle_dir // "libtcl8.6.dylib")) in
  let r := run dlopen (Sys true (Some Sample.bundle_dir)) (boot Sample.older_bundle) in
  resolved Sample.older_bundle Sample.bundle_dir "libtcl9tk9.0.dylib" "libtk8.6.dylib"
  = Sample.bundle_dir // "libtk8.6.dylib"
  /\ exists_ Sample.older_bundle (Sample.bundle_dir // "libtk8.6.dylib") = true
  /\ dlopen (Sample.bundle_dir // "libtk8.6.dylib") = true
  /\ r.1 = Raised "OSError"
  /\ w_libs r.2 = [].
Proof. vm_compute. repeat split. Qed.

(** C10: the environment step has no fallback.  Whatever the loader does,
    a frozen run sets each of the two variables exactly when the data
    directory of the primary version ([tcl9.0], [tk9.0]) is in the
    extraction directory; with neither there the environment is left as it
    was, also in a bundle whose older libraries are found and loaded. *)
Theorem C10_environment_has_no_fallback (dlopen : path -> bool) (b : path)
    (fs : node) (env : gmap string string) (libs : list (path * dlmode))
    (out : list event) :
  w_env (run dlopen (Sys true (Some b)) (World fs env libs out)).2
  = env_after fs b env
  /\ (is_dir fs (b // "tcl9.0") = false ->
      is_dir fs (b // "tk9.0") = false ->
      w_env (run dlopen (Sys true (Some b)) (World fs env libs out)).2 = env
      /\ ((forall p, exists_ fs p = true -> dlopen p = true) ->
          exists_ fs (b // "libtcl9.0.dylib") = false ->
          exists_ fs (b // "libtcl9tk9.0.dylib") = false ->
          exists_ fs (b // "libtcl8.6.dylib") = true ->
          exists_ fs (b // "libtk8.6.dylib") = true ->
          w_libs (run dlopen (Sys true (Some b)) (World fs env libs out)).2
          = libs ++ [(b // "libtcl8.6.dylib", RTLD_GLOBAL);
                     (b // "libtk8.6.dylib", RTLD_GLOBAL)])).
Proof.
  split; [apply env_frozen|].
  intros D1 D2. split.
  - rewrite env_frozen. unfold env_after. simpl. by rewrite D1, D2.
  - intros Hload E1 E2 E3 E4. rewrite (run_frozen _ _ _ _ _ _ Hload). simpl.
    unfold loads, resolved. by rewrite E1, E2, E3, E4.
Qed.

(** The theorem at a bundle with the older data directories and libraries
    only. *)
Lemma C10_environment_witness :
  is_dir Sample.older_bundle (Sample.bundle_dir // "tcl9.0") = false
  /\ is_dir Sample.older_bundle (Sample.bundle_dir // "tk9.0") = false
  /\ is_dir Sample.older_bundle (Sample.bundle_dir // "tcl8.6") = true
  /\ w_env (run (fun _ => true) (Sys true (Some Sample.bundle_dir))
              (boot Sample.older_bundle)).2 = ∅
  /\ w_libs (run (fun _ => true) (Sys true (Some Sample.bundle_dir))
               (boot Sample.older_bundle)).2
     = [] ++ [(Sample.bundle_dir // "libtcl8.6.dylib", RTLD_GLOBAL);
              (Sample.bundle_dir // "libtk8.6.dylib", RTLD_GLOBAL)].
Proof.
  assert (is_dir Sample.older_bundle (Sample.bundle_dir // "tcl9.0") = false)
    as D1 by reflexivity.
  assert (is_dir Sample.older_bundle (Sample.bundle_dir // "tk9.0") = false)
    as D2 by reflexivity.
  destruct (C10_environment_has_no_fallback (fun _ => true) Sample.bundle_dir
              Sample.older_bundle ∅ [] []) as (_ & H).
  destruct (H D1 D2) as (Henv & Hlibs).
  split; [exact D1|]. split; [exact D2|]. split; [reflexivity|].
  split; [exact Henv|].
  apply Hlibs; reflexivity.
Defined.

End HookFacts.

(** ** The Bundle Assembler *)

Module BuilderFacts.
Import FS FSFacts Builder.

Lemma is_under_app (p r : path) : Path.is_under p (p ++ r) = true.
Proof.
  induction p as [|c p IH]; simpl; [done|]. by rewrite bool_decide_true.
Qed.

Lemma is_under_inv (p q : path) : Path.is_under p q = true -> exists r, q = p ++ r.
Proof.
  revert q. induction p as [|c p IH]; intros q H; simpl in *; [eauto|].
  destruct q as [|d q]; [done|]. apply andb_prop in H as [Hc Hq].
  apply bool_decide_eq_true in Hc as ->.
  destruct (IH _ Hq) as [r ->]. eauto.
Qed.

Lemma is_under_trans (p q x : path) :
  Path.is_under p q = true -> Path.is_under q x = true -> Path.is_under p x = true.
Proof.
  intros H1 H2. apply is_under_inv in H1 as [r ->]. apply is_under_inv in H2 as [r' ->].
  rewrite <- app_assoc. apply is_under_app.
Qed.

Lemma is_under_same_prefix (p a b : path) :
  Path.is_under (p ++ a) (p ++ b) = Path.is_under a b.
Proof.
  induction p as [|c p IH]; simpl; [done|]. by rewrite bool_decide_true.
Qed.

(** Nothing below one of two locations that are apart is below the
    other. *)
Lemma apart_under (bp v r : path) : apart bp v -> Path.is_under v (bp ++ r) = false.
Proof.
  intros [H1 H2]. destruct (Path.is_under v (bp ++ r)) eqn:E; [|done].
  apply is_under_inv in E as [r' E].
  apply app_eq_app in E as [l [[-> _]|[-> _]]].
  - by rewrite is_under_app in H2.
  - by rewrite is_under_app in H1.
Qed.

Lemma filter_none {A} (P : A -> bool) (l : list A) :
  (forall x, In x l -> P x = false) -> List.filter P l = [].
Proof.
  induction l as [|a l IH]; simpl; [done|]. intros H.
  rewrite (H a) by auto. apply IH. auto.
Qed.

Lemma name_ne (p q : path) (a b : string) : a <> b -> p // a <> q // b.
Proof. unfold Path.div. intros Hne E. apply app_inj_tail in E as [_ E]. done. Qed.

(** *** What [find_tcl_tk_libs] finds *)

Lemma glob_In fs dir pat x :
  In x (glob fs dir pat) ->
  pat (Path.name x) = true /\ exists k, x = dir // k.
Proof.
  unfold glob. rewrite List.filter_In. intros [Hin Hp]. split; [done|].
  unfold iterdir in Hin. destruct (lookup dir fs) as [[d|es]|]; try done.
  apply List.in_map_iff in Hin as ([k v] & <- & _). eauto.
Qed.

Lemma walk_under : forall n p x, In x (walk n p) -> Path.is_under p x = true.
Proof.
  fix IH 1. intros [d|es] p x; simpl; [done|].
  intros Hin. apply List.in_app_or in Hin as [Hin|Hin].
  - apply List.in_map_iff in Hin as ([k v] & <- & _). apply is_under_app.
  - induction es as [|[k v] es IHes]; simpl in Hin; [done|].
    apply List.in_app_or in Hin as [Hin|Hin]; [|by apply IHes].
    eapply is_under_trans; [|exact (IH v _ _ Hin)]. apply is_under_app.
Qed.

Lemma rglob_In fs dir pat x :
  In x (rglob fs dir pat) ->
  pat (Path.name x) = true /\ Path.is_under dir x = true.
Proof.
  unfold rglob. destruct (lookup dir fs) as [n|]; [|done].
  rewrite List.filter_In. intros [Hin Hp]. split; [done|].
  by apply walk_under in Hin.
Qed.

Lemma binaries_spec bp fs lib :
  In lib (find_tcl_tk_libs bp fs).1 ->
  Str.endswith (Path.name lib) ".dylib" = true /\ Path.is_under bp lib = true.
Proof.
  unfold find_tcl_tk_libs. cbn [fst snd]. intros Hin.
  apply List.in_app_or in Hin as [Hin|Hin].
  - destruct (exists_ fs (bp // "lib")); [|done].
    apply List.in_flat_map in Hin as (pat & Hpat & Hin).
    apply List.filter_In in Hin as [Hin _].
    apply glob_In in Hin as [Hm [k ->]].
    split.
    + destruct Hpat as [<-|[<-|[]]]; unfold affix_match in Hm;
        apply andb_prop in Hm as [Hm _]; by apply andb_prop in Hm as [_ Hm].
    + unfold Path.div. rewrite <- app_assoc. apply is_under_app.
  - destruct (exists_ fs (bp // "Library" // "Frameworks")); [|done].
    apply List.in_flat_map in Hin as (fw & _ & Hin).
    destruct (exists_ fs (bp // "Library" // "Frameworks" // fw)); [|done].
    apply List.filter_In in Hin as [Hin _].
    apply rglob_In in Hin as [Hm Hu].
    split.
    + unfold affix_match in Hm.
      apply andb_prop in Hm as [Hm _]; by apply andb_prop in Hm as [_ Hm].
    + eapply is_under_trans; [|exact Hu].
      unfold Path.div. rewrite <- !app_assoc. apply is_under_app.
Qed.

Lemma data_spec bp fs d :
  In d (find_tcl_tk_libs bp fs).2 ->
  (versioned_match "tcl" (Path.name d) || versioned_match "tk" (Path.name d)) = true
  /\ Path.is_under bp d = true.
Proof.
  unfold find_tcl_tk_libs. cbn [fst snd]. intros Hin.
  destruct (exists_ fs (bp // "lib")); [|done].
  apply List.in_flat_map in Hin as (pat & Hpat & Hin).
  apply List.filter_In in Hin as [Hin _].
  apply glob_In in Hin as [Hm [k ->]].
  split.
  - destruct Hpat as [<-|[<-|[]]]; rewrite Hm; by rewrite ?orb_true_r.
  - unfold Path.div. rewrite <- app_assoc. apply is_under_app.
Qed.

(** *** The argument list, entry by entry *)

Lemma args_filter sf bp hb fs1 (P : arg -> bool) :
  P (AddData (poppler_dir sf) "poppler") = true ->
  (forall s, P (Lit s) = false) ->
  (forall s, P (HiddenImport s) = false) ->
  P (RuntimeHook (script_dir sf // "pyinstaller_hooks" // "rthook_tcltk_macos.py"))
    = false ->
  (forall lib, Str.endswith (Path.name lib) ".dylib" = true ->
               Path.is_under bp lib = true -> P (AddBinary lib ".") = false) ->
  (forall d, (versioned_match "tcl" (Path.name d)
              || versioned_match "tk" (Path.name d)) = true ->
             Path.is_under bp d = true -> P (AddData d (Path.name d)) = false) ->
  (forall x, P (Icon (project_root sf // "assets" // x)) = false) ->
  P (Script (project_root sf // "python" // "main.py")) = false ->
  List.filter P (pyinstaller_args sf bp hb fs1)
  = if hb then [AddData (poppler_dir sf) "poppler"] else [].
Proof.
  intros Hpop Hlit Himp Hhook Hbin Hdata Hicon Hscript.
  unfold pyinstaller_args.
  pose proof (binaries_spec bp fs1) as Hb. pose proof (data_spec bp fs1) as Hd.
  destruct (find_tcl_tk_libs bp fs1) as [bins data]. cbn [fst snd] in Hb, Hd.
  rewrite !List.filter_app.
  rewrite (filter_none P (_ :: _)).
  2:{ intros x Hin. cbn [In] in Hin.
      repeat (destruct Hin as [<-|Hin]; [by auto|]). done. }
  rewrite (filter_none P (List.map _ bins)).
  2:{ intros x Hin. apply List.in_map_iff in Hin as (lib & <- & Hin).
      destruct (Hb _ Hin). auto. }
  rewrite (filter_none P (List.map _ data)).
  2:{ intros x Hin. apply List.in_map_iff in Hin as (d & <- & Hin).
      destruct (Hd _ Hin). auto. }
  rewrite (filter_none P (List.map HiddenImport _)).
  2:{ intros x Hin. apply List.in_map_iff in Hin as (i & <- & _). auto. }
  rewrite (filter_none P (icon_args sf fs1)).
  2:{ intros x. unfold icon_args.
      repeat match goal with
             | |- context [ if ?c then _ else _ ] => destruct c
             end; cbn [In]; intros Hin;
        repeat (destruct Hin as [<-|Hin]; [by auto|]); done. }
  rewrite (filter_none P [_; _]).
  2:{ intros x Hin. cbn [In] in Hin.
      repeat (destruct Hin as [<-|Hin]; [by auto|]). done. }
  rewrite !app_nil_r. simpl.
  destruct hb; simpl; [by rewrite Hpop|done].
Qed.

Lemma hook_outside sf :
  Path.is_under (poppler_dir sf)
    (script_dir sf // "pyinstaller_hooks" // "rthook_tcltk_macos.py") = false.
Proof.
  unfold poppler_dir, project_root. rewrite !div2.
  destruct (script_dir sf) as [|c S] using rev_ind; [done|].
  unfold Path.parent. rewrite removelast_last, <- app_assoc.
  rewrite is_under_same_prefix. simpl.
  by destruct (bool_decide ("vendor" = c)).
Qed.

Lemma vendor_name sf : Path.name (poppler_dir sf) = "poppler".
Proof. unfold poppler_dir. apply name_div. Qed.

(** The entries that name the vendor toolkit directory itself. *)
Lemma args_embedding sf bp hb fs1 :
  List.filter (embeds (poppler_dir sf)) (pyinstaller_args sf bp hb fs1)
  = if hb then [AddData (poppler_dir sf) "poppler"] else [].
Proof.
  apply args_filter; unfold embeds; cbn [arg_path]; try done.
  - by rewrite bool_decide_true.
  - apply bool_decide_false, name_ne. done.
  - intros lib Hn _. apply bool_decide_false. intros ->.
    by rewrite vendor_name in Hn.
  - intros d Hn _. apply bool_decide_false. intros ->.
    by rewrite vendor_name in Hn.
  - intros x. apply bool_decide_false. unfold poppler_dir.
    intros E. apply app_inj_tail in E as [E _]. by apply name_ne in E.
  - apply bool_decide_false, name_ne. done.
Qed.

(** The entries that name anything at or below it, when the Python
    installation and the vendor toolkit directory are apart. *)
Lemma args_reaching sf bp hb fs1 :
  apart bp (poppler_dir sf) ->
  List.filter (reaches_into (poppler_dir sf)) (pyinstaller_args sf bp hb fs1)
  = if hb then [AddData (poppler_dir sf) "poppler"] else [].
Proof.
  intros Hap. apply args_filter; unfold reaches_into; cbn [arg_path]; try done.
  - rewrite <- (app_nil_r (poppler_dir sf)) at 2. apply is_under_app.
  - apply hook_outside.
  - intros lib _ Hu. apply is_under_inv in Hu as [r ->]. by apply apart_under.
  - intros d _ Hu. apply is_under_inv in Hu as [r ->]. by apply apart_under.
  - intros x. unfold poppler_dir. rewrite !div2. by rewrite is_under_same_prefix.
  - unfold poppler_dir. rewrite !div2. by rewrite is_under_same_prefix.
Qed.

End BuilderFacts.

(** ** The scripts at work on the sample checkouts *)

Module Examples.
Import FS.

Example answers_normalised :
  Fetcher.normalise " Y " = "y" /\ Fetcher.normalise "" = ""
  /\ Fetcher.normalise "yes" = "yes" /\ Fetcher.normalise "N" = "n".
Proof. repeat split. Qed.

(** A no-break space before the letter and a NEXT LINE after it are
    stripped like any other white space. *)
Example answers_with_other_white_space :
  Fetcher.normalise
    (String (ascii_of_nat 160) (String "y" (String (ascii_of_nat 133) "")))
  = "y".
Proof. reflexivity. Qed.

Example percent_of_a_download :
  List.map (fun c => Fetcher.percent c Urllib.bs 20000) (Urllib.hook_counts 20000)
  = [Some 0; Some 40; Some 81; Some 122]
  /\ Fetcher.percent 1 Urllib.bs 0 = None
  /\ Fetcher.percent 1 Urllib.bs (-1) = Some (-819200).
Proof. repeat split. Qed.

(** A first fetch into a fresh checkout: the release root is renamed to the
    canonical path, the archive is gone, the run returns. *)
Example first_fetch :
  let r := Fetcher.main Sample.fetch_script "" (Reply 100 100 Sample.release_archive)
             Sample.fresh in
  r.1 = Returned
  /\ w_fs r.2 = Sample.installed
  /\ List.last (w_out r.2) (Print "") = Print "  uv run python build_exe.py".
Proof. vm_compute. repeat split. Qed.

(** An archive whose root is already named [poppler] is left where it is. *)
Example fetch_canonical_root :
  let archive := Zip [(["poppler"; "Library"; "bin"; "pdftoppm.exe"], Some (Raw "MZ"))] in
  let r := Fetcher.main Sample.fetch_script "" (Reply 100 100 archive) Sample.fresh in
  r.1 = Returned /\ w_fs r.2 = Sample.installed.
Proof. vm_compute. repeat split. Qed.

(** An archive that puts the binary at the canonical path and then fails
    on a later member: the run ends on the exception with the binary in
    place and the archive still there. *)
Example fetch_raises_with_binary_in_place :
  let archive := Zip [(["poppler"; "Library"; "bin"; "pdftoppm.exe"], Some (Raw "MZ"));
                      (["poppler"; "Library"; "bin"; "pdftoppm.exe"; "x"],
                       Some (Raw ""))] in
  let r := Fetcher.main Sample.fetch_script "" (Reply 100 100 archive) Sample.fresh in
  r.1 = Raised "OSError"
  /\ exists_ (w_fs r.2) (Fetcher.pdftoppm Sample.fetch_script) = true
  /\ is_file (w_fs r.2) (Fetcher.zip_path Sample.fetch_script) = true.
Proof. vm_compute. repeat split. Qed.

(** Which archives are unpacked onto themselves: those with a file member
    whose name, once the empty, [.] and [..] components are dropped, is
    the archive's own. *)
Example archives_onto_themselves :
  Fetcher.unpacks_beside Sample.fetch_script [(["poppler.zip"], Some (Raw "x"))] = false
  /\ Fetcher.unpacks_beside Sample.fetch_script
       [(["a"], Some (Raw "x")); ([".."; "."; "poppler.zip"], Some (Raw ""))] = false
  /\ Fetcher.unpacks_beside Sample.fetch_script [(["poppler.zip"], None)] = true
  /\ Fetcher.unpacks_beside Sample.fetch_script
       [(["x"; "poppler.zip"], Some (Raw "x"))] = true
  /\ (match Sample.release_archive with
      | Zip members => Fetcher.unpacks_beside Sample.fetch_script members
      | Raw _ => false
      end) = true.
Proof. repeat split. Qed.

(** A regular file at the canonical path makes the normalization raise,
    and the archive stays. *)
Example fetch_over_a_file :
  let fs := Dir [("proj", Dir [("scripts", Dir []);
                               ("vendor", Dir [("poppler", File (Raw "stale"))])])] in
  let r := Fetcher.main Sample.fetch_script "" (Reply 100 100 Sample.release_archive) fs in
  r.1 = Raised "rmtree"
  /\ exists_ (w_fs r.2) (Fetcher.zip_path Sample.fetch_script) = true.
Proof. vm_compute. repeat split. Qed.

Example glob_patterns :
  Builder.affix_match "libtcl" ".dylib" "libtcl9.0.dylib" = true
  /\ Builder.affix_match "libtcl" ".dylib" "libtcl.dylib" = true
  /\ Builder.affix_match "libtk" ".dylib" "libtcl9.0.dylib" = false
  /\ Builder.affix_match "" ".spec" "PDF Compare.spec" = true
  /\ Builder.versioned_match "tcl" "tcl9.0" = true
  /\ Builder.versioned_match "tcl" "tclConfig.sh" = false
  /\ Builder.versioned_match "tk" "tk" = false.
Proof. repeat split. Qed.

(** The command line built on the sample Mac checkout. *)
Example mac_command_line :
  List.map Builder.render
    (Builder.pyinstaller_args Sample.build_script Sample.python_prefix
       (Builder.has_bundled_poppler Sample.build_script Sample.mac_checkout)
       Sample.mac_checkout)
  = [ "pyinstaller"; "--onefile"; "--windowed"; "--name=PDF Compare"; "--clean";
      "--add-data=python/comparator.py:python";
      "--add-data=python/compare_pdf.py:python";
      "--collect-all=customtkinter"; "--collect-all=tkinter";
      "--runtime-hook=/proj/scripts/pyinstaller_hooks/rthook_tcltk_macos.py";
      "--codesign-identity=-";
      "--add-binary=/opt/python/lib/libtcl9.0.dylib:.";
      "--add-binary=/opt/python/lib/libtcl9tk9.0.dylib:.";
      "--add-data=/opt/python/lib/tcl9.0:tcl9.0";
      "--add-data=/opt/python/lib/tk9.0:tk9.0";
      "--add-data=/proj/vendor/poppler:poppler";
      "--hidden-import=PIL"; "--hidden-import=PIL.Image";
      "--hidden-import=customtkinter"; "--hidden-import=cv2";
      "--hidden-import=numpy"; "--hidden-import=pdf2image";
      "--hidden-import=pdfplumber";
      "--osx-bundle-identifier=com.pdfcompare.app";
      "/proj/python/main.py" ].
Proof. vm_compute. reflexivity. Qed.

(** The clean-up of the sample Mac checkout removes the old build
    directory and the stale descriptor, and nothing else. *)
Example mac_clean :
  (Builder.clean Sample.build_script (boot Sample.mac_checkout)).1 = Next tt
  /\ iterdir (w_fs (Builder.clean Sample.build_script (boot Sample.mac_checkout)).2)
       ["proj"]
     = [["proj"; "scripts"]; ["proj"; "vendor"]].
Proof. vm_compute. repeat split. Qed.

(** The layout the Fetcher installs is the Windows one
    ([Library/bin/pdftoppm.exe]); the bundled check of the macOS build looks
    for [bin/pdftoppm] and does not see it. *)
Remark fetched_layout_is_not_the_mac_layout :
  Fetcher.already_installed Sample.fetch_script Sample.installed = true
  /\ Builder.has_bundled_poppler Sample.build_script Sample.installed = false.
Proof. repeat split. Qed.

(** The hook in a bundle that carries the current Tcl/Tk. *)
Example hook_current_bundle :
  let fs := Dir [("tmp", Dir [("_MEI4711",
                   Dir [("libtcl9.0.dylib", File (Raw "dylib"));
                        ("libtcl9tk9.0.dylib", File (Raw "dylib"));
                        ("tcl9.0", Dir []); ("tk9.0", Dir [])])])] in
  let r := Hook.run (fun _ => true) (Hook.Sys true (Some Sample.bundle_dir)) (boot fs) in
  r.1 = Returned
  /\ w_env r.2 !! "TCL_LIBRARY" = Some "/tmp/_MEI4711/tcl9.0"
  /\ w_env r.2 !! "TK_LIBRARY" = Some "/tmp/_MEI4711/tk9.0"
  /\ List.map fst (w_libs r.2)
     = [Sample.bundle_dir // "libtcl9.0.dylib"; Sample.bundle_dir // "libtcl9tk9.0.dylib"].
Proof. vm_compute. repeat split. Qed.

(** A loader that refuses the Tcl library stops the hook before it gets to
    Tk. *)
Example hook_loader_refuses :
  let r := Hook.run (fun _ => false) (Hook.Sys true (Some Sample.bundle_dir))
             (boot Sample.older_bundle) in
  r.1 = Raised "OSError" /\ w_libs r.2 = [].
Proof. vm_compute. repeat split. Qed.

End Examples.


(** * Frames, endings and whole runs *)

(** ** What file-system calls leave alone *)

Module FrameFacts.
Import FS FSFacts BuilderFacts Builder Frame.

Lemma apart_sym (p q : path) : apart p q -> apart q p.
Proof. intros [H1 H2]. by split. Qed.

Lemma apart_nonempty (p q : path) : apart p q -> p <> [] /\ q <> [].
Proof.
  intros [H1 H2]. split; intros ->; simpl in *; [done|].
  by destruct p.
Qed.

Lemma apart_cons (c : string) (p q : path) : apart (c :: p) (c :: q) -> apart p q.
Proof.
  intros [H1 H2]. simpl in *. rewrite bool_decide_true in H1, H2 by done.
  by split.
Qed.

(** Two prefixes of one path: one of them is under the other. *)
Lemma prefixes_comparable (p q r r' : path) :
  p ++ r = q ++ r' -> Path.is_under p q = true \/ Path.is_under q p = true.
Proof.
  intros E. apply app_eq_app in E as [l [[-> _]|[-> _]]].
  - right. apply is_under_app.
  - left. apply is_under_app.
Qed.

(** What is apart from a location is apart from all that is below it. *)
Lemma apart_extend (t q s : path) : apart t q -> apart (t ++ s) q.
Proof.
  intros [H1 H2]. split.
  - destruct (Path.is_under (t ++ s) q) eqn:E; [|done].
    rewrite (is_under_trans t (t ++ s) q (is_under_app _ _) E) in H1. done.
  - destruct (Path.is_under q (t ++ s)) eqn:E; [|done].
    apply is_under_inv in E as [r E]. symmetry in E.
    apply prefixes_comparable in E as [E|E]; congruence.
Qed.

Lemma apart_not_on_the_way (t q s : path) :
  apart t q -> Path.is_under q (Path.parent (t ++ s)) = false.
Proof.
  intros [H1 H2]. destruct (Path.is_under q (Path.parent (t ++ s))) eqn:E; [|done].
  apply is_under_inv in E as [r E]. unfold Path.parent in E.
  destruct (decide (t ++ s = [])) as [Hnil|Hne].
  - rewrite Hnil in E. simpl in E. destruct q; [|done]. by destruct t.
  - pose proof (app_removelast_last EmptyString Hne) as Hsplit.
    rewrite E in Hsplit. rewrite <- app_assoc in Hsplit.
    apply prefixes_comparable in Hsplit as [E'|E']; congruence.
Qed.

Lemma siblings_apart (p : path) (k k' : string) : k <> k' -> apart (p // k) (p // k').
Proof. intros H. split; rewrite is_under_div; by apply bool_decide_false. Qed.

Lemma apart_below (t q r : path) : apart t q -> apart t (q ++ r).
Proof. intros H. by apply apart_sym, apart_extend, apart_sym. Qed.

Lemma path_split (t : path) : t <> [] -> t = Path.parent t // Path.name t.
Proof. intros H. unfold Path.parent, Path.name, Path.div. by apply app_removelast_last. Qed.

(** Rewriting one entry of a directory changes nothing apart from that
    entry. *)
Lemma with_dir_frame p c f n n' q :
  touches_only c f -> with_dir p f n = Some n' ->
  apart (p // c) q -> lookup q n' = lookup q n.
Proof.
  intros Hf. revert n n' q.
  induction p as [|c0 p IH]; intros n n' q Hw Hq; simpl in Hw.
  - destruct n as [d|es]; [done|].
    destruct (f es) as [es'|] eqn:Hfe; simpl in Hw; [|done]. injection Hw as <-.
    destruct q as [|c' r]; [by destruct (apart_nonempty _ _ Hq)|].
    destruct Hq as [Hq _]. simpl in *. rewrite andb_true_r in Hq.
    apply bool_decide_eq_false in Hq.
    by rewrite (Hf _ _ Hfe c') by congruence.
  - destruct n as [d|es0]; [done|].
    destruct (child c0 es0) as [n0|] eqn:Hc0; [|done].
    destruct (with_dir p f n0) as [n0'|] eqn:Hw0; [|done]. injection Hw as <-.
    destruct q as [|c' r]; [by destruct (apart_nonempty _ _ Hq)|].
    simpl. destruct (decide (c0 = c')) as [->|Hne].
    + rewrite child_set_eq, Hc0. apply (IH _ _ _ Hw0).
      by apply apart_cons in Hq.
    + by rewrite child_set_ne.
Qed.

Lemma unlink_frame t fs fs' q :
  unlink t fs = Some fs' -> apart t q -> lookup q fs' = lookup q fs.
Proof.
  unfold unlink. destruct t as [|c0 t0] eqn:Et; [done|]. rewrite <- Et.
  intros Hw Hq. rewrite (path_split t) in Hq by (subst; done).
  eapply with_dir_frame; [|exact Hw|exact Hq].
  intros es es' H c' Hc'.
  destruct (child (Path.name t) es) as [[d|x]|]; simplify_eq.
  by rewrite child_remove_ne.
Qed.

Lemma rmtree_frame t fs fs' q :
  rmtree t fs = Some fs' -> apart t q -> lookup q fs' = lookup q fs.
Proof.
  unfold rmtree. destruct t as [|c0 t0] eqn:Et; [done|]. rewrite <- Et.
  intros Hw Hq. rewrite (path_split t) in Hq by (subst; done).
  eapply with_dir_frame; [|exact Hw|exact Hq].
  intros es es' H c' Hc'.
  destruct (child (Path.name t) es) as [[d|x]|]; simplify_eq.
  by rewrite child_remove_ne.
Qed.

Lemma write_file_frame t data fs fs' q :
  write_file t data fs = Some fs' -> apart t q -> lookup q fs' = lookup q fs.
Proof.
  unfold write_file. destruct t as [|c0 t0] eqn:Et; [done|]. rewrite <- Et.
  intros Hw Hq. rewrite (path_split t) in Hq by (subst; done).
  eapply with_dir_frame; [|exact Hw|exact Hq].
  intros es es' H c' Hc'.
  destruct (child (Path.name t) es) as [[d|x]|]; simplify_eq;
    by rewrite child_set_ne.
Qed.

Lemma mkdir_frame t fs fs' q :
  mkdir t fs = Some fs' -> apart t q -> lookup q fs' = lookup q fs.
Proof.
  unfold mkdir. destruct t as [|c0 t0] eqn:Et; [done|]. rewrite <- Et.
  intros Hw Hq. rewrite (path_split t) in Hq by (subst; done).
  eapply with_dir_frame; [|exact Hw|exact Hq].
  intros es es' H c' Hc'.
  destruct (child (Path.name t) es) as [n|]; simplify_eq.
  by rewrite child_set_ne.
Qed.

Lemma rename_frame src dst fs fs' q :
  rename src dst fs = Some fs' -> apart src q -> apart dst q ->
  lookup q fs' = lookup q fs.
Proof.
  unfold rename.
  destruct src as [|a src0] eqn:Es; [done|]. rewrite <- Es.
  destruct dst as [|b dst0] eqn:Ed; [done|]. rewrite <- Ed.
  destruct (lookup src fs) as [n|]; [|done].
  destruct (exists_ fs dst || Path.is_under src dst); [done|].
  destruct (with_dir (Path.parent src) _ fs) as [fs1|] eqn:H1; [|done].
  intros H2 Hs Hd.
  rewrite (path_split src) in Hs by (subst; done).
  rewrite (path_split dst) in Hd by (subst; done).
  transitivity (lookup q fs1).
  - eapply with_dir_frame; [|exact H2|exact Hd].
    intros es es' H c' Hc'. simplify_eq. by rewrite child_set_ne.
  - eapply with_dir_frame; [|exact H1|exact Hs].
    intros es es' H c' Hc'. simplify_eq. by rewrite child_remove_ne.
Qed.

(** Creating the directories on the way to [p] changes nothing that is
    not on the way. *)
Lemma makedirs_frame p n n' q :
  makedirs p n = Some n' -> Path.is_under q p = false ->
  lookup q n' = lookup q n.
Proof.
  revert n n' q. induction p as [|c0 p IH]; intros n n' q Hm Hq; simpl in Hm.
  - destruct n; [done|]. by injection Hm as <-.
  - destruct n as [d|es0]; [done|].
    destruct (makedirs p (default (Dir []) (child c0 es0))) as [n0'|] eqn:Hm0;
      [|done].
    injection Hm as <-.
    destruct q as [|c' r]; [done|]. simpl in Hq. simpl.
    destruct (decide (c' = c0)) as [->|Hne].
    + rewrite bool_decide_true in Hq by done. simpl in Hq.
      rewrite child_set_eq. rewrite (IH _ _ _ Hm0 Hq).
      destruct (child c0 es0); [done|]. simpl. by destruct r.
    + by rewrite child_set_ne.
Qed.

Lemma extract_member_frame target m fs q :
  apart target q ->
  lookup q (Zipfile.extract_member target m fs).1 = lookup q fs.
Proof.
  intros Hq. unfold Zipfile.extract_member.
  set (s := Zipfile.sanitize m.1).
  pose proof (apart_not_on_the_way target q s Hq) as Hway.
  pose proof (apart_extend target q s Hq) as Hat.
  assert (forall fs1,
    (if exists_ fs (Path.parent (target ++ s)) then Some fs
     else makedirs (Path.parent (target ++ s)) fs) = Some fs1 ->
    lookup q fs1 = lookup q fs) as Hmade.
  { intros fs1. destruct (exists_ fs (Path.parent (target ++ s))).
    - by intros [= <-].
    - intros H. eapply makedirs_frame; eauto. }
  destruct (if exists_ fs (Path.parent (target ++ s)) then Some fs
            else makedirs (Path.parent (target ++ s)) fs) as [fs1|]; [|done].
  specialize (Hmade _ eq_refl).
  destruct m.2 as [data|].
  - destruct (write_file (target ++ s) data fs1) as [fs2|] eqn:Hw; simpl; [|done].
    by rewrite (write_file_frame _ _ _ _ _ Hw Hat).
  - destruct (is_dir fs1 (target ++ s)); simpl; [done|].
    destruct (mkdir (target ++ s) fs1) as [fs2|] eqn:Hk; simpl; [|done].
    by rewrite (mkdir_frame _ _ _ _ Hk Hat).
Qed.

(** Extraction stays inside its target: member names cannot lead out of
    it. *)
Lemma extractall_frame target ms fs q :
  apart target q ->
  lookup q (Zipfile.extractall target ms fs).1 = lookup q fs.
Proof.
  intros Hq. revert fs. induction ms as [|m ms IH]; intros fs; simpl; [done|].
  pose proof (extract_member_frame target m fs q Hq) as H1.
  destruct (Zipfile.extract_member target m fs) as [fs1 [|]]; simpl in *.
  - by rewrite IH.
  - done.
Qed.

End FrameFacts.

(** ** The Fetcher stays in the vendor directory *)

Module FetcherFrame.
Import FS FSFacts BuilderFacts Builder Frame FrameFacts Fetcher.

Lemma keeps_ret q {A} (a : A) : keeps q (ret a).
Proof. by intros w. Qed.

Lemma keeps_stop q {A} (o : outcome) : keeps q (@stop A o).
Proof. by intros w. Qed.

Lemma keeps_emit q e : keeps q (emit e).
Proof. by intros w. Qed.

Lemma keeps_print q s : keeps q (print s).
Proof. by intros w. Qed.

Lemma keeps_get_fs q : keeps q get_fs.
Proof. by intros w. Qed.

Lemma keeps_bind q {A B} (m : run_m A) (k : A -> run_m B) :
  keeps q m -> (forall a, keeps q (k a)) -> keeps q (bind m k).
Proof.
  intros Hm Hk w. unfold bind. specialize (Hm w).
  destruct (m w) as [[a|o] w1]; simpl in *; [|done].
  by rewrite (Hk a w1).
Qed.

Lemma keeps_when q c m : keeps q m -> keeps q (when c m).
Proof. intros H. destruct c; [done|apply keeps_ret]. Qed.

Lemma keeps_fs_call q exn op :
  (forall fs fs', op fs = Some fs' -> lookup q fs' = lookup q fs) ->
  keeps q (fs_call exn op).
Proof.
  intros H w. unfold fs_call. destruct (op (w_fs w)) eqn:E; simpl; [|done].
  by apply H.
Qed.

Create HintDb keeps.
#[export] Hint Resolve keeps_ret keeps_stop keeps_emit keeps_print keeps_get_fs
  keeps_when : keeps.

Ltac keep :=
  repeat first
    [ apply keeps_bind; [|intros ?]
    | solve [auto with keeps]
    | match goal with
      | |- keeps _ (match ?x with _ => _ end) => destruct x
      | |- keeps _ (if ?x then _ else _) => destruct x
      end ].

Lemma vendor_child_apart sf c q :
  apart (vendor_dir sf) q -> apart (vendor_dir sf // c) q.
Proof. apply apart_extend. Qed.

Lemma keeps_progress_hook q c b t : keeps q (progress_hook c b t).
Proof. unfold progress_hook. keep. Qed.

Lemma keeps_report q cs size : keeps q (report cs size).
Proof.
  induction cs as [|c cs IH]; simpl; [keep|].
  apply keeps_bind; [apply keeps_progress_hook|]. intros [e|]; [keep|exact IH].
Qed.

Lemma keeps_urlretrieve q net dest :
  apart dest q -> keeps q (urlretrieve net dest).
Proof.
  intros Hq. destruct net as [reason|size received body]; simpl; [keep|].
  intros [fs env libs out]. unfold bind at 1, get_fs at 1. cbn [w_fs].
  destruct (write_file dest (Raw "") fs) as [fs0|] eqn:H0; [|done].
  unfold bind at 1, put_fs at 1. cbn [w_fs w_env w_libs w_out].
  pose proof (write_file_frame _ _ _ _ _ H0 Hq) as E0. rewrite <- E0.
  unfold bind at 1.
  pose proof (keeps_progress_hook q 0 Urllib.bs size (World fs0 env libs out)) as Hp.
  destruct (progress_hook 0 Urllib.bs size (World fs0 env libs out))
    as [[[e|]|o] [fs0' env' libs' out']]; cbn [w_fs snd] in Hp; [done| |done].
  destruct (write_file dest body fs0) as [fs1|] eqn:H1; [|done].
  unfold bind at 1, put_fs at 1. cbn [w_fs w_env w_libs w_out].
  pose proof (write_file_frame _ _ _ _ _ H1 Hq) as E1. rewrite <- E1.
  match goal with
  | |- context [ bind (report ?cs size) ?k ?w ] =>
      pose proof (keeps_bind q (report cs size) k (keeps_report q cs size)) as Hk;
      apply Hk
  end.
  intros [e|]; keep.
Qed.

Lemma keeps_download q sf net :
  apart (zip_path sf) q -> keeps q (download sf net).
Proof.
  intros Hq. unfold download, download_file.
  apply keeps_bind; [keep|]. intros _.
  apply keeps_bind.
  - apply keeps_bind; [keep|]. intros _.
    apply keeps_bind; [by apply keeps_urlretrieve|].
    intros [e|]; keep.
  - intros [e|]; keep.
Qed.

Lemma keeps_confirm q sf answer :
  apart (vendor_dir sf) q -> keeps q (confirm_overwrite sf answer).
Proof.
  intros Hq. unfold confirm_overwrite.
  apply keeps_bind; [keep|]. intros fs. apply keeps_when.
  apply keeps_bind; [keep|]. intros _. apply keeps_bind; [keep|]. intros _.
  destruct (bool_decide _); [keep|].
  apply keeps_fs_call. intros fs1 fs2 H.
  eapply rmtree_frame; [exact H|]. by apply vendor_child_apart.
Qed.

Lemma keeps_extract q sf :
  apart (vendor_dir sf) q -> keeps q (extract sf).
Proof.
  intros Hq. unfold extract. apply keeps_bind; [keep|]. intros _.
  intros [fs env libs out]. unfold bind, get_fs. cbn [w_fs].
  destruct (lookup (zip_path sf) fs) as [[[b|members]|es]|]; try done.
  pose proof (extractall_frame (vendor_dir sf) members fs q Hq) as H.
  destruct (Zipfile.extractall (vendor_dir sf) members fs) as [fs' [|]];
    simpl in *; done.
Qed.

Lemma iterdir_child fs p d : In d (iterdir fs p) -> exists k, d = p // k.
Proof.
  unfold iterdir. destruct (lookup p fs) as [[c|es]|]; try done.
  intros H. apply List.in_map_iff in H as ([k v] & <- & _). eauto.
Qed.

Lemma keeps_normalize q sf fs :
  apart (vendor_dir sf) q -> keeps q (normalize sf (find_extracted_dir sf fs)).
Proof.
  intros Hq. unfold normalize.
  destruct (find_extracted_dir sf fs) as [d|] eqn:Hfind; [|keep].
  apply List.find_some in Hfind as [Hin _].
  apply iterdir_child in Hin as [k ->].
  apply keeps_when. apply keeps_bind; [keep|]. intros fs0.
  apply keeps_bind.
  - apply keeps_when, keeps_fs_call. intros fs1 fs2 H.
    eapply rmtree_frame; [exact H|]. by apply vendor_child_apart.
  - intros _. apply keeps_fs_call. intros fs1 fs2 H.
    eapply rename_frame; [exact H| |]; by apply vendor_child_apart.
Qed.

Lemma keeps_install q sf :
  apart (vendor_dir sf) q -> keeps q (install sf).
Proof.
  intros Hq. unfold install, settle.
  apply keeps_bind; [by apply keeps_extract|]. intros _.
  apply keeps_bind; [keep|]. intros fs.
  apply keeps_bind; [by apply keeps_normalize|]. intros _.
  apply keeps_bind.
  - unfold cleanup. apply keeps_bind; [keep|]. intros _.
    apply keeps_fs_call. intros fs1 fs2 H.
    eapply unlink_frame; [exact H|]. by apply vendor_child_apart.
  - intros _. unfold verify. keep.
Qed.

(** X1.  Whatever the answer, the network and the archive, a run of the
    Fetcher changes nothing outside the vendor directory (and the
    directories on the way to it): every location that is neither in the
    vendor directory nor above it holds at the end what it held before. *)
Theorem fetcher_stays_in_vendor (sf : path) (answer : string) (net : network)
    (fs : node) (q : path) :
  apart (vendor_dir sf) q ->
  lookup q (w_fs (main sf answer net fs).2) = lookup q fs.
Proof.
  intros Hq.
  assert (keeps q (main_body sf answer net)) as H.
  { unfold main_body.
    apply keeps_bind; [keep|]. intros _. apply keeps_bind; [keep|]. intros _.
    apply keeps_bind; [keep|]. intros _.
    apply keeps_bind; [by apply keeps_confirm|]. intros _.
    apply keeps_bind.
    { apply keeps_fs_call. intros fs1 fs2 Hm.
      eapply makedirs_frame; [exact Hm|]. by destruct Hq. }
    intros _. apply keeps_bind; [by apply keeps_download, vendor_child_apart|].
    intros _. by apply keeps_install. }
  unfold main. specialize (H (boot fs)).
  destruct (main_body sf answer net (boot fs)) as [[[]|o] w]; exact H.
Qed.

(** The theorem at the script itself, through a fetch into a fresh
    checkout. *)
Lemma fetcher_stays_in_vendor_witness :
  apart (vendor_dir Sample.fetch_script) ["proj"; "scripts"]
  /\ lookup ["proj"; "scripts"]
       (w_fs (main Sample.fetch_script "" (Reply 100 100 Sample.release_archive)
                Sample.fresh).2)
     = lookup ["proj"; "scripts"] Sample.fresh.
Proof.
  split; [by split|].
  apply (fetcher_stays_in_vendor Sample.fetch_script "" _ Sample.fresh
           ["proj"; "scripts"]).
  by split.
Defined.

End FetcherFrame.

(** ** How a run of the Fetcher can end *)

Module FetcherEnds.
Import FS FSFacts BuilderFacts Builder Frame FrameFacts FetcherFrame Fetcher
  FetcherFacts Reports.

Lemma ends_ret P {A} (a : A) : ends_in P (ret a).
Proof. by intros w o w'. Qed.

Lemma ends_emit P e : ends_in P (emit e).
Proof. by intros w o w'. Qed.

Lemma ends_print P s : ends_in P (print s).
Proof. by intros w o w'. Qed.

Lemma ends_get_fs P : ends_in P get_fs.
Proof. by intros w o w'. Qed.

Lemma ends_put_fs P fs : ends_in P (put_fs fs).
Proof. by intros w o w'. Qed.

Lemma ends_stop (P : outcome -> Prop) {A} o : P o -> ends_in P (@stop A o).
Proof. intros H w o' w'. unfold stop. by intros [= <- _]. Qed.

Lemma ends_fs_call (P : outcome -> Prop) exn op :
  P (Raised exn) -> ends_in P (fs_call exn op).
Proof.
  intros H w o w'. unfold fs_call. destruct (op (w_fs w)); [done|].
  by intros [= <- _].
Qed.

Lemma ends_bind P {A B} (m : run_m A) (k : A -> run_m B) :
  ends_in P m -> (forall a, ends_in P (k a)) -> ends_in P (bind m k).
Proof.
  intros Hm Hk w o w'. unfold bind.
  destruct (m w) as [[a|o1] w1] eqn:E.
  - apply Hk.
  - intros [= <- <-]. eapply Hm; eauto.
Qed.

Lemma ends_when P c m : ends_in P m -> ends_in P (when c m).
Proof. intros H. destruct c; [done|apply ends_ret]. Qed.

Lemma raises_raised e : raises (Raised e).
Proof. by exists e. Qed.

Create HintDb ends.
#[export] Hint Resolve ends_ret ends_emit ends_print ends_get_fs ends_put_fs
  ends_when raises_raised : ends.

Ltac endings :=
  repeat first
    [ apply ends_bind; [|intros ?]
    | apply ends_when
    | apply ends_fs_call
    | apply ends_stop
    | solve [auto with ends]
    | match goal with
      | |- ends_in _ (match ?x with _ => _ end) => destruct x
      | |- ends_in _ (if ?x then _ else _) => destruct x
      | |- ends_in _ (let '(_, _) := ?x in _) => destruct x
      end ].

Lemma ends_progress_hook P c b t : ends_in P (progress_hook c b t).
Proof. unfold progress_hook. endings. Qed.

Lemma ends_report P cs size : ends_in P (report cs size).
Proof.
  induction cs as [|c cs IH]; simpl; [endings|].
  apply ends_bind; [apply ends_progress_hook|]. intros [e|]; [endings|exact IH].
Qed.

Lemma ends_urlretrieve P net dest : ends_in P (urlretrieve net dest).
Proof.
  destruct net as [reason|size received body]; simpl; [endings|].
  apply ends_bind; [endings|]. intros fs.
  destruct (write_file dest (Raw "") fs) as [fs0|]; [|endings].
  apply ends_bind; [endings|]. intros _.
  apply ends_bind; [apply ends_progress_hook|]. intros [e|]; [endings|].
  destruct (write_file dest body fs0) as [fs1|]; [|endings].
  apply ends_bind; [endings|]. intros _.
  apply ends_bind; [apply ends_report|]. intros [e|]; endings.
Qed.

(** A download stops the run in one way only: exit status 1. *)
Lemma ends_download sf net : ends_in (fun o => o = Exited 1) (download sf net).
Proof.
  unfold download, download_file.
  apply ends_bind; [endings|]. intros _.
  apply ends_bind.
  - apply ends_bind; [endings|]. intros _.
    apply ends_bind; [apply ends_urlretrieve|]. intros [e|]; endings.
  - intros [e|]; endings; done.
Qed.

Lemma ends_extract sf : ends_in raises (extract sf).
Proof. unfold extract. endings. Qed.

Lemma ends_normalize sf d : ends_in raises (normalize sf d).
Proof. unfold normalize. destruct d; endings. Qed.

Lemma ends_cleanup sf : ends_in raises (cleanup sf).
Proof. unfold cleanup. endings. Qed.

Lemma unlink_gone t fs fs' : unlink t fs = Some fs' -> exists_ fs' t = false.
Proof.
  unfold unlink. destruct t as [|c0 t0] eqn:Et; [done|]. rewrite <- Et.
  intros H. apply with_dir_inv in H as (es & es' & H1 & H2 & H3).
  rewrite (path_split t) by (subst; done).
  unfold exists_. rewrite lookup_div, H3.
  destruct (child (Path.name t) es) as [[d|x]|]; simplify_eq.
  by rewrite child_remove_eq.
Qed.

Lemma rmtree_gone t fs fs' r : rmtree t fs = Some fs' -> lookup (t ++ r) fs' = None.
Proof.
  unfold rmtree. destruct t as [|c0 t0] eqn:Et; [done|]. rewrite <- Et.
  intros H. apply with_dir_inv in H as (es & es' & H1 & H2 & H3).
  rewrite (path_split t) at 1 by (subst; done).
  rewrite (lookup_below _ _ _ _ _ H3).
  destruct (child (Path.name t) es) as [[d|x]|]; simplify_eq.
  by rewrite child_remove_eq.
Qed.

Lemma cleanup_next sf w w' :
  cleanup sf w = (Next tt, w') -> exists_ (w_fs w') (zip_path sf) = false.
Proof.
  destruct w as [fs env libs out]. unfold cleanup. run_step.
  destruct (unlink (zip_path sf) fs) as [fs'|] eqn:E; [|done].
  intros [= <-]. simpl. by apply unlink_gone in E.
Qed.

Lemma verify_spec sf w r w' :
  verify sf w = (r, w') ->
  w_fs w' = w_fs w
  /\ match r with
     | Next _ => exists_ (w_fs w) (pdftoppm sf) = true
     | Stop o => o = Exited 1 /\ exists_ (w_fs w) (pdftoppm sf) = false
     end.
Proof.
  destruct w as [fs env libs out]. unfold verify. run_step.
  destruct (exists_ fs (pdftoppm sf)) eqn:E; run_step; intros [= <- <-]; by simpl.
Qed.

(** What follows the download ends in one of three ways: normally, with
    the binary in place and the archive gone; with exit status 1 and no
    binary; or on an exception. *)
Lemma install_outcome sf w o w' :
  finish (install sf w) = (o, w') ->
  match o with
  | Returned => exists_ (w_fs w') (pdftoppm sf) = true
                /\ exists_ (w_fs w') (zip_path sf) = false
  | Exited code => code = 1 /\ exists_ (w_fs w') (pdftoppm sf) = false
  | Raised _ => True
  end.
Proof.
  unfold install, settle. unfold bind at 1.
  destruct (extract sf w) as [[[]|o1] w1] eqn:E1.
  2:{ apply ends_extract in E1 as [e ->]. by intros [= <- <-]. }
  unfold bind at 1, get_fs at 1. unfold bind at 1.
  destruct (normalize sf (find_extracted_dir sf (w_fs w1)) w1) as [[[]|o2] w2] eqn:E2.
  2:{ apply ends_normalize in E2 as [e ->]. by intros [= <- <-]. }
  unfold bind at 1.
  destruct (cleanup sf w2) as [[[]|o3] w3] eqn:E3.
  2:{ apply ends_cleanup in E3 as [e ->]. by intros [= <- <-]. }
  apply cleanup_next in E3.
  destruct (verify sf w3) as [[[]|o4] w4] eqn:E4;
    apply verify_spec in E4 as [Hfs H]; simpl; intros [= <- <-]; rewrite Hfs.
  - done.
  - by destruct H as [-> H].
Qed.

Lemma under_longer (p : path) (c : string) (l : path) :
  Path.is_under (p ++ c :: l) p = false.
Proof. induction p as [|k p IH]; simpl; [done|]. by rewrite bool_decide_true. Qed.

Lemma binary_not_on_the_way sf : Path.is_under (pdftoppm sf) (vendor_dir sf) = false.
Proof.
  unfold pdftoppm, poppler_dir, Path.div. rewrite <- !app_assoc. apply under_longer.
Qed.

Lemma archive_apart_from_binary sf : apart (zip_path sf) (pdftoppm sf).
Proof.
  unfold pdftoppm, poppler_dir, zip_path, Path.div. rewrite <- !app_assoc.
  split; by rewrite is_under_same_prefix.
Qed.

(** Lines 54-105, started without the binary. *)
Lemma after_confirm_outcome sf net w o w' :
  exists_ (w_fs w) (pdftoppm sf) = false ->
  finish ((fs_call "mkdir" (makedirs (vendor_dir sf)) ;;
           download sf net ;; install sf)%run w) = (o, w') ->
  match o with
  | Returned => exists_ (w_fs w') (pdftoppm sf) = true
                /\ exists_ (w_fs w') (zip_path sf) = false
  | Exited code => code = 1 /\ exists_ (w_fs w') (pdftoppm sf) = false
  | Raised _ => True
  end.
Proof.
  intros Hno. unfold bind at 1.
  destruct (fs_call "mkdir" (makedirs (vendor_dir sf)) w) as [[[]|o1] w1] eqn:E1.
  2:{ apply (ends_fs_call raises) in E1 as [e ->]; [|apply raises_raised].
      by intros [= <- <-]. }
  assert (exists_ (w_fs w1) (pdftoppm sf) = false) as Hno1.
  { unfold fs_call in E1. destruct (makedirs (vendor_dir sf) (w_fs w)) eqn:Em; [|done].
    injection E1 as <-. simpl. unfold exists_ in *.
    by rewrite (makedirs_frame _ _ _ _ Em (binary_not_on_the_way sf)). }
  unfold bind at 1.
  pose proof (keeps_download (pdftoppm sf) sf net (archive_apart_from_binary sf) w1)
    as Hk.
  destruct (download sf net w1) as [[[]|o2] w2] eqn:E2; simpl in Hk.
  - apply install_outcome.
  - apply ends_download in E2 as ->. intros [= <- <-]. split; [done|].
    unfold exists_ in *. by rewrite Hk.
Qed.

Lemma confirm_skip sf answer w :
  already_installed sf (w_fs w) = false ->
  confirm_overwrite sf answer w = (Next tt, w).
Proof.
  destruct w as [fs env libs out]. simpl. intros H.
  unfold confirm_overwrite. run_step. by rewrite H.
Qed.

Lemma not_installed_no_binary sf fs :
  already_installed sf fs = false -> exists_ fs (pdftoppm sf) = false.
Proof.
  unfold already_installed, exists_, pdftoppm. rewrite div3, lookup_app.
  destruct (lookup (poppler_dir sf) fs); simpl; done.
Qed.

(** *** The archive, once it is there *)

(** Rewriting the entry [c] of the directory at [p] without replacing a
    directory leaves every file but the one at [p // c] as it is. *)
Lemma with_dir_other p c f n n' q d :
  touches_only c f ->
  (forall es es' x, f es = Some es' -> child c es = Some (Dir x) ->
                    child c es' = Some (Dir x)) ->
  with_dir p f n = Some n' ->
  lookup q n = Some (File d) -> q <> p // c ->
  lookup q n' = Some (File d).
Proof.
  intros Hf Hd. revert n n' q.
  induction p as [|c0 p IH]; intros n n' q Hw Hq Hne; simpl in Hw.
  - destruct n as [d0|es]; [done|].
    destruct (f es) as [es'|] eqn:Hfe; simpl in Hw; [|done]. injection Hw as <-.
    destruct q as [|c1 r]; [done|]. simpl in *.
    destruct (decide (c1 = c)) as [->|Hc].
    + destruct (child c es) as [[d1|x]|] eqn:Hce; [|by rewrite (Hd _ _ _ Hfe Hce)|done].
      destruct r; [done|]. done.
    + by rewrite (Hf _ _ Hfe c1 Hc).
  - destruct n as [d0|es0]; [done|].
    destruct (child c0 es0) as [n0|] eqn:Hc0; [|done].
    destruct (with_dir p f n0) as [n0'|] eqn:Hw0; [|done]. injection Hw as <-.
    destruct q as [|c1 r]; [done|]. simpl in *.
    destruct (decide (c0 = c1)) as [->|Hc].
    + rewrite child_set_eq. rewrite Hc0 in Hq.
      apply (IH _ _ _ Hw0 Hq). intros ->. by apply Hne.
    + by rewrite child_set_ne.
Qed.

Lemma write_file_other t data fs fs' q d :
  write_file t data fs = Some fs' -> lookup q fs = Some (File d) -> t <> q ->
  lookup q fs' = Some (File d).
Proof.
  unfold write_file. destruct t as [|c0 t0] eqn:Et; [done|]. rewrite <- Et.
  intros Hw Hq Hne.
  eapply (with_dir_other (Path.parent t) (Path.name t)); [| |exact Hw|exact Hq|].
  - intros es es' H c' Hc'.
    destruct (child (Path.name t) es) as [[d0|x]|]; simplify_eq;
      by rewrite child_set_ne.
  - intros es es' x H Hx. cbv beta in H. by rewrite Hx in H.
  - rewrite <- path_split by (subst; done). congruence.
Qed.

Lemma mkdir_other t fs fs' q d :
  mkdir t fs = Some fs' -> lookup q fs = Some (File d) ->
  lookup q fs' = Some (File d).
Proof.
  unfold mkdir. destruct t as [|c0 t0] eqn:Et; [done|]. rewrite <- Et.
  intros Hw Hq.
  pose proof Hw as Hw'. apply with_dir_inv in Hw' as (es & es' & H1 & H2 & H3).
  eapply (with_dir_other (Path.parent t) (Path.name t)); [| |exact Hw|exact Hq|].
  - intros es0 es0' H c' Hc'.
    destruct (child (Path.name t) es0) as [n0|]; simplify_eq.
    by rewrite child_set_ne.
  - intros es0 es0' x H Hx. cbv beta in H. by rewrite Hx in H.
  - intros ->. rewrite lookup_div, H1 in Hq.
    destruct (child (Path.name t) es); done.
Qed.

Lemma makedirs_other p n n' q d :
  makedirs p n = Some n' -> lookup q n = Some (File d) ->
  lookup q n' = Some (File d).
Proof.
  revert n n' q. induction p as [|c0 p IH]; intros n n' q Hm Hq; simpl in Hm.
  - destruct n; [done|]. by injection Hm as <-.
  - destruct n as [d0|es0]; [done|].
    destruct (makedirs p (default (Dir []) (child c0 es0))) as [n0'|] eqn:Hm0;
      [|done].
    injection Hm as <-.
    destruct q as [|c r]; simpl in *; [done|].
    destruct (decide (c0 = c)) as [->|Hne].
    + rewrite child_set_eq.
      destruct (child c es0) as [n0|] eqn:Hc; [|done]. simpl in Hm0.
      eapply IH; eauto.
    + by rewrite child_set_ne.
Qed.

(** Extraction rewrites no file but those its file members are written
    at. *)
Lemma extract_member_other target m fs q d :
  lookup q fs = Some (File d) -> Zipfile.lands_on target q m = false ->
  lookup q (Zipfile.extract_member target m fs).1 = Some (File d).
Proof.
  intros Hq Hl. unfold Zipfile.extract_member, Zipfile.lands_on in *.
  set (targetpath := target ++ Zipfile.sanitize m.1) in *.
  assert (forall fs1,
    (if exists_ fs (Path.parent targetpath) then Some fs
     else makedirs (Path.parent targetpath) fs) = Some fs1 ->
    lookup q fs1 = Some (File d)) as Hmade.
  { intros fs1. destruct (exists_ fs (Path.parent targetpath)).
    - by intros [= <-].
    - intros H. eapply makedirs_other; eauto. }
  destruct (if exists_ fs (Path.parent targetpath) then Some fs
            else makedirs (Path.parent targetpath) fs) as [fs1|]; [|done].
  specialize (Hmade _ eq_refl).
  destruct m.2 as [data|].
  - apply bool_decide_eq_false in Hl.
    destruct (write_file targetpath data fs1) as [fs2|] eqn:Hw; simpl; [|done].
    eapply write_file_other; eauto.
  - destruct (is_dir fs1 targetpath); simpl; [done|].
    destruct (mkdir targetpath fs1) as [fs2|] eqn:Hk; simpl; [|done].
    eapply mkdir_other; eauto.
Qed.

Lemma extractall_other target ms fs q d :
  lookup q fs = Some (File d) ->
  List.forallb (fun m => negb (Zipfile.lands_on target q m)) ms = true ->
  lookup q (Zipfile.extractall target ms fs).1 = Some (File d).
Proof.
  revert fs. induction ms as [|m ms IH]; intros fs Hq Hl; simpl; [done|].
  simpl in Hl. apply andb_prop in Hl as [Hm Hl]. apply negb_true_iff in Hm.
  pose proof (extract_member_other target m fs q d Hq Hm) as H1.
  destruct (Zipfile.extract_member target m fs) as [fs1 [|]]; simpl in *; auto.
Qed.

(** An archive that is not unpacked onto itself is, when the extraction
    ends, what it was when it was opened. *)
Lemma extraction_leaves_archive sf fs members :
  lookup (zip_path sf) fs = Some (File (Zip members)) ->
  unpacks_beside sf members = true ->
  lookup (zip_path sf) (Zipfile.extractall (vendor_dir sf) members fs).1
  = Some (File (Zip members)).
Proof. intros Hz Hb. by apply extractall_other. Qed.

Lemma extract_keeps_archive sf w :
  is_file (w_fs w) (zip_path sf) = true ->
  is_file (w_fs (extract sf w).2) (zip_path sf) = true.
Proof.
  destruct w as [fs env libs out]. cbn [w_fs]. intros Hz. unfold extract. run_step.
  destruct (lookup (zip_path sf) fs) as [[[b|members]|es]|] eqn:E; try done.
  pose proof (ZipFacts.extractall_keeps_file (vendor_dir sf) members fs
                (zip_path sf) Hz) as H.
  destruct (Zipfile.extractall (vendor_dir sf) members fs) as [fs' [|]];
    simpl in *; done.
Qed.

(** The root that detection selects is a directory, so it is not the
    archive; moving it leaves the archive alone. *)
Lemma normalize_keeps_archive sf w :
  is_file (w_fs w) (zip_path sf) = true ->
  lookup (zip_path sf) (w_fs (normalize sf (find_extracted_dir sf (w_fs w)) w).2)
  = lookup (zip_path sf) (w_fs w).
Proof.
  intros Hz. destruct (find_extracted_dir sf (w_fs w)) as [d|] eqn:Hfind; [|done].
  apply List.find_some in Hfind as [Hin Hroot].
  apply iterdir_child in Hin as [k ->].
  assert (k <> "poppler.zip") as Hk.
  { intros ->. unfold is_extraction_root in Hroot.
    apply andb_prop in Hroot as [Hroot _]. apply andb_prop in Hroot as [Hroot _].
    fold (zip_path sf) in Hroot. unfold is_file in Hz. unfold is_dir in Hroot.
    destruct (lookup (zip_path sf) (w_fs w)) as [[|]|]; done. }
  assert (keeps (zip_path sf) (normalize sf (Some (vendor_dir sf // k)))) as H.
  { unfold normalize. apply keeps_when. apply keeps_bind; [keep|]. intros fs0.
    apply keeps_bind.
    - apply keeps_when, keeps_fs_call. intros fs1 fs2 H.
      eapply rmtree_frame; [exact H|]. by apply siblings_apart.
    - intros _. apply keeps_fs_call. intros fs1 fs2 H.
      eapply rename_frame; [exact H| |]; by apply siblings_apart. }
  apply H.
Qed.

(** Lines 70-105 with the archive in place: either nothing raises, and
    the archive goes; or the run ends on an exception, and the archive is
    still there. *)
Lemma install_archive sf w :
  is_file (w_fs w) (zip_path sf) = true ->
  exists o w',
    finish (install sf w) = (o, w')
    /\ (((o = Returned \/ o = Exited 1) /\ exists_ (w_fs w') (zip_path sf) = false)
        \/ (raises o /\ is_file (w_fs w') (zip_path sf) = true)).
Proof.
  intros Hz. unfold install, settle. unfold bind at 1.
  pose proof (extract_keeps_archive sf w Hz) as Hz1.
  destruct (extract sf w) as [[[]|o1] w1] eqn:E1; simpl in Hz1.
  2:{ eexists _, _. split; [reflexivity|]. right.
      split; [by apply ends_extract in E1|done]. }
  unfold bind at 1, get_fs at 1. unfold bind at 1.
  pose proof (normalize_keeps_archive sf w1 Hz1) as Hk.
  destruct (normalize sf (find_extracted_dir sf (w_fs w1)) w1) as [[[]|o2] w2] eqn:E2;
    simpl in Hk.
  2:{ eexists _, _. split; [reflexivity|]. right.
      split; [by apply ends_normalize in E2|]. unfold is_file in *. by rewrite Hk. }
  assert (is_file (w_fs w2) (zip_path sf) = true) as Hz2
    by (unfold is_file in *; by rewrite Hk).
  destruct w2 as [fs2 env2 libs2 out2]. cbn [w_fs] in Hz2.
  unfold is_file in Hz2.
  destruct (lookup (zip_path sf) fs2) as [[dz|]|] eqn:Hzl; try done.
  unfold zip_path in Hzl. apply lookup_div_inv in Hzl as (es & Hv & Hc).
  destruct (finish_cleanup_verify sf fs2 env2 libs2 out2 es dz Hv Hc)
    as (o & w' & Hf & Ho & Hgone).
  exists o, w'. split; [exact Hf|]. by left.
Qed.

(** C4, as the code has it.  In a run that got past the download, so that
    the archive file is in the vendor directory, the archive is removed
    exactly when nothing raises before line 91.  Either the run ends by
    returning or with exit status 1, whatever root detection and the final
    verification find, and the archive is gone; or it ends on an exception
    and the archive file is still there.  The first is the case when the
    file is a zip archive that unpacks without raising (and not onto
    itself, so that the archive is intact when the extraction ends) and no
    regular file sits at the canonical path; the second whenever the
    extraction raises, which ends the run there. *)
Theorem C4_archive_removed_unless_raised (sf : path) (fs : node)
    (env : gmap string string) (libs : list (path * dlmode)) (out : list event) :
  is_file fs (zip_path sf) = true ->
  exists o w',
    finish (install sf (World fs env libs out)) = (o, w')
    /\ (((o = Returned \/ o = Exited 1) /\ exists_ (w_fs w') (zip_path sf) = false)
        \/ (raises o /\ is_file (w_fs w') (zip_path sf) = true))
    /\ (forall members,
          lookup (zip_path sf) fs = Some (File (Zip members)) ->
          unpacks_beside sf members = true ->
          (Zipfile.extractall (vendor_dir sf) members fs).2 = true ->
          is_file (Zipfile.extractall (vendor_dir sf) members fs).1 (poppler_dir sf)
          = false ->
          lookup (zip_path sf) (Zipfile.extractall (vendor_dir sf) members fs).1
          = Some (File (Zip members))
          /\ (o = Returned \/ o = Exited 1))
    /\ (forall o1 w1,
          extract sf (World fs env libs out) = (Stop o1, w1) ->
          o = o1 /\ w' = w1 /\ raises o).
Proof.
  intros Hzf.
  destruct (install_archive sf (World fs env libs out) Hzf) as (o & w' & Hf & Hcases).
  exists o, w'. split; [exact Hf|]. split; [exact Hcases|]. split.
  - intros members Hz Hb Hok Hp.
    split; [by apply extraction_leaves_archive|].
    assert (is_file (Zipfile.extractall (vendor_dir sf) members fs).1 (zip_path sf)
            = true) as Hz1
      by (by apply ZipFacts.extractall_keeps_file).
    destruct (Zipfile.extractall (vendor_dir sf) members fs) as [fs1 ok] eqn:Hex.
    simpl in Hok, Hp, Hz1. subst ok.
    assert (extract sf (World fs env libs out)
            = (Next tt, World fs1 env libs
                          (out ++ [Print (nl +:+ "[2/3] Extracting...")]))) as He.
    { unfold extract. run_step. by rewrite Hz, Hex. }
    destruct (settle_removes_archive sf fs1 env libs
                (out ++ [Print (nl +:+ "[2/3] Extracting...")]) Hz1 Hp)
      as (o0 & w0 & H0 & Ho0 & _).
    revert Hf. unfold install. unfold bind at 1. rewrite He. cbv beta.
    rewrite H0. by intros [= <- <-].
  - intros o1 w1 E1. revert Hf. unfold install. unfold bind at 1. rewrite E1.
    intros [= <- <-]. split; [done|]. split; [done|]. by apply ends_extract in E1.
Qed.

(** The theorem at the release archive downloaded into a fresh checkout:
    the run returns and the archive is gone. *)
Lemma C4_archive_removed_witness :
  is_file (Dir [("proj", Dir [("scripts", Dir []);
             ("vendor", Dir [("poppler.zip", File Sample.release_archive)])])])
    (zip_path Sample.fetch_script) = true
  /\ exists o w',
       finish (install Sample.fetch_script
                 (boot (Dir [("proj", Dir [("scripts", Dir []);
                          ("vendor", Dir [("poppler.zip", File Sample.release_archive)])])])))
       = (o, w')
       /\ (o = Returned \/ o = Exited 1)
       /\ exists_ (w_fs w') (zip_path Sample.fetch_script) = false.
Proof.
  split; [reflexivity|].
  destruct (C4_archive_removed_unless_raised Sample.fetch_script
              (Dir [("proj", Dir [("scripts", Dir []);
                 ("vendor", Dir [("poppler.zip", File Sample.release_archive)])])])
              ∅ [] [] eq_refl)
    as (o & w' & Hf & Hcases & Hgood & _).
  exists o, w'. split; [exact Hf|].
  assert (o = Returned \/ o = Exited 1) as Ho.
  { apply (Hgood [(["Release-24.08.0-0"; "Library"; "bin"; "pdftoppm.exe"],
                   Some (Raw "MZ"))]); reflexivity. }
  split; [exact Ho|].
  destruct Hcases as [[_ Hg]|[[e He] _]]; [exact Hg|].
  destruct Ho as [Ho|Ho]; rewrite Ho in He; discriminate He.
Defined.

(** C4 as stated fails: a download that is not a zip archive gets the run
    past the download step, the extraction raises, and the archive file
    stays in the vendor directory. *)
Lemma C4_corrupt_archive_stays :
  (main Sample.fetch_script "" (Reply 7 7 (Raw "garbage")) Sample.fresh).1
  = Raised "BadZipFile"
  /\ In (Print (nl +:+ "[2/3] Extracting..."))
       (w_out (main Sample.fetch_script "" (Reply 7 7 (Raw "garbage")) Sample.fresh).2)
  /\ exists_ (w_fs (main Sample.fetch_script "" (Reply 7 7 (Raw "garbage"))
                     Sample.fresh).2)
       (zip_path Sample.fetch_script) = true.
Proof. vm_compute. intuition. Qed.

(** *** The run as a whole *)

Lemma report_returns cs size w : exists r w', report cs size w = (Next r, w').
Proof.
  destruct (report cs size w) as [[r|o] w'] eqn:E; [eauto|].
  by apply (ends_report (fun _ => False)) in E.
Qed.

(** A download that goes on to the extraction has left a file where the
    archive goes. *)
Lemma download_leaves_archive sf net w w' :
  download sf net w = (Next tt, w') -> is_file (w_fs w') (zip_path sf) = true.
Proof.
  destruct w as [fs env libs out].
  unfold download, download_file. run_step.
  destruct net as [reason|size received body]; [done|].
  unfold urlretrieve. run_step.
  destruct (write_file (zip_path sf) (Raw "") fs) as [fs0|] eqn:Hw0; [|done].
  run_step. unfold progress_hook at 1, percent.
  destruct (size =? 0); [done|]. run_step.
  destruct (write_file (zip_path sf) body fs0) as [fs1|] eqn:Hw1; [|done].
  run_step.
  match goal with
  | |- context [ report ?cs size ?w0 ] =>
      pose proof (keeps_report (zip_path sf) cs size w0) as Hk;
      destruct (report_returns cs size w0) as (r & w1 & Hr)
  end.
  rewrite Hr in Hk |- *. cbn [snd w_fs] in Hk.
  apply write_file_inv in Hw1 as (es1 & H1 & H1').
  assert (is_file (w_fs w1) (zip_path sf) = true) as Hz.
  { unfold is_file. rewrite Hk. unfold zip_path.
    by rewrite lookup_div, H1', child_set_eq. }
  destruct r as [e|]; [done|].
  destruct ((0 <=? size) && (received <? size)); [done|].
  destruct w1 as [fs2 env2 libs2 out2]. run_step. by intros [= <-].
Qed.

(** Lines 57-105, started without the binary. *)
Lemma after_mkdir_outcome sf net w o w' :
  exists_ (w_fs w) (pdftoppm sf) = false ->
  finish ((download sf net ;; install sf)%run w) = (o, w') ->
  match o with
  | Returned => exists_ (w_fs w') (pdftoppm sf) = true
                /\ exists_ (w_fs w') (zip_path sf) = false
  | Exited code => code = 1 /\ exists_ (w_fs w') (pdftoppm sf) = false
  | Raised _ => is_file (w_fs w') (zip_path sf) = true
  end.
Proof.
  intros Hno. unfold bind at 1.
  pose proof (keeps_download (pdftoppm sf) sf net (archive_apart_from_binary sf) w)
    as Hk.
  destruct (download sf net w) as [[[]|o2] w2] eqn:E2; simpl in Hk.
  - intros Hf. pose proof (install_outcome sf w2 o w' Hf) as Hout.
    destruct o as [|code|e]; [exact Hout|exact Hout|].
    apply download_leaves_archive in E2.
    destruct (install_archive sf w2 E2) as (o0 & w0 & H0 & Hcases).
    rewrite Hf in H0. injection H0 as <- <-.
    destruct Hcases as [[[?|?] _]|[_ ?]]; done.
  - apply ends_download in E2 as ->. intros [= <- <-]. split; [done|].
    unfold exists_ in *. by rewrite Hk.
Qed.


End FetcherEnds.

(** ** A fetch that goes through *)

Module FetcherSuccess.
Import FS FSFacts Fetcher FetcherFacts Reports.

Lemma extract_ok sf fs env libs out ms fs1 :
  lookup (zip_path sf) fs = Some (File (Zip ms)) ->
  Zipfile.extractall (vendor_dir sf) ms fs = (fs1, true) ->
  extract sf (World fs env libs out)
  = (Next tt, World fs1 env libs (out ++ [Print (nl +:+ "[2/3] Extracting...")])).
Proof. intros Hz He. unfold extract. run_step. by rewrite Hz, He. Qed.

Lemma cleanup_ok sf fs fs' env libs out :
  unlink (zip_path sf) fs = Some fs' ->
  cleanup sf (World fs env libs out)
  = (Next tt, World fs' env libs (out ++ [Print (nl +:+ "[3/3] Cleaning up...")])).
Proof. intros Hu. unfold cleanup. run_step. by rewrite Hu. Qed.

Lemma verify_ok sf fs env libs out :
  exists_ fs (pdftoppm sf) = true ->
  verify sf (World fs env libs out)
  = (Next tt, World fs env libs (out ++ success_report sf)).
Proof.
  intros He. unfold verify, success_report. run_step. rewrite He. run_step.
  by rewrite <- !app_assoc.
Qed.

(** Lines 84-87 on a detected root: it ends up at the canonical path,
    and the archive stays where it is. *)
Lemma normalize_root sf fs env libs out es k x z :
  lookup (vendor_dir sf) fs = Some (Dir es) ->
  child k es = Some (Dir x) ->
  child "poppler.zip" es = Some (File z) ->
  is_file fs (poppler_dir sf) = false ->
  exists fs2 es2,
    normalize sf (Some (vendor_dir sf // k)) (World fs env libs out)
    = (Next tt, World fs2 env libs out)
    /\ lookup (vendor_dir sf) fs2 = Some (Dir es2)
    /\ child "poppler" es2 = Some (Dir x)
    /\ child "poppler.zip" es2 = Some (File z).
Proof.
  intros Hv Hk Hz Hpf.
  destruct (decide (k = "poppler")) as [->|Hne].
  - exists fs, es. split; [|done].
    unfold normalize. fold (poppler_dir sf).
    by rewrite bool_decide_false by (intros H; by apply H).
  - destruct (normalize_moves sf fs env libs out es k (Dir x) Hv Hk Hne)
      as (fs2 & Hn & Hv2).
    { unfold is_file, poppler_dir in Hpf. rewrite lookup_div, Hv in Hpf.
      intros c Hc. by rewrite Hc in Hpf. }
    eexists fs2, _. split; [exact Hn|]. split; [exact Hv2|].
    split; [apply child_set_eq|].
    rewrite child_set_ne by done.
    rewrite child_remove_ne by congruence.
    by rewrite child_remove_ne.
Qed.

(** X3.  A fetch that goes through.  When the downloaded archive unpacks
    without error (and not onto itself), exactly one child of the vendor
    directory then passes the root test, that child holds the binary, and
    no regular file sits at the canonical path, the rest of the run goes to
    its end: the canonical path holds what the root held, the canonical
    binary is resolvable, the archive is gone, and the console ends with
    the success report. *)
Theorem install_succeeds (sf : path) (fs : node) (env : gmap string string)
    (libs : list (path * dlmode)) (out : list event)
    (members : list Zipfile.member) (fs1 : node) (d : path) :
  lookup (zip_path sf) fs = Some (File (Zip members)) ->
  unpacks_beside sf members = true ->
  Zipfile.extractall (vendor_dir sf) members fs = (fs1, true) ->
  sole_root sf fs1 d ->
  exists_ fs1 (d // "Library" // "bin" // "pdftoppm.exe") = true ->
  is_file fs1 (poppler_dir sf) = false ->
  exists fs',
    install sf (World fs env libs out)
    = (Next tt,
       World fs' env libs
         (out ++ [Print (nl +:+ "[2/3] Extracting...");
                  Print (nl +:+ "[3/3] Cleaning up...")] ++ success_report sf))
    /\ lookup (poppler_dir sf) fs' = lookup d fs1
    /\ exists_ fs' (pdftoppm sf) = true
    /\ exists_ fs' (zip_path sf) = false.
Proof.
  intros Hz _ He (Hin0 & Hroot0 & Huniq) Hbin Hpf.
  assert (find_extracted_dir sf fs1 = Some d) as Hfind
    by (by apply find_unique).
  assert (is_file fs1 (zip_path sf) = true) as Hz1.
  { pose proof (ZipFacts.extractall_keeps_file (vendor_dir sf) members fs
                  (zip_path sf)) as H.
    rewrite He in H. apply H. unfold is_file. by rewrite Hz. }
  unfold is_file in Hz1.
  destruct (lookup (zip_path sf) fs1) as [[z|]|] eqn:Hzl; try done.
  unfold zip_path in Hzl. apply lookup_div_inv in Hzl as (es & Hv & Hcz).
  pose proof Hfind as Hsel.
  apply List.find_some in Hfind as [Hin Hroot].
  apply (iterdir_In _ _ _ _ Hv) in Hin as (k & v & Hkv & ->).
  destruct (root_test_entry sf _ _ _ Hv Hroot) as [x Hk].
  destruct (normalize_root sf fs1 env libs
              (out ++ [Print (nl +:+ "[2/3] Extracting...")]) es k x z Hv Hk Hcz Hpf)
    as (fs2 & es2 & Hn & Hv2 & Hp2 & Hz2).
  destruct (unlink_div _ _ _ _ _ Hv2 Hz2) as (fs3 & Hu & Hv3).
  fold (zip_path sf) in Hu.
  assert (forall r, lookup (poppler_dir sf ++ r) fs3
                    = lookup (vendor_dir sf // k ++ r) fs1) as Hmoved.
  { intros r. unfold poppler_dir.
    rewrite (lookup_below _ _ _ _ _ Hv3), (lookup_below _ _ _ _ _ Hv), Hk.
    by rewrite child_remove_ne, Hp2. }
  assert (exists_ fs3 (pdftoppm sf) = true) as Hok.
  { unfold exists_, pdftoppm. rewrite div3, Hmoved.
    unfold exists_ in Hbin. by rewrite div3 in Hbin. }
  exists fs3. split; [|split; [|split]].
  - unfold install. unfold bind at 1. rewrite (extract_ok _ _ _ _ _ _ _ Hz He).
    unfold settle. unfold bind at 1, get_fs at 1. cbn [w_fs]. rewrite Hsel.
    unfold bind at 1. rewrite Hn.
    unfold bind at 1. rewrite (cleanup_ok _ _ _ _ _ _ Hu).
    rewrite (verify_ok _ _ _ _ _ Hok). by rewrite <- !app_assoc.
  - pose proof (Hmoved []) as H0. by rewrite !app_nil_r in H0.
  - exact Hok.
  - eapply zip_gone. exact Hv3.
Qed.

(** The theorem at the release archive downloaded into a fresh checkout. *)
Lemma install_succeeds_witness :
  exists fs',
    install Sample.fetch_script
      (boot (Dir [("proj", Dir [("scripts", Dir []);
               ("vendor", Dir [("poppler.zip", File Sample.release_archive)])])]))
    = (Next tt,
       World fs' ∅ []
         ([] ++ [Print (nl +:+ "[2/3] Extracting...");
                 Print (nl +:+ "[3/3] Cleaning up...")]
          ++ success_report Sample.fetch_script))
    /\ lookup (poppler_dir Sample.fetch_script) fs'
       = lookup Sample.release_root Sample.release_unpacked
    /\ exists_ fs' (pdftoppm Sample.fetch_script) = true
    /\ exists_ fs' (zip_path Sample.fetch_script) = false.
Proof.
  apply (install_succeeds Sample.fetch_script _ ∅ [] []
           [(["Release-24.08.0-0"; "Library"; "bin"; "pdftoppm.exe"], Some (Raw "MZ"))]
           Sample.release_unpacked Sample.release_root);
    try reflexivity.
  split; [vm_compute; tauto|]. split; [reflexivity|].
  intros item [<-|[<-|[]]]; [discriminate|reflexivity].
Defined.

(** *** The download itself *)

Lemma report_lines size cs fs env libs out :
  size <> 0 ->
  report cs size (World fs env libs out)
  = (Next None,
     World fs env libs
       (out ++ List.map (fun c => progress_line (Z.quot (c * Urllib.bs * 100) size)) cs)).
Proof.
  intros Hs. revert out. induction cs as [|c cs IH]; intros out; simpl.
  - by rewrite app_nil_r.
  - unfold progress_hook, percent. rewrite (proj2 (Z.eqb_neq _ _) Hs).
    run_step. rewrite IH. unfold progress_line. by rewrite <- app_assoc.
Qed.

(** X4.  A download that goes through.  Into a vendor directory with no
    directory in the archive's place, and from a network that announces a
    length other than zero and delivers at least that much (or announces
    none), the download step goes on to the extraction: the archive file
    holds exactly what was received, every other entry of the vendor
    directory is as it was, and the console shows one progress line for
    each call of the hook. *)
Theorem download_stores_archive (sf : path) (fs : node)
    (env : gmap string string) (libs : list (path * dlmode)) (out : list event)
    (es : list (string * node)) (size received : Z) (body : content) :
  lookup (vendor_dir sf) fs = Some (Dir es) ->
  (forall x, child "poppler.zip" es <> Some (Dir x)) ->
  net_fails (Reply size received body) = false ->
  exists fs' es',
    download sf (Reply size received body) (World fs env libs out)
    = (Next tt,
       World fs' env libs
         (out
          ++ [Print (nl +:+ "[1/3] Downloading Poppler " +:+ POPPLER_VERSION +:+ "...");
              Print ("Downloading: " +:+ POPPLER_URL)]
          ++ List.map (fun c => progress_line (Z.quot (c * Urllib.bs * 100) size))
               (Urllib.hook_counts received)
          ++ [Print ""]))
    /\ lookup (vendor_dir sf) fs' = Some (Dir es')
    /\ child "poppler.zip" es' = Some (File body)
    /\ forall c, c <> "poppler.zip" -> child c es' = child c es.
Proof.
  intros Hv Hnd Hnet. simpl in Hnet. apply orb_false_elim in Hnet as [Hz Hshort].
  assert (exists fs0, write_file (zip_path sf) (Raw "") fs = Some fs0
            /\ lookup (vendor_dir sf) fs0
               = Some (Dir (set_child "poppler.zip" (File (Raw "")) es)))
    as (fs0 & Hw0 & Hv0).
  { unfold write_file, zip_path. at_div (vendor_dir sf) "poppler.zip".
    eapply with_dir_ok; [exact Hv|].
    destruct (child "poppler.zip" es) as [[z|x]|] eqn:E; try done.
    by destruct (Hnd x). }
  assert (exists fs1, write_file (zip_path sf) body fs0 = Some fs1
            /\ lookup (vendor_dir sf) fs1
               = Some (Dir (set_child "poppler.zip" (File body)
                              (set_child "poppler.zip" (File (Raw "")) es))))
    as (fs1 & Hw1 & Hv1).
  { unfold write_file, zip_path. at_div (vendor_dir sf) "poppler.zip".
    eapply with_dir_ok; [exact Hv0|]. by rewrite child_set_eq. }
  exists fs1. eexists. split; [|split; [exact Hv1|split]].
  - unfold download, download_file, urlretrieve. run_step.
    rewrite Hw0. run_step. unfold progress_hook at 1, percent. rewrite Hz.
    run_step. rewrite Hw1. run_step.
    rewrite report_lines by (by apply Z.eqb_neq).
    rewrite Hshort. run_step. unfold progress_line.
    rewrite <- !app_assoc. reflexivity.
  - apply child_set_eq.
  - intros c Hc. by rewrite !child_set_ne.
Qed.

(** The theorem at a 10000-byte download into an empty vendor directory. *)
Lemma download_stores_archive_witness :
  exists fs' es',
    download Sample.fetch_script (Reply 10000 10000 Sample.release_archive)
      (boot (Dir [("proj", Dir [("vendor", Dir [])])]))
    = (Next tt,
       World fs' ∅ []
         ([] ++ [Print (nl +:+ "[1/3] Downloading Poppler " +:+ POPPLER_VERSION
                        +:+ "...");
                 Print ("Downloading: " +:+ POPPLER_URL)]
          ++ List.map (fun c => progress_line (Z.quot (c * Urllib.bs * 100) 10000))
               (Urllib.hook_counts 10000)
          ++ [Print ""]))
    /\ lookup (vendor_dir Sample.fetch_script) fs' = Some (Dir es')
    /\ child "poppler.zip" es' = Some (File Sample.release_archive)
    /\ forall c, c <> "poppler.zip" -> child c es' = child c [].
Proof.
  apply (download_stores_archive Sample.fetch_script _ ∅ [] [] []);
    [reflexivity|done|reflexivity].
Defined.

(** *** The progress display *)

Lemma last_hook_count received :
  List.last (Urllib.hook_counts received) 0 = Z.of_nat (Urllib.blocks received).
Proof.
  unfold Urllib.hook_counts. rewrite seq_S, List.map_app. simpl.
  apply last_last.
Qed.

Lemma blocks_cover received :
  0 <= received -> received <= Z.of_nat (Urllib.blocks received) * Urllib.bs.
Proof.
  intros H. unfold Urllib.blocks, Urllib.bs.
  rewrite Z2Nat.id by (apply Z.div_pos; lia).
  pose proof (Z.div_mod (received + 1024 * 8 - 1) (1024 * 8) ltac:(lia)) as Hd.
  pose proof (Z.mod_pos_bound (received + 1024 * 8 - 1) (1024 * 8) ltac:(lia)) as Hm.
  lia.
Qed.

(** X5.  The progress display.  For a block size that is not negative and
    a positive total the percentage never goes down as blocks come in; the
    first call of a download shows 0, and when at least the announced
    length has arrived the last call shows 100 or more. *)
Theorem progress_display (block_size total_size : Z) :
  0 <= block_size -> 0 < total_size ->
  (forall c1 c2, c1 <= c2 ->
     exists p1 p2, percent c1 block_size total_size = Some p1
                   /\ percent c2 block_size total_size = Some p2 /\ p1 <= p2)
  /\ percent 0 block_size total_size = Some 0
  /\ (forall received, total_size <= received ->
        exists p, percent (List.last (Urllib.hook_counts received) 0)
                    Urllib.bs total_size = Some p
                  /\ 100 <= p).
Proof.
  intros Hb Ht.
  assert (forall c b, percent c b total_size
                      = Some (Z.quot (c * b * 100) total_size)) as Hp.
  { intros c b. unfold percent. destruct (Z.eqb_spec total_size 0); [lia|done]. }
  split; [|split].
  - intros c1 c2 Hc. eexists _, _. split; [apply Hp|]. split; [apply Hp|].
    apply Z.quot_le_mono; nia.
  - rewrite Hp. by rewrite Z.mul_0_l.
  - intros received Hr. eexists. split; [apply Hp|].
    rewrite last_hook_count.
    pose proof (blocks_cover received ltac:(lia)) as Hcov.
    apply Z.quot_le_lower_bound; nia.
Qed.

(** The theorem at the block size of [urlretrieve] and a 10000-byte
    download. *)
Lemma progress_display_witness :
  0 <= Urllib.bs /\ 0 < 10000
  /\ percent 0 Urllib.bs 10000 = Some 0
  /\ exists p, percent (List.last (Urllib.hook_counts 10000) 0) Urllib.bs 10000
               = Some p /\ 100 <= p.
Proof.
  assert (0 <= Urllib.bs) as H1 by (unfold Urllib.bs; lia).
  assert (0 < 10000) as H2 by lia.
  destruct (progress_display Urllib.bs 10000 H1 H2) as (_ & H0 & Hlast).
  split; [exact H1|]. split; [exact H2|]. split; [exact H0|].
  apply Hlast. lia.
Defined.

End FetcherSuccess.

(** ** Which answers confirm a re-download *)

Module AnswerFacts.
Import Str Reports.

Lemma list_of_append (a b : string) :
  String.list_ascii_of_string (a +:+ b)
  = String.list_ascii_of_string a ++ String.list_ascii_of_string b.
Proof. induction a as [|c a IH]; simpl; [done|]. by rewrite IH. Qed.

Lemma string_of_app (l1 l2 : list ascii) :
  String.string_of_list_ascii (l1 ++ l2)
  = String.string_of_list_ascii l1 +:+ String.string_of_list_ascii l2.
Proof. induction l1 as [|c l1 IH]; simpl; [done|]. by rewrite IH. Qed.

Lemma append_cons (c : ascii) (a b : string) :
  String c a +:+ b = String c (a +:+ b).
Proof. reflexivity. Qed.

Lemma append_nil_r (s : string) : s +:+ "" = s.
Proof. induction s as [|c s IH]; [done|]. by rewrite append_cons, IH. Qed.

Lemma append_assoc (a b c : string) : (a +:+ b) +:+ c = a +:+ (b +:+ c).
Proof. induction a as [|x a IH]; [done|]. by rewrite !append_cons, IH. Qed.

Lemma rev_append (a b : string) : rev (a +:+ b) = rev b +:+ rev a.
Proof.
  unfold rev. by rewrite list_of_append, List.rev_app_distr, string_of_app.
Qed.

Lemma rev_involutive (s : string) : rev (rev s) = s.
Proof.
  unfold rev. rewrite String.list_ascii_of_string_of_list_ascii, List.rev_involutive.
  apply String.string_of_list_ascii_of_string.
Qed.

Lemma rev_cons (c : ascii) (s : string) : rev (String c s) = rev s +:+ String c "".
Proof. change (String c s) with (String c "" +:+ s). by rewrite rev_append. Qed.

Lemma blank_append (a b : string) : blank (a +:+ b) = blank a && blank b.
Proof.
  induction a as [|c a IH]; [done|].
  rewrite append_cons. simpl. rewrite IH. by rewrite andb_assoc.
Qed.

Lemma blank_rev (s : string) : blank (rev s) = blank s.
Proof.
  induction s as [|c s IH]; [done|].
  rewrite rev_cons, blank_append, IH. simpl. rewrite andb_true_r. apply andb_comm.
Qed.

(** [lstrip] takes a blank prefix off, and all of it. *)
Lemma lstrip_split (s : string) :
  exists l, blank l = true /\ s = l +:+ lstrip s.
Proof.
  induction s as [|c s (l & Hl & Hs)]; simpl.
  - by exists "".
  - destruct (isspace c) eqn:Hc.
    + exists (String c l). simpl. rewrite Hc, Hl. split; [done|].
      by rewrite append_cons, <- Hs.
    + by exists "".
Qed.

Lemma lstrip_blank_prefix (l : string) (c : ascii) (r : string) :
  blank l = true -> isspace c = false -> lstrip (l +:+ String c r) = String c r.
Proof.
  intros Hl Hc. induction l as [|x l IH].
  - change ("" +:+ String c r) with (String c r). simpl. by rewrite Hc.
  - simpl in Hl. apply andb_prop in Hl as [Hx Hl].
    rewrite append_cons. simpl. rewrite Hx. auto.
Qed.

(** What [strip] leaves is what stands between a blank prefix and a blank
    suffix. *)
Lemma strip_split (s : string) :
  exists l r, blank l = true /\ blank r = true /\ s = l +:+ strip s +:+ r.
Proof.
  destruct (lstrip_split s) as (l & Hl & Hs).
  destruct (lstrip_split (rev (lstrip s))) as (r' & Hr' & Hm).
  exists l, (rev r'). split; [done|]. split; [by rewrite blank_rev|].
  unfold strip, rstrip. rewrite <- rev_append, <- Hm, rev_involutive. exact Hs.
Qed.

Lemma strip_core (l r : string) (c : ascii) :
  blank l = true -> blank r = true -> isspace c = false ->
  strip (l +:+ String c r) = String c "".
Proof.
  intros Hl Hr Hc. unfold strip, rstrip.
  rewrite lstrip_blank_prefix by done.
  rewrite rev_cons, lstrip_blank_prefix by (by rewrite ?blank_rev).
  reflexivity.
Qed.

Lemma lower_char_y (c : ascii) :
  lower_char c = "y"%char -> c = "y"%char \/ c = "Y"%char.
Proof.
  destruct c as [[] [] [] [] [] [] [] []]; vm_compute; intros H;
    first [discriminate H | by left | by right].
Qed.

Lemma lower_is_y (s : string) :
  lower s = "y" -> s = "y" \/ s = "Y".
Proof.
  destruct s as [|c [|c' s']]; simpl; try done.
  intros [= H]. by destruct (lower_char_y c H) as [->| ->]; [left|right].
Qed.

Lemma isspace_code_points (c : ascii) :
  isspace c = true
  <-> In (nat_of_ascii c) [9; 10; 11; 12; 13; 28; 29; 30; 31; 32; 133; 160]%nat.
Proof.
  destruct c as [[] [] [] [] [] [] [] []]; vm_compute; split; intros H;
    first [discriminate H | tauto | (exfalso; intuition discriminate)].
Qed.

(** X6.  Which answers confirm a re-download: exactly the letter [y], in
    either case, with nothing but white space around it, where white space
    is what Python strips: the code points 9-13, 28-32, 133 and 160 (of
    those below 256). *)
Theorem answers_that_confirm (answer : string) :
  (Fetcher.normalise answer = "y"
   <-> exists l r c,
         blank l = true /\ blank r = true
         /\ (c = "y"%char \/ c = "Y"%char)
         /\ answer = l +:+ String c r)
  /\ (forall s, blank s = true
       <-> Forall (fun c => In (nat_of_ascii c)
                              [9; 10; 11; 12; 13; 28; 29; 30; 31; 32; 133; 160]%nat)
             (String.list_ascii_of_string s)).
Proof.
  split.
  2:{ intros s. induction s as [|c s IH]; simpl.
      - split; [constructor|done].
      - rewrite andb_true_iff, IH, isspace_code_points. split.
        + intros [? ?]. by constructor.
        + intros H. by inversion H. }
  unfold Fetcher.normalise. split.
  - intros H. apply lower_is_y in H.
    destruct (strip_split answer) as (l & r & Hl & Hr & Hs).
    destruct H as [H|H]; rewrite H in Hs; exists l, r; eexists;
      (split; [exact Hl|]); (split; [exact Hr|]); (split; [|exact Hs]); auto.
  - intros (l & r & c & Hl & Hr & Hc & ->).
    rewrite strip_core; [by destruct Hc as [->| ->]|done|done|].
    by destruct Hc as [->| ->].
Qed.

End AnswerFacts.

(** ** The hook, whatever the loader does *)

Module HookMore.
Import FS Hook HookFacts Loader.

(** X7.  What a frozen run loads, whatever the loader does: the resolved
    library files that exist, Tcl first, each with [RTLD_GLOBAL], up to the
    first one the loader refuses; the hook returns when none is refused
    and ends on [OSError] otherwise.  The file system is never changed. *)
Theorem hook_loads_what_is_accepted (dlopen : path -> bool) (b : path) (w : world) :
  (run dlopen (Sys true (Some b)) w).1
  = (if all_accepted dlopen (loads (w_fs w) b) then Returned else Raised "OSError")
  /\ w_libs (run dlopen (Sys true (Some b)) w).2
     = w_libs w ++ accepted dlopen (loads (w_fs w) b)
  /\ Forall (fun l => exists_ (w_fs w) l.1 = true /\ l.2 = RTLD_GLOBAL
                      /\ exists name, l.1 = b // name)
       (accepted dlopen (loads (w_fs w) b)).
Proof.
  destruct (libs_frozen dlopen b w) as (H1 & H2 & _).
  split; [exact H1|]. split; [exact H2|].
  unfold loads, resolved.
  repeat match goal with
         | |- context [ exists_ ?fs ?p ] => destruct (exists_ fs p) eqn:?
         end;
    cbn [accepted app];
    repeat match goal with
           | |- context [ dlopen ?p ] => destruct (dlopen p)
           end;
    repeat constructor; simpl; eauto.
Qed.

(** X8.  What the hook leaves alone.  In every run, frozen or not, with
    or without [sys._MEIPASS], and whatever the loader does, the file
    system is as it was and every environment variable other than
    [TCL_LIBRARY] and [TK_LIBRARY] has the value it had. *)
Theorem hook_leaves_the_rest (dlopen : path -> bool) (sys : sys_t) (w : world)
    (k : string) :
  k <> "TCL_LIBRARY" -> k <> "TK_LIBRARY" ->
  w_fs (run dlopen sys w).2 = w_fs w
  /\ w_env (run dlopen sys w).2 !! k = w_env w !! k.
Proof.
  intros H1 H2. destruct sys as [[|] [b|]]; try done.
  split.
  - by destruct (libs_frozen dlopen b w) as (_ & _ & ?).
  - rewrite env_frozen. unfold env_after.
    destruct (is_dir _ _), (is_dir _ _); by rewrite ?lookup_insert_ne.
Qed.

(** The theorem at a bundle with the current Tcl/Tk and a [PATH]. *)
Lemma hook_leaves_the_rest_witness :
  "PATH" <> "TCL_LIBRARY" /\ "PATH" <> "TK_LIBRARY"
  /\ w_env (run (fun _ => true) (Sys true (Some Sample.bundle_dir))
              (World Sample.older_bundle {[ "PATH" := "/usr/bin" ]} [] [])).2
     !! "PATH" = Some "/usr/bin".
Proof.
  assert ("PATH" <> "TCL_LIBRARY") as H1 by done.
  assert ("PATH" <> "TK_LIBRARY") as H2 by done.
  split; [exact H1|]. split; [exact H2|].
  destruct (hook_leaves_the_rest (fun _ => true) (Sys true (Some Sample.bundle_dir))
              (World Sample.older_bundle {[ "PATH" := "/usr/bin" ]} [] [])
              "PATH" H1 H2) as [_ ->].
  reflexivity.
Defined.

End HookMore.

(** ** More of the Bundle Assembler *)

Module BuilderMore.
Import FS FSFacts BuilderFacts Builder Frame FrameFacts FetcherEnds.

(** X9.  What [find_tcl_tk_libs] returns.  Every binary is a regular file
    whose name ends in [.dylib], somewhere below the base prefix of the
    Python installation; every data directory is a directory right inside
    its [lib] whose name is [tcl] or [tk] followed by a digit; and without
    [lib] and [Library/Frameworks] nothing is found. *)
Theorem tcl_tk_libs_sound (bp : path) (fs : node) :
  Forall (fun lib => is_file fs lib = true
                     /\ Str.endswith (Path.name lib) ".dylib" = true
                     /\ Path.is_under bp lib = true)
    (find_tcl_tk_libs bp fs).1
  /\ Forall (fun d => is_dir fs d = true
                      /\ exists k, d = bp // "lib" // k
                           /\ (versioned_match "tcl" k || versioned_match "tk" k) = true)
       (find_tcl_tk_libs bp fs).2
  /\ (exists_ fs (bp // "lib") = false ->
      exists_ fs (bp // "Library" // "Frameworks") = false ->
      find_tcl_tk_libs bp fs = ([], [])).
Proof.
  split; [|split].
  - apply List.Forall_forall. intros lib Hin.
    destruct (binaries_spec bp fs lib Hin) as [Hn Hu].
    split; [|done].
    unfold find_tcl_tk_libs in Hin. cbn [fst] in Hin.
    apply List.in_app_or in Hin as [Hin|Hin].
    + destruct (exists_ fs (bp // "lib")); [|done].
      apply List.in_flat_map in Hin as (pat & _ & Hin).
      by apply List.filter_In in Hin as [_ ?].
    + destruct (exists_ fs (bp // "Library" // "Frameworks")); [|done].
      apply List.in_flat_map in Hin as (fw & _ & Hin).
      destruct (exists_ fs (bp // "Library" // "Frameworks" // fw)); [|done].
      by apply List.filter_In in Hin as [_ ?].
  - apply List.Forall_forall. intros d Hin.
    unfold find_tcl_tk_libs in Hin. cbn [snd] in Hin.
    destruct (exists_ fs (bp // "lib")); [|done].
    apply List.in_flat_map in Hin as (pat & Hpat & Hin).
    apply List.filter_In in Hin as [Hin Hd]. split; [done|].
    apply glob_In in Hin as [Hm [k ->]]. exists k. split; [done|].
    rewrite name_div in Hm.
    destruct Hpat as [<-|[<-|[]]]; rewrite Hm; by rewrite ?orb_true_r.
  - intros H1 H2. unfold find_tcl_tk_libs. by rewrite H1, H2.
Qed.

(** The theorem at a checkout with no Python libraries at all. *)
Lemma tcl_tk_libs_witness :
  exists_ Sample.fresh (Sample.python_prefix // "lib") = false
  /\ exists_ Sample.fresh (Sample.python_prefix // "Library" // "Frameworks") = false
  /\ find_tcl_tk_libs Sample.python_prefix Sample.fresh = ([], []).
Proof.
  assert (exists_ Sample.fresh (Sample.python_prefix // "lib") = false) as H1
    by reflexivity.
  assert (exists_ Sample.fresh (Sample.python_prefix // "Library" // "Frameworks")
          = false) as H2 by reflexivity.
  destruct (tcl_tk_libs_sound Sample.python_prefix Sample.fresh) as (_ & _ & H).
  split; [exact H1|]. split; [exact H2|]. exact (H H1 H2).
Defined.

(** *** The clean-up *)

Lemma remove_folder_spec sf folder w w' :
  remove_folder sf folder w = (Next tt, w') ->
  exists_ (w_fs w') (project_root sf // folder) = false
  /\ forall q, apart (project_root sf // folder) q ->
               lookup q (w_fs w') = lookup q (w_fs w).
Proof.
  destruct w as [fs env libs out]. unfold remove_folder.
  cbv beta iota delta [bind get_fs when fs_call ret w_fs w_env w_libs w_out].
  destruct (exists_ fs (project_root sf // folder)) eqn:E.
  - destruct (rmtree (project_root sf // folder) fs) as [fs'|] eqn:Hr; [|done].
    intros [= <-]. cbn [w_fs]. split.
    + pose proof (rmtree_gone _ _ _ [] Hr) as H. rewrite app_nil_r in H.
      unfold exists_. by rewrite H.
    + intros q Hq. by apply (rmtree_frame _ _ _ _ Hr).
  - intros [= <-]. by split.
Qed.

Lemma unlink_all_spec (root : path) (ks : list string) w w' :
  unlink_all (List.map (Path.div root) ks) w = (Next tt, w') ->
  (forall k, In k ks -> exists_ (w_fs w') (root // k) = false)
  /\ forall q, (forall k, In k ks -> apart (root // k) q) ->
               lookup q (w_fs w') = lookup q (w_fs w).
Proof.
  revert w. induction ks as [|k ks IH]; intros [fs env libs out]; simpl.
  - intros [= <-]. by split.
  - unfold bind at 1, fs_call at 1. cbn [w_fs w_env w_libs w_out].
    destruct (unlink (root // k) fs) as [fs1|] eqn:Hu; [|done].
    intros Hrest. destruct (IH _ Hrest) as [Hgone Hframe]. cbn [w_fs] in Hframe.
    split.
    + intros k' [<-|Hin]; [|by apply Hgone].
      destruct (List.in_dec String.string_dec k ks) as [Hin|Hout];
        [by apply Hgone|].
      unfold exists_. rewrite Hframe.
      * apply unlink_gone in Hu. exact Hu.
      * intros k' Hin. apply siblings_apart. by intros ->.
    + intros q Hq. rewrite Hframe by auto.
      apply (unlink_frame _ _ _ _ Hu). auto.
Qed.

Lemma glob_names fs root pat :
  exists ks,
    glob fs root pat = List.map (Path.div root) ks
    /\ (forall k, In k ks -> pat k = true)
    /\ (forall k, pat k = true -> exists_ fs (root // k) = true -> In k ks).
Proof.
  unfold glob, iterdir, exists_.
  destruct (lookup root fs) as [[d|es]|] eqn:Hl.
  - exists []. split; [done|]. split; [done|].
    intros k _. by rewrite lookup_div, Hl.
  - exists (List.filter pat (List.map fst es)). split; [|split].
    + clear Hl. induction es as [|[k v] es IH]; simpl; [done|].
      rewrite name_div. destruct (pat k); simpl; by rewrite IH.
    + intros k Hin. by apply List.filter_In in Hin as [_ ?].
    + intros k Hp. rewrite lookup_div, Hl.
      destruct (child k es) as [n|] eqn:Hc; [|done]. intros _.
      apply List.filter_In. split; [|done].
      apply child_In in Hc. apply List.in_map_iff. by exists (k, n).
  - exists []. split; [done|]. split; [done|].
    intros k _. by rewrite lookup_div, Hl.
Qed.

(** X10.  The pre-build clean-up (lines 120-130).  When it goes through,
    the project root holds no [build], no [dist] and nothing named
    [*.spec]; every other entry of the project root, with all below it, and
    everything outside the project root is as it was; so the bundled-toolkit
    check gives the same answer after the clean-up as before. *)
Theorem clean_leaves_the_rest (sf : path) (w w' : world) :
  clean sf w = (Next tt, w') ->
  exists_ (w_fs w') (project_root sf // "build") = false
  /\ exists_ (w_fs w') (project_root sf // "dist") = false
  /\ (forall k, affix_match "" ".spec" k = true ->
                exists_ (w_fs w') (project_root sf // k) = false)
  /\ (forall k r, k <> "build" -> k <> "dist" -> affix_match "" ".spec" k = false ->
                  lookup (project_root sf // k ++ r) (w_fs w')
                  = lookup (project_root sf // k ++ r) (w_fs w))
  /\ (forall q, apart (project_root sf) q -> lookup q (w_fs w') = lookup q (w_fs w))
  /\ has_bundled_poppler sf (w_fs w') = has_bundled_poppler sf (w_fs w).
Proof.
  unfold clean. unfold bind at 1.
  destruct (remove_folder sf "build" w) as [[[]|o1] w1] eqn:E1; [|done].
  apply remove_folder_spec in E1 as [Hb1 Hf1].
  unfold bind at 1.
  destruct (remove_folder sf "dist" w1) as [[[]|o2] w2] eqn:E2; [|done].
  apply remove_folder_spec in E2 as [Hd2 Hf2].
  unfold bind at 1, get_fs at 1.
  destruct (glob_names (w_fs w2) (project_root sf) (affix_match "" ".spec"))
    as (ks & -> & Hks & Hall).
  intros E3. apply unlink_all_spec in E3 as [Hgone Hf3].
  assert (forall k, In k ks -> k <> "build" /\ k <> "dist") as Hnames.
  { intros k Hin. apply Hks in Hin. split; by intros ->. }
  assert (forall k r, k <> "build" -> k <> "dist" ->
                      affix_match "" ".spec" k = false ->
                      lookup (project_root sf // k ++ r) (w_fs w')
                      = lookup (project_root sf // k ++ r) (w_fs w)) as Hrest.
  { intros k r Hkb Hkd Hspec.
    rewrite Hf3, Hf2, Hf1; [done| | |].
    - apply apart_below, siblings_apart. congruence.
    - apply apart_below, siblings_apart. congruence.
    - intros k' Hin. apply apart_below, siblings_apart.
      intros ->. apply Hks in Hin. congruence. }
  split; [|split; [|split; [|split; [exact Hrest|split]]]].
  - unfold exists_ in *. rewrite Hf3, Hf2; [done| |].
    + apply siblings_apart. done.
    + intros k Hin. apply siblings_apart. by apply Hnames in Hin as [? ?].
  - unfold exists_ in *. rewrite Hf3; [done|].
    intros k Hin. apply siblings_apart. by apply Hnames in Hin as [? ?].
  - intros k Hspec.
    destruct (List.in_dec String.string_dec k ks) as [Hin|Hout]; [by apply Hgone|].
    destruct (exists_ (w_fs w2) (project_root sf // k)) eqn:Hex.
    + by destruct (Hout (Hall _ Hspec Hex)).
    + unfold exists_ in *. rewrite Hf3; [done|].
      intros k' Hin. apply siblings_apart. by intros ->.
  - intros q Hq. rewrite Hf3, Hf2, Hf1; [done| | |]; intros; by apply apart_extend.
  - unfold has_bundled_poppler, exists_, poppler_bin, poppler_dir.
    rewrite (div3 (project_root sf // "vendor")), (div2 (project_root sf // "vendor")).
    by rewrite !Hrest.
Qed.

(** The theorem at the sample Mac checkout, with its old build directory
    and its stale descriptor. *)
Lemma clean_leaves_the_rest_witness :
  (clean Sample.build_script (boot Sample.mac_checkout)).1 = Next tt
  /\ exists_ (w_fs (clean Sample.build_script (boot Sample.mac_checkout)).2)
       (project_root Sample.build_script // "build") = false
  /\ has_bundled_poppler Sample.build_script
       (w_fs (clean Sample.build_script (boot Sample.mac_checkout)).2)
     = has_bundled_poppler Sample.build_script Sample.mac_checkout.
Proof.
  destruct (clean Sample.build_script (boot Sample.mac_checkout)) as [r w'] eqn:E.
  assert (r = Next tt) as -> by (by vm_compute in E; injection E as <- _).
  destruct (clean_leaves_the_rest Sample.build_script _ _ E) as (H1 & _ & _ & _ & _ & H2).
  split; [reflexivity|]. split; [exact H1|exact H2].
Defined.

End BuilderMore.

(** ** Runs of the build script *)

Module BuildRuns.
Import FS FSFacts FetcherFacts BuilderFacts Builder Frame FrameFacts FetcherEnds.

Lemma ends_unlink_all ps : ends_in raises (unlink_all ps).
Proof.
  induction ps as [|p ps IH]; simpl; [endings|].
  apply ends_bind; [endings|]. intros _. exact IH.
Qed.

Lemma ends_clean sf : ends_in raises (clean sf).
Proof.
  unfold clean, remove_folder.
  apply ends_bind; [endings|]. intros _.
  apply ends_bind; [endings|]. intros _.
  apply ends_bind; [endings|]. intros fs. apply ends_unlink_all.
Qed.

(** The clean-up says nothing and runs nothing. *)
Lemma unlink_all_out ps w : w_out (unlink_all ps w).2 = w_out w.
Proof.
  revert w. induction ps as [|p ps IH]; intros [fs env libs out]; simpl; [done|].
  unfold bind at 1, fs_call at 1. cbn [w_fs w_env w_libs w_out].
  destruct (unlink p fs) as [fs1|]; [|done]. by rewrite IH.
Qed.

Lemma remove_folder_out sf folder w : w_out (remove_folder sf folder w).2 = w_out w.
Proof.
  destruct w as [fs env libs out]. unfold remove_folder.
  cbv beta iota delta [bind get_fs when fs_call ret w_fs w_env w_libs w_out].
  destruct (exists_ fs (project_root sf // folder)); [|done].
  by destruct (rmtree (project_root sf // folder) fs).
Qed.

Lemma clean_out sf w : w_out (clean sf w).2 = w_out w.
Proof.
  unfold clean. unfold bind at 1.
  pose proof (remove_folder_out sf "build" w) as H1.
  destruct (remove_folder sf "build" w) as [[[]|o1] w1]; simpl in H1; [|done].
  unfold bind at 1.
  pose proof (remove_folder_out sf "dist" w1) as H2.
  destruct (remove_folder sf "dist" w1) as [[[]|o2] w2]; simpl in H2;
    [|simpl; congruence].
  unfold bind at 1, get_fs at 1. rewrite unlink_all_out. congruence.
Qed.

(** Lines 89-130, step by step. *)
Lemma prepare_spec sf which brew fs :
  prepare sf which brew (boot fs) =
  if is_dir fs (project_root sf) then
    match which with
    | Failed e => (Stop (Raised e), World fs ∅ [] [Spawn ["which"; "pdftoppm"]])
    | _ =>
        match brew with
        | Failed e =>
            (Stop (Raised e),
             World fs ∅ [] [Spawn ["which"; "pdftoppm"];
                            Spawn ["brew"; "--prefix"; "poppler"]])
        | _ =>
            match clean sf (World fs ∅ [] [Spawn ["which"; "pdftoppm"];
                                           Spawn ["brew"; "--prefix"; "poppler"]]) with
            | (Next _, w1) => (Next (has_bundled_poppler sf fs), w1)
            | (Stop o, w1) => (Stop o, w1)
            end
        end
    end
  else (Stop (Raised "FileNotFoundError"), boot fs).
Proof.
  unfold prepare, check_system_poppler, get_homebrew_poppler_path.
  unfold bind at 1, get_fs at 1. cbn [boot w_fs].
  destruct (is_dir fs (project_root sf)); [|reflexivity].
  destruct which as [|e|rc stdout]; [|reflexivity|destruct (rc =? 0)];
    (destruct brew as [|e'|rc' stdout']; [|reflexivity|destruct (rc' =? 0)]);
    run_step; simpl;
    destruct (clean sf _) as [[[]|o] w1]; reflexivity.
Qed.

(** Lines 132-272 on what the preparation left. *)
Lemma build_spec sf bp tool hb w1 :
  let argv := List.map render (pyinstaller_args sf bp hb (w_fs w1)) in
  finish (build sf bp tool hb w1)
  = match tool argv (w_fs w1) with
    | NotInstalled =>
        (Exited 1, World (w_fs w1) (w_env w1) (w_libs w1) (w_out w1 ++ [Spawn argv]))
    | Unrunnable e =>
        (Raised e, World (w_fs w1) (w_env w1) (w_libs w1) (w_out w1 ++ [Spawn argv]))
    | Finished rc fs2 =>
        (if (rc =? 0) && exists_ fs2 (project_root sf // "dist" // "PDF Compare.app")
         then Returned else Exited 1,
         World fs2 (w_env w1) (w_libs w1) (w_out w1 ++ [Spawn argv]))
    end.
Proof.
  intros argv. subst argv. destruct w1 as [fs1 env1 libs1 out1]. unfold build.
  cbv beta iota zeta delta [bind get_fs emit w_fs w_env w_libs w_out].
  destruct (tool _ fs1) as [|e|rc fs2]; [done|done|].
  cbv beta iota zeta delta [bind put_fs Builder.verify get_fs w_fs w_env w_libs w_out].
  destruct (rc =? 0); [|done].
  by destruct (exists_ fs2 _).
Qed.

Lemma main_prepared sf bp tool which brew fs hb w1 :
  prepare sf which brew (boot fs) = (Next hb, w1) ->
  main sf bp tool which brew fs = finish (build sf bp tool hb w1).
Proof. intros H. unfold main, main_body, bind. by rewrite H. Qed.

Lemma main_stopped sf bp tool which brew fs o w1 :
  prepare sf which brew (boot fs) = (Stop o, w1) ->
  main sf bp tool which brew fs = (o, w1).
Proof. intros H. unfold main, main_body, bind. by rewrite H. Qed.

Lemma prepared_check sf which brew fs hb w1 :
  prepare sf which brew (boot fs) = (Next hb, w1) -> hb = has_bundled_poppler sf fs.
Proof.
  rewrite prepare_spec.
  destruct (is_dir fs (project_root sf)); [|done].
  destruct which as [|e|rc stdout]; [|done|];
    (destruct brew as [|e'|rc' stdout']; [|done|]);
    destruct (clean sf _) as [[[]|o] w']; by intros [= <- <-].
Qed.

(** A preparation that goes through has run the two probes, and nothing
    else. *)
Lemma prepared_commands sf which brew fs hb w1 :
  prepare sf which brew (boot fs) = (Next hb, w1) ->
  commands (w_out w1) = [["which"; "pdftoppm"]; ["brew"; "--prefix"; "poppler"]].
Proof.
  rewrite prepare_spec.
  destruct (is_dir fs (project_root sf)); [|done].
  pose proof (clean_out sf (World fs ∅ [] [Spawn ["which"; "pdftoppm"];
                Spawn ["brew"; "--prefix"; "poppler"]])) as Ho.
  destruct which as [|e|rc stdout]; [|done|];
    (destruct brew as [|e'|rc' stdout']; [|done|]);
    destruct (clean sf _) as [[[]|o] w']; try done;
    intros [= _ <-]; simpl in Ho; by rewrite Ho.
Qed.

(** A preparation that stops the run stops it on an exception, and before
    the freezing tool is run. *)
Lemma stopped_before_the_tool sf which brew fs o w1 :
  prepare sf which brew (boot fs) = (Stop o, w1) ->
  raises o
  /\ forall argv, In argv (commands (w_out w1)) ->
       argv = ["which"; "pdftoppm"] \/ argv = ["brew"; "--prefix"; "poppler"].
Proof.
  rewrite prepare_spec.
  destruct (is_dir fs (project_root sf)).
  2:{ intros [= <- <-]. split; [apply raises_raised|]. by intros argv []. }
  assert (forall w, clean sf (World fs ∅ [] [Spawn ["which"; "pdftoppm"];
                        Spawn ["brew"; "--prefix"; "poppler"]]) = (Stop o, w) ->
            raises o
            /\ forall argv, In argv (commands (w_out w)) ->
                 argv = ["which"; "pdftoppm"] \/ argv = ["brew"; "--prefix"; "poppler"])
    as Hclean.
  { intros w Hc. split; [by apply ends_clean in Hc|].
    pose proof (clean_out sf (World fs ∅ [] [Spawn ["which"; "pdftoppm"];
                  Spawn ["brew"; "--prefix"; "poppler"]])) as Ho.
    rewrite Hc in Ho. simpl in Ho. rewrite Ho.
    intros argv [<-|[<-|[]]]; auto. }
  destruct which as [|e|rc stdout].
  2:{ intros [= <- <-]. split; [apply raises_raised|].
      intros argv [<-|[]]. by left. }
  all: destruct brew as [|e'|rc' stdout'];
    try (intros [= <- <-]; split; [apply raises_raised|];
         intros argv [<-|[<-|[]]]; by auto);
    destruct (clean sf _) as [[[]|o'] w'] eqn:Hc; try done;
    intros [= <- <-]; by apply Hclean.
Qed.

Lemma commands_app (l1 l2 : list event) :
  commands (l1 ++ l2) = commands l1 ++ commands l2.
Proof. unfold commands. apply List.flat_map_app. Qed.

(** The string the vendor entry is handed over as. *)
Lemma vendor_entry_rendered sf bp fs1 :
  In ("--add-data=" +:+ Path.str (poppler_dir sf) +:+ ":poppler")
     (List.map render (pyinstaller_args sf bp true fs1)).
Proof.
  apply List.in_map_iff. exists (AddData (poppler_dir sf) "poppler").
  split; [reflexivity|].
  unfold pyinstaller_args. destruct (find_tcl_tk_libs bp fs1) as [bins data].
  apply List.in_or_app. right. apply List.in_or_app. right.
  apply List.in_or_app. right. apply List.in_or_app. left. by left.
Qed.




(** X11.  How the build ends.  Once what comes before the argument list
    has gone through ([os.chdir], the two probes, the clean-up), the run
    returns normally exactly when the freezing tool ran, reported 0 and
    left the application at [dist/PDF Compare.app]; when the tool is not
    installed, reports another status or leaves no application, it exits
    with status 1; any other exception of the call that runs the tool
    ends the run.  The file system at the end is what the tool left, or
    what the clean-up left when the tool did not run. *)
Theorem build_exit_status (sf bp : path)
    (tool : list string -> node -> tool_result) (which brew : completed)
    (fs : node) (hb : bool) (w1 : world) :
  prepare sf which brew (boot fs) = (Next hb, w1) ->
  let argv := List.map render (pyinstaller_args sf bp hb (w_fs w1)) in
  ((main sf bp tool which brew fs).1 = Returned
   <-> exists fs2, tool argv (w_fs w1) = Finished 0 fs2
                   /\ exists_ fs2 (project_root sf // "dist" // "PDF Compare.app")
                      = true)
  /\ ((main sf bp tool which brew fs).1 = Returned
      \/ (main sf bp tool which brew fs).1 = Exited 1
      \/ exists e, tool argv (w_fs w1) = Unrunnable e
                   /\ (main sf bp tool which brew fs).1 = Raised e)
  /\ w_fs (main sf bp tool which brew fs).2
     = match tool argv (w_fs w1) with
       | NotInstalled | Unrunnable _ => w_fs w1
       | Finished _ fs2 => fs2
       end.
Proof.
  intros Hp argv. rewrite (main_prepared _ _ _ _ _ _ _ _ Hp).
  pose proof (build_spec sf bp tool hb w1) as Hb. cbv zeta in Hb.
  fold argv in Hb. rewrite Hb. clear Hb.
  destruct (tool argv (w_fs w1)) as [|e|rc fs2]; simpl.
  - split; [|by split; [right; left|]]. split; [done|]. by intros (fs2 & ? & _).
  - split; [|split; [right; right; eauto|done]].
    split; [done|]. by intros (fs2 & ? & _).
  - split; [|split; [|done]].
    + split.
      * destruct (Z.eqb_spec rc 0) as [->|]; simpl; [|done].
        destruct (exists_ fs2 _) eqn:E; [|done]. eauto.
      * intros (fs2' & [= -> <-] & ->). done.
    + destruct (_ && _); auto.
Qed.

(** The theorem at the sample checkout without the toolkit, with the two
    probe commands missing and no freezing tool installed: the run exits
    with status 1. *)
Lemma build_exit_status_witness :
  prepare Sample.build_script CommandMissing CommandMissing (boot Sample.mac_bare)
  = (Next false,
     World Sample.mac_bare ∅ []
       [Spawn ["which"; "pdftoppm"]; Spawn ["brew"; "--prefix"; "poppler"]])
  /\ (main Sample.build_script Sample.python_prefix Sample.no_tool
        CommandMissing CommandMissing Sample.mac_bare).1 = Exited 1
  /\ w_fs (main Sample.build_script Sample.python_prefix Sample.no_tool
             CommandMissing CommandMissing Sample.mac_bare).2 = Sample.mac_bare.
Proof.
  assert (prepare Sample.build_script CommandMissing CommandMissing
            (boot Sample.mac_bare)
          = (Next false,
             World Sample.mac_bare ∅ []
               [Spawn ["which"; "pdftoppm"]; Spawn ["brew"; "--prefix"; "poppler"]]))
    as H1 by reflexivity.
  destruct (build_exit_status Sample.build_script Sample.python_prefix Sample.no_tool
              CommandMissing CommandMissing Sample.mac_bare _ _ H1) as (Hr & H & Hfs).
  split; [exact H1|]. split; [|exact Hfs].
  destruct H as [H|[H|(e & He & _)]]; [|exact H|discriminate He].
  apply Hr in H as (fs2 & H & _). discriminate H.
Defined.

(** X13.  The two probes ([check_system_poppler],
    [get_homebrew_poppler_path]) do not steer the build.  Whatever the two
    commands answer -- found, not found, or no such command -- the run
    ends as it does with both commands missing, with the same file system
    and the same commands run.  Once [os.chdir] has gone through, a probe
    that raises anything but [FileNotFoundError] ends the run on that
    exception, with the file system as it was and before the freezing tool
    is run: the first probe before the second one is made. *)
Theorem probes_do_not_steer (sf bp : path)
    (tool : list string -> node -> tool_result) (which brew : completed)
    (fs : node) :
  (answers which = true -> answers brew = true ->
   (main sf bp tool which brew fs).1
   = (main sf bp tool CommandMissing CommandMissing fs).1
   /\ w_fs (main sf bp tool which brew fs).2
      = w_fs (main sf bp tool CommandMissing CommandMissing fs).2
   /\ commands (w_out (main sf bp tool which brew fs).2)
      = commands (w_out (main sf bp tool CommandMissing CommandMissing fs).2))
  /\ (forall e, is_dir fs (project_root sf) = true -> which = Failed e ->
        (main sf bp tool which brew fs).1 = Raised e
        /\ w_fs (main sf bp tool which brew fs).2 = fs
        /\ commands (w_out (main sf bp tool which brew fs).2)
           = [["which"; "pdftoppm"]])
  /\ (forall e, is_dir fs (project_root sf) = true -> answers which = true ->
        brew = Failed e ->
        (main sf bp tool which brew fs).1 = Raised e
        /\ w_fs (main sf bp tool which brew fs).2 = fs
        /\ commands (w_out (main sf bp tool which brew fs).2)
           = [["which"; "pdftoppm"]; ["brew"; "--prefix"; "poppler"]]).
Proof.
  split; [|split].
  - intros Hw Hb.
    assert (main sf bp tool which brew fs
            = main sf bp tool CommandMissing CommandMissing fs) as ->; [|done].
    unfold main, main_body, bind. rewrite !prepare_spec.
    destruct which; try done; destruct brew; done.
  - intros e Hroot ->.
    rewrite (main_stopped sf bp tool (Failed e) brew fs (Raised e)
               (World fs ∅ [] [Spawn ["which"; "pdftoppm"]])); [done|].
    by rewrite prepare_spec, Hroot.
  - intros e Hroot Hw ->.
    rewrite (main_stopped sf bp tool which (Failed e) fs (Raised e)
               (World fs ∅ [] [Spawn ["which"; "pdftoppm"];
                               Spawn ["brew"; "--prefix"; "poppler"]])); [done|].
    rewrite prepare_spec, Hroot. by destruct which.
Qed.

(** The theorem at the sample checkout: a [which] that finds the toolkit
    and a [brew] that fails change nothing of the run; a [brew] that may
    not be executed ends it. *)
Lemma probes_do_not_steer_witness :
  (main Sample.build_script Sample.python_prefix Sample.freezer
     (Completed 0 "/usr/local/bin/pdftoppm") (Completed 1 "") Sample.mac_checkout).1
  = (main Sample.build_script Sample.python_prefix Sample.freezer
       CommandMissing CommandMissing Sample.mac_checkout).1
  /\ (main Sample.build_script Sample.python_prefix Sample.freezer
        CommandMissing (Failed "PermissionError") Sample.mac_checkout).1
     = Raised "PermissionError"
  /\ w_fs (main Sample.build_script Sample.python_prefix Sample.freezer
             CommandMissing (Failed "PermissionError") Sample.mac_checkout).2
     = Sample.mac_checkout.
Proof.
  destruct (probes_do_not_steer Sample.build_script Sample.python_prefix
              Sample.freezer (Completed 0 "/usr/local/bin/pdftoppm") (Completed 1 "")
              Sample.mac_checkout) as (Ha & _ & _).
  destruct (probes_do_not_steer Sample.build_script Sample.python_prefix
              Sample.freezer CommandMissing (Failed "PermissionError")
              Sample.mac_checkout) as (_ & _ & Hc).
  destruct (Ha eq_refl eq_refl) as (Ho & _ & _).
  destruct (Hc "PermissionError" eq_refl eq_refl eq_refl) as (Hr & Hfs & _).
  split; [exact Ho|]. split; [exact Hr|exact Hfs].
Defined.

End BuildRuns.

(** ** A download that fails with nothing installed *)

Module ExitFacts.
Import FS FSFacts BuilderFacts Frame FrameFacts FetcherFrame FetcherFacts.

(** X12.  A failed download with nothing to replace.  When no toolkit is
    installed (so the operator is not asked) and the download fails, the
    run ends with exit status 1, or on the exception of a vendor directory
    that cannot be created; and apart from the archive file, of which a
    part may be left, and the directories created on the way to the vendor
    directory, the file system is as it was. *)
Theorem failed_download_leaves_the_rest (sf : path) (answer : string)
    (net : network) (fs : node) (q : path) :
  Fetcher.already_installed sf fs = false ->
  Fetcher.net_fails net = true ->
  Builder.apart (Fetcher.zip_path sf) q ->
  Path.is_under q (Fetcher.vendor_dir sf) = false ->
  ((Fetcher.main sf answer net fs).1 = Exited 1
   \/ (Fetcher.main sf answer net fs).1 = Raised "mkdir")
  /\ lookup q (w_fs (Fetcher.main sf answer net fs).2) = lookup q fs.
Proof.
  intros Hinst Hnet Hzip Hway.
  destruct (Fetcher.main sf answer net fs) as [o w'] eqn:E. simpl.
  unfold Fetcher.main in E. rewrite main_body_eq in E. unfold bind at 1 in E.
  rewrite FetcherEnds.confirm_skip in E by done.
  unfold bind at 1, fs_call at 1 in E. cbn [w_fs w_env w_libs w_out] in E.
  destruct (makedirs (Fetcher.vendor_dir sf) fs) as [fs1|] eqn:Hm.
  2:{ injection E as <- <-. by split; [right|]. }
  unfold bind at 1 in E.
  pose proof (keeps_download q sf net Hzip (World fs1 ∅ [] Fetcher.banner)) as Hk.
  destruct (download_fails sf net fs1 ∅ [] Fetcher.banner Hnet)
    as (fs' & e & pre & Hd & _).
  rewrite Hd in Hk, E. injection E as <- <-. simpl in *.
  split; [by left|]. rewrite Hk. by apply (makedirs_frame _ _ _ _ Hm).
Qed.

(** The theorem at a fresh checkout and a network that is down. *)
Lemma failed_download_witness :
  Fetcher.already_installed Sample.fetch_script Sample.fresh = false
  /\ Fetcher.net_fails (Unreachable "offline") = true
  /\ Builder.apart (Fetcher.zip_path Sample.fetch_script) ["proj"; "scripts"]
  /\ Path.is_under ["proj"; "scripts"] (Fetcher.vendor_dir Sample.fetch_script) = false
  /\ lookup ["proj"; "scripts"]
       (w_fs (Fetcher.main Sample.fetch_script "" (Unreachable "offline")
                Sample.fresh).2)
     = lookup ["proj"; "scripts"] Sample.fresh.
Proof.
  assert (Fetcher.already_installed Sample.fetch_script Sample.fresh = false) as H1
    by reflexivity.
  assert (Fetcher.net_fails (Unreachable "offline") = true) as H2 by reflexivity.
  assert (Builder.apart (Fetcher.zip_path Sample.fetch_script) ["proj"; "scripts"])
    as H3 by (by split).
  assert (Path.is_under ["proj"; "scripts"] (Fetcher.vendor_dir Sample.fetch_script)
          = false) as H4 by reflexivity.
  destruct (failed_download_leaves_the_rest Sample.fetch_script ""
              (Unreachable "offline") Sample.fresh ["proj"; "scripts"] H1 H2 H3 H4)
    as [_ H].
  split; [exact H1|]. split; [exact H2|]. split; [exact H3|].
  split; [exact H4|exact H].
Defined.

End ExitFacts.

